(** * Exadata inventory traversal

    A shallow embedding of [prototype_fetch_exadata.py]: the class
    [ExadataDataFetcher] with its paginated listings, its detail fetchers and
    the traversal [fetch_all_data], followed by the properties of the
    traversal.

    The two OCI clients are records of functions (one field per SDK method
    the script calls).  A method answers with its [.data] or throws.  Every
    method of the fetcher runs in the monad [M]: a result, an exception or
    an exhausted loop budget, together with the trace of what the run did
    (the lines it printed and the SDK calls it made). *)

From Stdlib Require Import List String Ascii ZArith Lia Bool Arith.
From Stdlib Require Import DecimalString Sorted.
Import ListNotations.
Local Open Scope string_scope.
Local Open Scope list_scope.

(** ** Exceptions *)

(** [oci.exceptions.ServiceError], [oci.exceptions.RequestException], and
    every other exception a call may throw. *)
Inductive exn : Type :=
| ServiceError (status : Z) (message : string)
| RequestException (text : string)
| OtherError (text : string).

(** ** SDK objects *)

Module Tenancy.
Record t : Type := { id : string; name : string }.
End Tenancy.

Module Compartment.
Record t : Type := { id : string; name : string; lifecycle_state : string }.
End Compartment.

Module ExadataInfrastructure.
Record t : Type :=
  { id : string;
    display_name : string;
    lifecycle_state : string;
    shape : string;
    compute_count : Z;
    storage_count : Z;
    cpus_enabled : Z;
    max_cpu_count : Z;
    memory_size_in_gbs : Z }.
End ExadataInfrastructure.

Module Ocpus.
Record t : Type := { total_cpu_count : Z; consumed_cpu_count : Z }.
End Ocpus.

Module UnAllocated.
Record t : Type := { available_cpus : Z }.
End UnAllocated.

Module VmCluster.
Record t : Type :=
  { id : string;
    display_name : string;
    lifecycle_state : string;
    gi_version : string;
    cpus_enabled : Z;
    memory_size_in_gbs : Z }.
End VmCluster.

Module IormConfig.
Record t : Type := { lifecycle_state : string; objective : string }.
End IormConfig.

Module Patch.
Record t : Type := { id : string; description : string; version : string }.
End Patch.

(** What a call answers: the [.data] of the response, or an exception. *)
Inductive response (A : Type) : Type :=
| Data (a : A)
| Throws (e : exn).
Arguments Data {A} a.
Arguments Throws {A} e.

(** The response of a listing call: [response.data] and
    [response.next_page]. *)
Record Page (A : Type) : Type :=
  { data : list A; next_page : option string }.
Arguments data {A} _.
Arguments next_page {A} _.
Arguments Build_Page {A} _ _.

(** ** The two clients *)

Module IdentityClient.
Record t : Type :=
  { get_tenancy : string -> response Tenancy.t;
    (* compartment_id, compartment_id_in_subtree, access_level, page *)
    list_compartments :
      string -> bool -> string -> option string ->
      response (Page Compartment.t) }.
End IdentityClient.

Module DatabaseClient.
Record t : Type :=
  { (* compartment_id, sort_by, sort_order, page *)
    list_exadata_infrastructures :
      string -> string -> string -> option string ->
      response (Page ExadataInfrastructure.t);
    get_exadata_infrastructure : string -> response ExadataInfrastructure.t;
    get_exadata_infrastructure_ocpus : string -> response Ocpus.t;
    get_exadata_infrastructure_un_allocated_resources :
      string -> response UnAllocated.t;
    (* compartment_id, exadata_infrastructure_id, sort_by, sort_order, page *)
    list_vm_clusters :
      string -> option string -> string -> string -> option string ->
      response (Page VmCluster.t);
    get_vm_cluster : string -> response VmCluster.t;
    get_vm_cluster_iorm_config : string -> response IormConfig.t;
    list_vm_cluster_patches : string -> response (list Patch.t) }.
End DatabaseClient.

(** The fetcher object, as [__init__] leaves it. *)
Record ExadataDataFetcher : Type :=
  { db_client : DatabaseClient.t;
    identity_client : IdentityClient.t;
    tenancy_id : string }.

(** ** Trace of a run *)

Inductive request : Type :=
| GetTenancy (tenancy : string)
| ListCompartments (compartment : string) (in_subtree : bool)
    (access_level : string) (page : option string)
| ListExadataInfrastructures (compartment sort_by sort_order : string)
    (page : option string)
| GetExadataInfrastructure (infrastructure : string)
| GetExadataInfrastructureOcpus (infrastructure : string)
| GetExadataInfrastructureUnAllocatedResources (infrastructure : string)
| ListVmClusters (compartment : string) (infrastructure : option string)
    (sort_by sort_order : string) (page : option string)
| GetVmCluster (cluster : string)
| GetVmClusterIormConfig (cluster : string)
| ListVmClusterPatches (cluster : string).

Inductive event : Type :=
| Printed (line : string)
| Called (r : request) (failure : option exn).

(** The calls whose failure the script does not absorb: every listing and
    every base record. *)
Definition mandatory (r : request) : bool :=
  match r with
  | GetExadataInfrastructureOcpus _
  | GetExadataInfrastructureUnAllocatedResources _
  | GetVmClusterIormConfig _
  | ListVmClusterPatches _ => false
  | _ => true
  end.

(** ** The monad of the fetcher's methods *)

Inductive outcome (A : Type) : Type :=
| Ok (a : A)
| Raise (e : exn)
| OutOfFuel.
Arguments Ok {A} a.
Arguments Raise {A} e.
Arguments OutOfFuel {A}.

Definition M (A : Type) : Type := (outcome A * list event)%type.

Definition ret {A} (a : A) : M A := (Ok a, []).

Definition raise {A} (e : exn) : M A := (Raise e, []).

Definition bind {A B} (m : M A) (k : A -> M B) : M B :=
  match m with
  | (Ok a, t) => let (o, t') := k a in (o, t ++ t')
  | (Raise e, t) => (Raise e, t)
  | (OutOfFuel, t) => (OutOfFuel, t)
  end.

Notation "x <- m ;; k" := (bind m (fun x => k))
  (at level 61, m at next level, right associativity).
Notation "m ;; k" := (bind m (fun _ => k))
  (at level 61, right associativity).
Notation "' pat <- m ;; k" := (bind m (fun x => match x with pat => k end))
  (at level 61, pat pattern, m at next level, right associativity).

(** [print(s)] *)
Definition print (s : string) : M unit := (Ok tt, [Printed s]).

(** One SDK call: the answer, and its entry in the trace. *)
Definition call {A} (r : request) (answer : response A) : M A :=
  match answer with
  | Data a => (Ok a, [Called r None])
  | Throws e => (Raise e, [Called r (Some e)])
  end.

(** [try: m  except ... as e: handler e] *)
Definition try_except {A} (m : M A) (handler : exn -> M A) : M A :=
  match m with
  | (Raise e, t) => let (o, t') := handler e in (o, t ++ t')
  | other => other
  end.

(** [try: x = m  except: x = default], the bare [except:] of the optional
    fetches. *)
Definition try_default {A} (m : M A) (default : A) : M A :=
  try_except m (fun _ => ret default).

(** [for x in xs: body], with the variables the body updates as state. *)
Fixpoint for_each {A S} (xs : list A) (body : A -> S -> M S) (s : S) : M S :=
  match xs with
  | [] => ret s
  | x :: xs' => s' <- body x s ;; for_each xs' body s'
  end.

(** ** Formatting *)

Definition LF : string := String (ascii_of_nat 10) EmptyString.

Definition show_nat (n : nat) : string :=
  NilZero.string_of_uint (Nat.to_uint n).

Definition show_Z (z : Z) : string :=
  NilZero.string_of_int (Z.to_int z).

(** [str(e)] for the exception printed by [Request Error: {e}]. *)
Definition exn_text (e : exn) : string :=
  match e with
  | ServiceError _ message => message
  | RequestException text => text
  | OtherError text => text
  end.

(** ** The dictionaries the fetcher builds *)

(** The entries of [all_compartments]. *)
Module CompartmentInfo.
Record t : Type :=
  { id : string; name : string; lifecycle_state : string; is_root : bool }.
End CompartmentInfo.

(** What [get_exadata_infrastructure_details] returns. *)
Record InfraDetails : Type :=
  { infrastructure : ExadataInfrastructure.t;
    ocpu_info : option Ocpus.t;
    unallocated_resources : option UnAllocated.t }.

(** What [get_vm_cluster_details] returns. *)
Record ClusterDetails : Type :=
  { cluster : VmCluster.t;
    iorm_config : option IormConfig.t;
    patches : list Patch.t }.

(** The entries of [compartment_data["infrastructures"]]. *)
Record InfraEntry : Type :=
  { details : InfraDetails;
    vm_clusters : list ClusterDetails }.

(** [compartment_data]. *)
Record CompartmentData : Type :=
  { compartment_id : string;
    compartment_name : string;
    infrastructures : list InfraEntry }.

(** The values a key of the returned dictionary can hold, and the
    dictionary [result] itself, with its keys in insertion order. *)
Inductive value : Type :=
| VStr (s : string)
| VInt (n : Z)
| VCompartments (l : list CompartmentData).

Definition Report : Type := list (string * value).

Fixpoint dict_get (k : string) (d : Report) : option value :=
  match d with
  | [] => None
  | (k', v) :: d' => if k' =? k then Some v else dict_get k d'
  end.

(** [result["compartments"]] as the consumers of the report read it. *)
Definition compartments (r : Report) : list CompartmentData :=
  match dict_get "compartments" r with
  | Some (VCompartments l) => l
  | _ => []
  end.

(** [result["compartments"].append(x)]: [result] holds that key, with a
    list, from its creation on. *)
Definition append_compartment (result : Report) (x : CompartmentData) : Report :=
  map (fun kv : string * value =>
         if fst kv =? "compartments"
         then (fst kv,
               match snd kv with
               | VCompartments l => VCompartments (l ++ [x])
               | v => v
               end)
         else kv)
      result.

(** ** Paginated listing *)

(** Truth value of a cursor: [None] and the empty string are false. *)
Definition truthy (page : option string) : bool :=
  match page with
  | Some (String _ _) => true
  | _ => false
  end.

(** The [while True] loop shared by the three listings: fetch the page at
    the cursor, let the body absorb [response.data], move to
    [response.next_page], and leave the loop when that cursor is false. *)
Fixpoint while_pages {A B} (fuel : nat) (fetch : option string -> M (Page A))
    (absorb : B -> list A -> B) (acc : B) (page : option string) : M B :=
  match fuel with
  | O => (OutOfFuel, [])
  | S fuel' =>
      response <- fetch page ;;
      let acc' := absorb acc (data response) in
      let page' := next_page response in
      if truthy page' then while_pages fuel' fetch absorb acc' page'
      else ret acc'
  end.

(** [all.extend(response.data)] *)
Definition extend {A} (acc : list A) (items : list A) : list A := acc ++ items.

(** The handler of [except oci.exceptions.ServiceError as e: print; raise]. *)
Definition reraise_service {A} (label : string) (e : exn) : M A :=
  match e with
  | ServiceError status message =>
      print (label ++ show_Z status ++ " - " ++ message) ;; raise e
  | _ => raise e
  end.

(** The handlers of [list_exadata_infrastructures], which names
    [RequestException] too. *)
Definition reraise_service_or_request {A} (e : exn) : M A :=
  match e with
  | ServiceError status message =>
      print ("Service Error: " ++ show_Z status ++ " - " ++ message) ;; raise e
  | RequestException _ =>
      print ("Request Error: " ++ exn_text e) ;; raise e
  | _ => raise e
  end.

(** ** Container discovery *)

(** The [for compartment in response.data] loop: only ACTIVE compartments
    are appended. *)
Definition append_active (all_compartments : list CompartmentInfo.t)
    (items : list Compartment.t) : list CompartmentInfo.t :=
  fold_left
    (fun acc compartment =>
       if Compartment.lifecycle_state compartment =? "ACTIVE"
       then acc ++ [ {| CompartmentInfo.id := Compartment.id compartment;
                        CompartmentInfo.name := Compartment.name compartment;
                        CompartmentInfo.lifecycle_state :=
                          Compartment.lifecycle_state compartment;
                        CompartmentInfo.is_root := false |} ]
       else acc)
    items all_compartments.

Definition list_compartments_recursive (fuel : nat) (self : ExadataDataFetcher)
    (parent_compartment_id : string)
    (all_compartments : list CompartmentInfo.t) : M (list CompartmentInfo.t) :=
  while_pages fuel
    (fun page =>
       call (ListCompartments parent_compartment_id true "ACCESSIBLE" page)
         (IdentityClient.list_compartments (identity_client self)
            parent_compartment_id true "ACCESSIBLE" page))
    append_active all_compartments None.

Definition list_all_compartments (fuel : nat) (self : ExadataDataFetcher)
  : M (list CompartmentInfo.t) :=
  try_except
    (print ("Discovering compartments in tenancy: " ++ tenancy_id self) ;;
     let all_compartments := [] in
     tenancy <- call (GetTenancy (tenancy_id self))
                  (IdentityClient.get_tenancy (identity_client self)
                     (tenancy_id self)) ;;
     let all_compartments :=
       all_compartments ++
       [ {| CompartmentInfo.id := Tenancy.id tenancy;
            CompartmentInfo.name := Tenancy.name tenancy;
            CompartmentInfo.lifecycle_state := "ACTIVE";
            CompartmentInfo.is_root := true |} ] in
     all_compartments <-
       list_compartments_recursive fuel self (tenancy_id self) all_compartments ;;
     print ("Found " ++ show_nat (List.length all_compartments)
            ++ " accessible compartment(s)" ++ LF) ;;
     ret all_compartments)
    (reraise_service "Service Error: ").

(** ** Resource enumeration *)

Definition list_exadata_infrastructures (fuel : nat) (self : ExadataDataFetcher)
    (compartment_id : string) : M (list ExadataInfrastructure.t) :=
  try_except
    (while_pages fuel
       (fun page =>
          call (ListExadataInfrastructures compartment_id "DISPLAYNAME" "ASC" page)
            (DatabaseClient.list_exadata_infrastructures (db_client self)
               compartment_id "DISPLAYNAME" "ASC" page))
       extend [] None)
    reraise_service_or_request.

Definition list_vm_clusters (fuel : nat) (self : ExadataDataFetcher)
    (compartment_id : string) (exadata_infrastructure_id : option string)
  : M (list VmCluster.t) :=
  try_except
    (while_pages fuel
       (fun page =>
          call (ListVmClusters compartment_id exadata_infrastructure_id
                  "DISPLAYNAME" "ASC" page)
            (DatabaseClient.list_vm_clusters (db_client self)
               compartment_id exadata_infrastructure_id
               "DISPLAYNAME" "ASC" page))
       extend [] None)
    (reraise_service "Service Error: ").

(** ** Detail fetchers *)

Definition get_exadata_infrastructure_details (self : ExadataDataFetcher)
    (exadata_infrastructure_id : string) : M InfraDetails :=
  try_except
    (infra <- call (GetExadataInfrastructure exadata_infrastructure_id)
                (DatabaseClient.get_exadata_infrastructure (db_client self)
                   exadata_infrastructure_id) ;;
     ocpu_info <-
       try_default
         (x <- call (GetExadataInfrastructureOcpus exadata_infrastructure_id)
                 (DatabaseClient.get_exadata_infrastructure_ocpus
                    (db_client self) exadata_infrastructure_id) ;;
          ret (Some x))
         None ;;
     unallocated <-
       try_default
         (x <- call (GetExadataInfrastructureUnAllocatedResources
                       exadata_infrastructure_id)
                 (DatabaseClient.get_exadata_infrastructure_un_allocated_resources
                    (db_client self) exadata_infrastructure_id) ;;
          ret (Some x))
         None ;;
     ret {| infrastructure := infra;
            ocpu_info := ocpu_info;
            unallocated_resources := unallocated |})
    (reraise_service "Service Error fetching infrastructure details: ").

Definition get_vm_cluster_details (self : ExadataDataFetcher)
    (vm_cluster_id : string) : M ClusterDetails :=
  try_except
    (cluster <- call (GetVmCluster vm_cluster_id)
                  (DatabaseClient.get_vm_cluster (db_client self) vm_cluster_id) ;;
     iorm_config <-
       try_default
         (x <- call (GetVmClusterIormConfig vm_cluster_id)
                 (DatabaseClient.get_vm_cluster_iorm_config (db_client self)
                    vm_cluster_id) ;;
          ret (Some x))
         None ;;
     patches <-
       try_default
         (l <- call (ListVmClusterPatches vm_cluster_id)
                 (DatabaseClient.list_vm_cluster_patches (db_client self)
                    vm_cluster_id) ;;
          ret (firstn 5 l))
         [] ;;
     ret {| cluster := cluster;
            iorm_config := iorm_config;
            patches := patches |})
    (reraise_service "Service Error fetching VM cluster details: ").

(** ** The traversal *)

(** Body of [for cluster in vm_clusters]; the state is
    [(vm_clusters_details, total_vm_clusters)]. *)
Definition cluster_step (self : ExadataDataFetcher) (cluster : VmCluster.t)
    (st : list ClusterDetails * nat) : M (list ClusterDetails * nat) :=
  let '(vm_clusters_details, total_vm_clusters) := st in
  print ("    Processing VM cluster: " ++ VmCluster.display_name cluster) ;;
  cluster_details <- get_vm_cluster_details self (VmCluster.id cluster) ;;
  ret (vm_clusters_details ++ [cluster_details], total_vm_clusters + 1).

(** Body of [for infra in infrastructures]; the state is
    [(compartment_data["infrastructures"], total_vm_clusters)]. *)
Definition infra_step (fuel : nat) (self : ExadataDataFetcher) (comp_id : string)
    (infra : ExadataInfrastructure.t)
    (st : list InfraEntry * nat) : M (list InfraEntry * nat) :=
  let '(infras, total_vm_clusters) := st in
  print ("  Processing infrastructure: "
         ++ ExadataInfrastructure.display_name infra) ;;
  infra_details <-
    get_exadata_infrastructure_details self (ExadataInfrastructure.id infra) ;;
  vm_clusters <-
    list_vm_clusters fuel self comp_id (Some (ExadataInfrastructure.id infra)) ;;
  ' (vm_clusters_details, total_vm_clusters) <-
    for_each vm_clusters (cluster_step self) ([], total_vm_clusters) ;;
  ret (infras ++ [ {| details := infra_details;
                      vm_clusters := vm_clusters_details |} ],
       total_vm_clusters).

(** Body of [for compartment in compartments_to_scan]; the state is
    [(result, total_infrastructures, total_vm_clusters)]. *)
Definition compartment_step (fuel : nat) (self : ExadataDataFetcher)
    (compartment : CompartmentInfo.t)
    (st : Report * nat * nat) : M (Report * nat * nat) :=
  let '(result, total_infrastructures, total_vm_clusters) := st in
  let comp_id := CompartmentInfo.id compartment in
  let comp_name := CompartmentInfo.name compartment in
  print ("Scanning compartment: " ++ comp_name ++ " (" ++ comp_id ++ ")") ;;
  infrastructures <- list_exadata_infrastructures fuel self comp_id ;;
  match infrastructures with
  | [] =>
      print ("  No Exadata infrastructures found" ++ LF) ;;
      ret (result, total_infrastructures, total_vm_clusters)
  | _ :: _ =>
      print ("  Found " ++ show_nat (List.length infrastructures)
             ++ " infrastructure(s)") ;;
      let total_infrastructures :=
        total_infrastructures + List.length infrastructures in
      ' (infras, total_vm_clusters) <-
        for_each infrastructures (infra_step fuel self comp_id)
          ([], total_vm_clusters) ;;
      let compartment_data :=
        {| compartment_id := comp_id;
           compartment_name := comp_name;
           infrastructures := infras |} in
      let result := append_compartment result compartment_data in
      print EmptyString ;;
      ret (result, total_infrastructures, total_vm_clusters)
  end.

Definition total_line (total_infrastructures total_vm_clusters : nat) : string :=
  (LF ++ "Total: " ++ show_nat total_infrastructures ++ " infrastructure(s), "
      ++ show_nat total_vm_clusters ++ " VM cluster(s)" ++ LF)%string.

Definition fetch_all_data (fuel : nat) (self : ExadataDataFetcher) : M Report :=
  let result : Report :=
    [ ("tenancy_id", VStr (tenancy_id self));
      ("compartments", VCompartments []) ] in
  compartments_to_scan <- list_all_compartments fuel self ;;
  let total_infrastructures := 0 in
  let total_vm_clusters := 0 in
  ' (result, total_infrastructures, total_vm_clusters) <-
    for_each compartments_to_scan (compartment_step fuel self)
      (result, total_infrastructures, total_vm_clusters) ;;
  print (total_line total_infrastructures total_vm_clusters) ;;
  ret result.

(** ** Cursor chains *)

(** The pages a provider serves from a cursor on, when the chain of
    continuation cursors ends: each page but the last carries a true
    cursor, and the last one carries [None] or the empty string. *)
Inductive page_chain {A} (get : option string -> response (Page A))
  : option string -> list (Page A) -> Prop :=
| chain_last page pg :
    get page = Data pg ->
    truthy (next_page pg) = false ->
    page_chain get page [pg]
| chain_more page pg rest :
    get page = Data pg ->
    truthy (next_page pg) = true ->
    page_chain get (next_page pg) rest ->
    page_chain get page (pg :: rest).

(** The cursors of the calls that walk a chain. *)
Fixpoint cursors {A} (page : option string) (pages : list (Page A))
  : list (option string) :=
  match pages with
  | [] => []
  | pg :: rest => page :: cursors (next_page pg) rest
  end.

(** ** What the detail fetchers assemble *)

(** An optional sub-record: its data, or absent when the call throws. *)
Definition to_option {A} (r : response A) : option A :=
  match r with
  | Data a => Some a
  | Throws _ => None
  end.

(** The pending updates kept for a cluster: the first five listed, or
    nothing when the call throws. *)
Definition kept_patches (r : response (list Patch.t)) : list Patch.t :=
  match r with
  | Data l => firstn 5 l
  | Throws _ => []
  end.

Definition infra_details_of (self : ExadataDataFetcher) (i : string)
    (infra : ExadataInfrastructure.t) : InfraDetails :=
  {| infrastructure := infra;
     ocpu_info :=
       to_option (DatabaseClient.get_exadata_infrastructure_ocpus
                    (db_client self) i);
     unallocated_resources :=
       to_option (DatabaseClient.get_exadata_infrastructure_un_allocated_resources
                    (db_client self) i) |}.

Definition cluster_details_of (self : ExadataDataFetcher) (i : string)
    (cl : VmCluster.t) : ClusterDetails :=
  {| cluster := cl;
     iorm_config :=
       to_option (DatabaseClient.get_vm_cluster_iorm_config (db_client self) i);
     patches :=
       kept_patches (DatabaseClient.list_vm_cluster_patches (db_client self) i) |}.

(** ** The report of a successful traversal *)

(** The dictionary [result] with [cds] under ["compartments"]. *)
Definition report_of (tenancy : string) (cds : list CompartmentData) : Report :=
  [ ("tenancy_id", VStr tenancy); ("compartments", VCompartments cds) ].

(** The entry the traversal builds for a listed cluster. *)
Definition fetched_cluster (self : ExadataDataFetcher) (cl : VmCluster.t)
    (d : ClusterDetails) : Prop :=
  exists rec,
    DatabaseClient.get_vm_cluster (db_client self) (VmCluster.id cl) = Data rec /\
    d = cluster_details_of self (VmCluster.id cl) rec.

(** The entry the traversal builds for a listed infrastructure of
    compartment [comp]. *)
Definition fetched_infra (fuel : nat) (self : ExadataDataFetcher) (comp : string)
    (infra : ExadataInfrastructure.t) (e : InfraEntry) : Prop :=
  exists rec cls,
    DatabaseClient.get_exadata_infrastructure (db_client self)
      (ExadataInfrastructure.id infra) = Data rec /\
    details e = infra_details_of self (ExadataInfrastructure.id infra) rec /\
    fst (list_vm_clusters fuel self comp (Some (ExadataInfrastructure.id infra)))
    = Ok cls /\
    Forall2 (fetched_cluster self) cls (vm_clusters e).

(** The compartment entries the traversal appends while it scans the
    discovered compartments in order: none for a compartment that lists no
    infrastructure, one for each of the others. *)
Inductive scanned (fuel : nat) (self : ExadataDataFetcher)
  : list CompartmentInfo.t -> list CompartmentData -> Prop :=
| scanned_nil : scanned fuel self [] []
| scanned_skip c cs out :
    fst (list_exadata_infrastructures fuel self (CompartmentInfo.id c)) = Ok [] ->
    scanned fuel self cs out ->
    scanned fuel self (c :: cs) out
| scanned_keep c cs items entries out :
    fst (list_exadata_infrastructures fuel self (CompartmentInfo.id c)) = Ok items ->
    items <> [] ->
    Forall2 (fetched_infra fuel self (CompartmentInfo.id c)) items entries ->
    scanned fuel self cs out ->
    scanned fuel self (c :: cs)
      ({| compartment_id := CompartmentInfo.id c;
          compartment_name := CompartmentInfo.name c;
          infrastructures := entries |} :: out).

(** The totals, counted on the entries of a report. *)
Definition count_clusters_of (es : list InfraEntry) : nat :=
  list_sum (map (fun e => List.length (vm_clusters e)) es).

Definition count_infrastructures (cds : list CompartmentData) : nat :=
  list_sum (map (fun cd => List.length (infrastructures cd)) cds).

Definition count_vm_clusters (cds : list CompartmentData) : nat :=
  list_sum (map (fun cd => count_clusters_of (infrastructures cd)) cds).

(** ** What discovery collects *)

Definition is_active (c : Compartment.t) : bool :=
  Compartment.lifecycle_state c =? "ACTIVE".

(** The entry appended for a listed compartment. *)
Definition info_of (c : Compartment.t) : CompartmentInfo.t :=
  {| CompartmentInfo.id := Compartment.id c;
     CompartmentInfo.name := Compartment.name c;
     CompartmentInfo.lifecycle_state := Compartment.lifecycle_state c;
     CompartmentInfo.is_root := false |}.

(** The entry appended for the tenancy itself. *)
Definition root_info (tenancy : Tenancy.t) : CompartmentInfo.t :=
  {| CompartmentInfo.id := Tenancy.id tenancy;
     CompartmentInfo.name := Tenancy.name tenancy;
     CompartmentInfo.lifecycle_state := "ACTIVE";
     CompartmentInfo.is_root := true |}.

(** ** Ordering by display name *)

(** Strings compare as Python compares them: character by character, by
    code. *)
Definition name_le (a b : string) : Prop := String.leb a b = true.
Definition name_lt (a b : string) : Prop := String.ltb a b = true.

Definition ascending (names : list string) : Prop :=
  StronglySorted name_le names.

Definition strictly_ascending (names : list string) : Prop :=
  StronglySorted name_lt names.

(** The display names the report shows. *)
Definition entry_name (e : InfraEntry) : string :=
  ExadataInfrastructure.display_name (infrastructure (details e)).

Definition cluster_name (d : ClusterDetails) : string :=
  VmCluster.display_name (cluster d).

(** [l] is [l'] with some elements left out. *)
Inductive subsequence {A} : list A -> list A -> Prop :=
| subsequence_nil : subsequence [] []
| subsequence_skip x l l' : subsequence l l' -> subsequence l (x :: l')
| subsequence_take x l l' : subsequence l l' -> subsequence (x :: l) (x :: l').

(** The provider honours the sort the listings ask for: over the whole
    chain of pages of a scope, the items come in ascending display-name
    order. *)
Definition honours_sort (self : ExadataDataFetcher) : Prop :=
  (forall comp pages,
      page_chain (DatabaseClient.list_exadata_infrastructures (db_client self)
                    comp "DISPLAYNAME" "ASC") None pages ->
      ascending (map ExadataInfrastructure.display_name
                   (List.concat (map data pages)))) /\
  (forall comp infra pages,
      page_chain (DatabaseClient.list_vm_clusters (db_client self)
                    comp infra "DISPLAYNAME" "ASC") None pages ->
      ascending (map VmCluster.display_name (List.concat (map data pages)))).

(** The base record of a listed resource carries the display name it was
    listed under. *)
Definition names_agree (self : ExadataDataFetcher) : Prop :=
  (forall comp page pg item rec,
      DatabaseClient.list_exadata_infrastructures (db_client self)
        comp "DISPLAYNAME" "ASC" page = Data pg ->
      In item (data pg) ->
      DatabaseClient.get_exadata_infrastructure (db_client self)
        (ExadataInfrastructure.id item) = Data rec ->
      ExadataInfrastructure.display_name rec
      = ExadataInfrastructure.display_name item) /\
  (forall comp infra page pg item rec,
      DatabaseClient.list_vm_clusters (db_client self)
        comp infra "DISPLAYNAME" "ASC" page = Data pg ->
      In item (data pg) ->
      DatabaseClient.get_vm_cluster (db_client self) (VmCluster.id item)
      = Data rec ->
      VmCluster.display_name rec = VmCluster.display_name item).

(** ** Runs on the same responses *)

(** A run that ends, with a result or an exception, within its loop
    budget. *)
Definition terminates {A} (m : M A) : Prop := fst m <> OutOfFuel.

(** Two fetchers whose tenancy and whose providers' responses are the
    same, call by call. *)
Record same_responses (a b : ExadataDataFetcher) : Prop :=
  { same_tenancy_id : tenancy_id a = tenancy_id b;
    same_get_tenancy :
      forall t,
        IdentityClient.get_tenancy (identity_client a) t
        = IdentityClient.get_tenancy (identity_client b) t;
    same_list_compartments :
      forall c s l p,
        IdentityClient.list_compartments (identity_client a) c s l p
        = IdentityClient.list_compartments (identity_client b) c s l p;
    same_list_exadata_infrastructures :
      forall c s o p,
        DatabaseClient.list_exadata_infrastructures (db_client a) c s o p
        = DatabaseClient.list_exadata_infrastructures (db_client b) c s o p;
    same_get_exadata_infrastructure :
      forall i,
        DatabaseClient.get_exadata_infrastructure (db_client a) i
        = DatabaseClient.get_exadata_infrastructure (db_client b) i;
    same_get_exadata_infrastructure_ocpus :
      forall i,
        DatabaseClient.get_exadata_infrastructure_ocpus (db_client a) i
        = DatabaseClient.get_exadata_infrastructure_ocpus (db_client b) i;
    same_get_exadata_infrastructure_un_allocated_resources :
      forall i,
        DatabaseClient.get_exadata_infrastructure_un_allocated_resources
          (db_client a) i
        = DatabaseClient.get_exadata_infrastructure_un_allocated_resources
            (db_client b) i;
    same_list_vm_clusters :
      forall c i s o p,
        DatabaseClient.list_vm_clusters (db_client a) c i s o p
        = DatabaseClient.list_vm_clusters (db_client b) c i s o p;
    same_get_vm_cluster :
      forall i,
        DatabaseClient.get_vm_cluster (db_client a) i
        = DatabaseClient.get_vm_cluster (db_client b) i;
    same_get_vm_cluster_iorm_config :
      forall i,
        DatabaseClient.get_vm_cluster_iorm_config (db_client a) i
        = DatabaseClient.get_vm_cluster_iorm_config (db_client b) i;
    same_list_vm_cluster_patches :
      forall i,
        DatabaseClient.list_vm_cluster_patches (db_client a) i
        = DatabaseClient.list_vm_cluster_patches (db_client b) i }.

(** ** Optional sub-records that cannot be read *)

(** The fetcher [self] on a provider where the optional fetches selected
    by [broken] throw, and every other call answers as before. *)
Definition break_optional (broken : request -> option exn)
    (self : ExadataDataFetcher) : ExadataDataFetcher :=
  let db := db_client self in
  let or_else {A} (r : request) (answer : response A) : response A :=
    match broken r with
    | Some e => Throws e
    | None => answer
    end in
  {| db_client :=
       {| DatabaseClient.list_exadata_infrastructures :=
            DatabaseClient.list_exadata_infrastructures db;
          DatabaseClient.get_exadata_infrastructure :=
            DatabaseClient.get_exadata_infrastructure db;
          DatabaseClient.get_exadata_infrastructure_ocpus :=
            fun i =>
              or_else (GetExadataInfrastructureOcpus i)
                (DatabaseClient.get_exadata_infrastructure_ocpus db i);
          DatabaseClient.get_exadata_infrastructure_un_allocated_resources :=
            fun i =>
              or_else (GetExadataInfrastructureUnAllocatedResources i)
                (DatabaseClient.get_exadata_infrastructure_un_allocated_resources
                   db i);
          DatabaseClient.list_vm_clusters := DatabaseClient.list_vm_clusters db;
          DatabaseClient.get_vm_cluster := DatabaseClient.get_vm_cluster db;
          DatabaseClient.get_vm_cluster_iorm_config :=
            fun i =>
              or_else (GetVmClusterIormConfig i)
                (DatabaseClient.get_vm_cluster_iorm_config db i);
          DatabaseClient.list_vm_cluster_patches :=
            fun i =>
              or_else (ListVmClusterPatches i)
                (DatabaseClient.list_vm_cluster_patches db i) |};
     identity_client := identity_client self;
     tenancy_id := tenancy_id self |}.

(** A field is blanked when the fetch that fills it is broken. *)
Definition blank_if {A} (broken : request -> option exn) (r : request)
    (absent field : A) : A :=
  match broken r with
  | Some _ => absent
  | None => field
  end.

Definition degrade_infra (broken : request -> option exn) (d : InfraDetails)
  : InfraDetails :=
  let i := ExadataInfrastructure.id (infrastructure d) in
  {| infrastructure := infrastructure d;
     ocpu_info :=
       blank_if broken (GetExadataInfrastructureOcpus i) None (ocpu_info d);
     unallocated_resources :=
       blank_if broken (GetExadataInfrastructureUnAllocatedResources i) None
         (unallocated_resources d) |}.

Definition degrade_cluster (broken : request -> option exn) (d : ClusterDetails)
  : ClusterDetails :=
  let i := VmCluster.id (cluster d) in
  {| cluster := cluster d;
     iorm_config := blank_if broken (GetVmClusterIormConfig i) None (iorm_config d);
     patches := blank_if broken (ListVmClusterPatches i) [] (patches d) |}.

Definition degrade_entry (broken : request -> option exn) (e : InfraEntry)
  : InfraEntry :=
  {| details := degrade_infra broken (details e);
     vm_clusters := map (degrade_cluster broken) (vm_clusters e) |}.

Definition degrade_compartment (broken : request -> option exn)
    (cd : CompartmentData) : CompartmentData :=
  {| compartment_id := compartment_id cd;
     compartment_name := compartment_name cd;
     infrastructures := map (degrade_entry broken) (infrastructures cd) |}.

(** The report with the fields of the broken fetches blanked, and nothing
    else changed. *)
Definition degrade_report (broken : request -> option exn) (r : Report) : Report :=
  map (fun kv : string * value =>
         (fst kv,
          match snd kv with
          | VCompartments l => VCompartments (map (degrade_compartment broken) l)
          | v => v
          end))
      r.

(** The provider answers a base-record fetch with the record of the
    identifier asked for. *)
Definition id_faithful (self : ExadataDataFetcher) : Prop :=
  (forall i rec,
      DatabaseClient.get_exadata_infrastructure (db_client self) i = Data rec ->
      ExadataInfrastructure.id rec = i) /\
  (forall i rec,
      DatabaseClient.get_vm_cluster (db_client self) i = Data rec ->
      VmCluster.id rec = i).

(** ** Failing fast *)

(** A run fails fast when a mandatory call that throws ends it with the
    exception of that call. *)
Definition fail_fast {A} (m : M A) : Prop :=
  forall r e,
    In (Called r (Some e)) (snd m) -> mandatory r = true -> fst m = Raise e.

(** A run that calls nothing (it only prints). *)
Definition silent {A} (m : M A) : Prop :=
  forall r f, ~ In (Called r f) (snd m).

(** ** An in-memory provider

    A provider served from tables, for runs on concrete tenancies: pages
    are looked up by scope and cursor, records by identifier; what the
    tables do not hold answers 404, and a scope without pages lists
    nothing. *)

Module Mock.

Definition cursor_eqb (a b : option string) : bool :=
  match a, b with
  | None, None => true
  | Some x, Some y => x =? y
  | _, _ => false
  end.

Definition not_found {A} : response A :=
  Throws (ServiceError 404 "NotAuthorizedOrNotFound").

Fixpoint find {A} (k : string) (tbl : list (string * A)) : option A :=
  match tbl with
  | [] => None
  | (k', a) :: tbl' => if k' =? k then Some a else find k tbl'
  end.

Fixpoint find_page {A} (page : option string)
    (tbl : list (option string * Page A)) : option (Page A) :=
  match tbl with
  | [] => None
  | (c, pg) :: tbl' => if cursor_eqb c page then Some pg else find_page page tbl'
  end.

Definition get {A} (tbl : list (string * A)) (k : string) : response A :=
  match find k tbl with
  | Some a => Data a
  | None => not_found
  end.

Definition serve {A} (tbl : list (option string * Page A))
    (page : option string) : response (Page A) :=
  match find_page page tbl with
  | Some pg => Data pg
  | None => not_found
  end.

Definition serve_scope {A} (tbl : list (string * list (option string * Page A)))
    (scope : string) (page : option string) : response (Page A) :=
  match find scope tbl with
  | Some pages => serve pages page
  | None => Data (Build_Page [] None)
  end.

(** Every item a table of scoped pages can serve. *)
Definition all_items {A} (tbl : list (string * list (option string * Page A)))
  : list A :=
  flat_map (fun scope => flat_map (fun p => data (snd p)) (snd scope)) tbl.

Definition scope_key (compartment : string) (infra : option string) : string :=
  match infra with
  | Some i => compartment ++ "/" ++ i
  | None => compartment
  end.

Record tables : Type :=
  { root_name : string;
    compartment_pages : list (option string * Page Compartment.t);
    infra_pages :
      list (string * list (option string * Page ExadataInfrastructure.t));
    infra_records : list (string * ExadataInfrastructure.t);
    ocpus : list (string * Ocpus.t);
    unallocated : list (string * UnAllocated.t);
    cluster_pages : list (string * list (option string * Page VmCluster.t));
    cluster_records : list (string * VmCluster.t);
    iorm : list (string * IormConfig.t);
    patch_lists : list (string * list Patch.t) }.

Definition identity (tb : tables) : IdentityClient.t :=
  {| IdentityClient.get_tenancy :=
       fun t => Data {| Tenancy.id := t; Tenancy.name := root_name tb |};
     IdentityClient.list_compartments :=
       fun _ _ _ page => serve (compartment_pages tb) page |}.

Definition database (tb : tables) : DatabaseClient.t :=
  {| DatabaseClient.list_exadata_infrastructures :=
       fun c _ _ page => serve_scope (infra_pages tb) c page;
     DatabaseClient.get_exadata_infrastructure := get (infra_records tb);
     DatabaseClient.get_exadata_infrastructure_ocpus := get (ocpus tb);
     DatabaseClient.get_exadata_infrastructure_un_allocated_resources :=
       get (unallocated tb);
     DatabaseClient.list_vm_clusters :=
       fun c i _ _ page => serve_scope (cluster_pages tb) (scope_key c i) page;
     DatabaseClient.get_vm_cluster := get (cluster_records tb);
     DatabaseClient.get_vm_cluster_iorm_config := get (iorm tb);
     DatabaseClient.list_vm_cluster_patches := get (patch_lists tb) |}.

Definition fetcher (tenancy : string) (tb : tables) : ExadataDataFetcher :=
  {| db_client := database tb;
     identity_client := identity tb;
     tenancy_id := tenancy |}.

Definition compartment (i n state : string) : Compartment.t :=
  {| Compartment.id := i;
     Compartment.name := n;
     Compartment.lifecycle_state := state |}.

Definition infra (i n : string) : ExadataInfrastructure.t :=
  {| ExadataInfrastructure.id := i;
     ExadataInfrastructure.display_name := n;
     ExadataInfrastructure.lifecycle_state := "ACTIVE";
     ExadataInfrastructure.shape := "ExadataCC.X9M";
     ExadataInfrastructure.compute_count := 2;
     ExadataInfrastructure.storage_count := 3;
     ExadataInfrastructure.cpus_enabled := 8;
     ExadataInfrastructure.max_cpu_count := 16;
     ExadataInfrastructure.memory_size_in_gbs := 64 |}.

Definition vm_cluster (i n : string) : VmCluster.t :=
  {| VmCluster.id := i;
     VmCluster.display_name := n;
     VmCluster.lifecycle_state := "AVAILABLE";
     VmCluster.gi_version := "19.0.0.0";
     VmCluster.cpus_enabled := 4;
     VmCluster.memory_size_in_gbs := 32 |}.

Definition info (i n : string) (root : bool) : CompartmentInfo.t :=
  {| CompartmentInfo.id := i;
     CompartmentInfo.name := n;
     CompartmentInfo.lifecycle_state := "ACTIVE";
     CompartmentInfo.is_root := root |}.

Definition patch (i : string) : Patch.t :=
  {| Patch.id := i; Patch.description := "GI update"; Patch.version := "19" |}.

(** A tenancy with two compartments below the root.  [alpha] holds one
    infrastructure with two clusters, [beta] holds nothing, and a third
    compartment is being deleted.  The compartments come in three pages,
    the middle one empty; the infrastructures of [alpha] in two pages, the
    first one empty; the clusters in two pages, the last one closed by an
    empty cursor.  The first cluster has seven patches; the patch
    list of the second cannot be read. *)
Definition two_compartments : tables :=
  {| root_name := "root";
     compartment_pages :=
       [ (None, Build_Page [compartment "A" "alpha" "ACTIVE"] (Some "p2"));
         (Some "p2", Build_Page [] (Some "p3"));
         (Some "p3",
          Build_Page [compartment "B" "beta" "ACTIVE";
                      compartment "D" "delta" "DELETING"] None) ];
     infra_pages :=
       [ ("A", [ (None, Build_Page [] (Some "q2"));
                 (Some "q2", Build_Page [infra "i1" "exa-1"] None) ]) ];
     infra_records := [ ("i1", infra "i1" "exa-1") ];
     ocpus := [ ("i1", {| Ocpus.total_cpu_count := 16;
                          Ocpus.consumed_cpu_count := 8 |}) ];
     unallocated := [ ("i1", {| UnAllocated.available_cpus := 8 |}) ];
     cluster_pages :=
       [ ("A/i1",
          [ (None, Build_Page [vm_cluster "c1" "vm-1"] (Some "n1"));
            (Some "n1", Build_Page [vm_cluster "c2" "vm-2"] (Some EmptyString)) ]) ];
     cluster_records :=
       [ ("c1", vm_cluster "c1" "vm-1"); ("c2", vm_cluster "c2" "vm-2") ];
     iorm := [ ("c1", {| IormConfig.lifecycle_state := "ENABLED";
                         IormConfig.objective := "AUTO" |}) ];
     patch_lists :=
       [ ("c1", [patch "u1"; patch "u2"; patch "u3"; patch "u4";
                 patch "u5"; patch "u6"; patch "u7"]) ] |}.

Definition tenancy_ab : ExadataDataFetcher :=
  fetcher "ocid1.tenancy" two_compartments.

(** What discovery finds there, and the report of the traversal. *)
Definition discovered_ab : list CompartmentInfo.t :=
  [ info "ocid1.tenancy" "root" true;
    info "A" "alpha" false;
    info "B" "beta" false ].

Definition details_c1 : ClusterDetails :=
  {| cluster := vm_cluster "c1" "vm-1";
     iorm_config := Some {| IormConfig.lifecycle_state := "ENABLED";
                            IormConfig.objective := "AUTO" |};
     patches := [patch "u1"; patch "u2"; patch "u3"; patch "u4"; patch "u5"] |}.

Definition details_c2 : ClusterDetails :=
  {| cluster := vm_cluster "c2" "vm-2";
     iorm_config := None;
     patches := [] |}.

Definition entry_i1 : InfraEntry :=
  {| details :=
       {| infrastructure := infra "i1" "exa-1";
          ocpu_info := Some {| Ocpus.total_cpu_count := 16;
                               Ocpus.consumed_cpu_count := 8 |};
          unallocated_resources :=
            Some {| UnAllocated.available_cpus := 8 |} |};
     vm_clusters := [details_c1; details_c2] |}.

Definition report_ab : Report :=
  report_of "ocid1.tenancy"
    [ {| compartment_id := "A";
         compartment_name := "alpha";
         infrastructures := [entry_i1] |} ].

Definition trace_ab : list event :=
  Eval vm_compute in snd (fetch_all_data 3 tenancy_ab).

(** The OCPU record of [i1] and the IORM configuration of [c1] cannot be
    read. *)
Definition ocpus_and_iorm_down (r : request) : option exn :=
  match r with
  | GetExadataInfrastructureOcpus i =>
      if i =? "i1" then Some (ServiceError 500 "InternalError") else None
  | GetVmClusterIormConfig i =>
      if i =? "c1" then Some (OtherError "timed out") else None
  | _ => None
  end.

Definition report_ab_blanked : Report :=
  report_of "ocid1.tenancy"
    [ {| compartment_id := "A";
         compartment_name := "alpha";
         infrastructures :=
           [ {| details :=
                  {| infrastructure := infra "i1" "exa-1";
                     ocpu_info := None;
                     unallocated_resources :=
                       Some {| UnAllocated.available_cpus := 8 |} |};
                vm_clusters :=
                  [ {| cluster := vm_cluster "c1" "vm-1";
                       iorm_config := None;
                       patches := patches details_c1 |};
                    details_c2 ] |} ] |} ].

(** The same tenancy served from tables that hold a second, shadowed OCPU
    record for [i1]: another provider, with the same responses. *)
Definition two_compartments_shadowed : tables :=
  {| root_name := root_name two_compartments;
     compartment_pages := compartment_pages two_compartments;
     infra_pages := infra_pages two_compartments;
     infra_records := infra_records two_compartments;
     ocpus := ocpus two_compartments
              ++ [ ("i1", {| Ocpus.total_cpu_count := 0;
                             Ocpus.consumed_cpu_count := 0 |}) ];
     unallocated := unallocated two_compartments;
     cluster_pages := cluster_pages two_compartments;
     cluster_records := cluster_records two_compartments;
     iorm := iorm two_compartments;
     patch_lists := patch_lists two_compartments |}.

Definition tenancy_ab_shadowed : ExadataDataFetcher :=
  fetcher "ocid1.tenancy" two_compartments_shadowed.

(** The same tenancy when the cluster listing is down. *)
Definition clusters_down : ExadataDataFetcher :=
  {| db_client :=
       {| DatabaseClient.list_exadata_infrastructures :=
            DatabaseClient.list_exadata_infrastructures (db_client tenancy_ab);
          DatabaseClient.get_exadata_infrastructure :=
            DatabaseClient.get_exadata_infrastructure (db_client tenancy_ab);
          DatabaseClient.get_exadata_infrastructure_ocpus :=
            DatabaseClient.get_exadata_infrastructure_ocpus (db_client tenancy_ab);
          DatabaseClient.get_exadata_infrastructure_un_allocated_resources :=
            DatabaseClient.get_exadata_infrastructure_un_allocated_resources
              (db_client tenancy_ab);
          DatabaseClient.list_vm_clusters :=
            fun _ _ _ _ _ => Throws (ServiceError 503 "ServiceUnavailable");
          DatabaseClient.get_vm_cluster :=
            DatabaseClient.get_vm_cluster (db_client tenancy_ab);
          DatabaseClient.get_vm_cluster_iorm_config :=
            DatabaseClient.get_vm_cluster_iorm_config (db_client tenancy_ab);
          DatabaseClient.list_vm_cluster_patches :=
            DatabaseClient.list_vm_cluster_patches (db_client tenancy_ab) |};
     identity_client := identity_client tenancy_ab;
     tenancy_id := tenancy_id tenancy_ab |}.

(** A tenancy whose root is named [zeta] and whose only compartment is
    named [alpha]; the root holds two infrastructures with the same
    display name. *)
Definition zeta_tables : tables :=
  {| root_name := "zeta";
     compartment_pages :=
       [ (None, Build_Page [compartment "A" "alpha" "ACTIVE"] None) ];
     infra_pages :=
       [ ("ocid1.zeta",
          [ (None, Build_Page [infra "i1" "exa"; infra "i2" "exa"] None) ]);
         ("A", [ (None, Build_Page [infra "i3" "exa-3"] None) ]) ];
     infra_records :=
       [ ("i1", infra "i1" "exa"); ("i2", infra "i2" "exa");
         ("i3", infra "i3" "exa-3") ];
     ocpus := [];
     unallocated := [];
     cluster_pages := [];
     cluster_records := [];
     iorm := [];
     patch_lists := [] |}.

Definition tenancy_zeta : ExadataDataFetcher :=
  fetcher "ocid1.zeta" zeta_tables.

Definition discovered_zeta : list CompartmentInfo.t :=
  [ info "ocid1.zeta" "zeta" true; info "A" "alpha" false ].

Definition bare_entry (i n : string) : InfraEntry :=
  {| details := {| infrastructure := infra i n;
                   ocpu_info := None;
                   unallocated_resources := None |};
     vm_clusters := [] |}.

Definition report_zeta : Report :=
  report_of "ocid1.zeta"
    [ {| compartment_id := "ocid1.zeta";
         compartment_name := "zeta";
         infrastructures := [bare_entry "i1" "exa"; bare_entry "i2" "exa"] |};
      {| compartment_id := "A";
         compartment_name := "alpha";
         infrastructures := [bare_entry "i3" "exa-3"] |} ].

(** A provider that serves compartment [A] on both pages of the
    listing. *)
Definition repeating_tables : tables :=
  {| root_name := "root";
     compartment_pages :=
       [ (None, Build_Page [compartment "A" "alpha" "ACTIVE"] (Some "p2"));
         (Some "p2", Build_Page [compartment "A" "alpha" "ACTIVE"] None) ];
     infra_pages := [];
     infra_records := [];
     ocpus := [];
     unallocated := [];
     cluster_pages := [];
     cluster_records := [];
     iorm := [];
     patch_lists := [] |}.

Definition tenancy_repeating : ExadataDataFetcher :=
  fetcher "ocid1.tenancy" repeating_tables.

End Mock.

(** ** How a run ends, and what it asks of the provider *)

(** A run that raises does so on its last call, a mandatory one: what
    follows that call in the trace holds no call. *)
Definition raised_by_last_call {A} (m : M A) : Prop :=
  forall e,
    fst m = Raise e ->
    exists r before after,
      snd m = before ++ Called r (Some e) :: after /\
      mandatory r = true /\
      forall r' f, ~ In (Called r' f) after.

(** The labels of the three [Service Error] messages. *)
Definition service_labels : list string :=
  [ "Service Error: ";
    "Service Error fetching infrastructure details: ";
    "Service Error fetching VM cluster details: " ].

(** A run that raises a service error prints its status and message
    last. *)
Definition logs_service_error {A} (m : M A) : Prop :=
  forall status message,
    fst m = Raise (ServiceError status message) ->
    exists label before,
      In label service_labels /\
      snd m = before ++ [Printed (label ++ show_Z status ++ " - " ++ message)%string].

(** The requests the fetcher [self] makes: the tenancy it was given, its
    whole accessible subtree, resources in display-name order, and
    clusters narrowed to one infrastructure. *)
Definition expected_request (self : ExadataDataFetcher) (r : request) : Prop :=
  match r with
  | GetTenancy t => t = tenancy_id self
  | ListCompartments c in_subtree access _ =>
      c = tenancy_id self /\ in_subtree = true /\ access = "ACCESSIBLE"
  | ListExadataInfrastructures _ sort_by sort_order _ =>
      sort_by = "DISPLAYNAME" /\ sort_order = "ASC"
  | ListVmClusters _ infra sort_by sort_order _ =>
      infra <> None /\ sort_by = "DISPLAYNAME" /\ sort_order = "ASC"
  | _ => True
  end.

Definition asks_as_expected (self : ExadataDataFetcher) {A} (m : M A) : Prop :=
  forall r f, In (Called r f) (snd m) -> expected_request self r.

(** What the provider lists in a scope, when the listing returns. *)
Definition listed_infrastructures (fuel : nat) (self : ExadataDataFetcher)
    (comp : string) : list ExadataInfrastructure.t :=
  match fst (list_exadata_infrastructures fuel self comp) with
  | Ok items => items
  | _ => []
  end.

Definition listed_clusters (fuel : nat) (self : ExadataDataFetcher)
    (comp : string) (infra : ExadataInfrastructure.t) : list VmCluster.t :=
  match fst (list_vm_clusters fuel self comp
               (Some (ExadataInfrastructure.id infra))) with
  | Ok cls => cls
  | _ => []
  end.

Definition has_infrastructure (fuel : nat) (self : ExadataDataFetcher)
    (c : CompartmentInfo.t) : bool :=
  match listed_infrastructures fuel self (CompartmentInfo.id c) with
  | [] => false
  | _ :: _ => true
  end.

(** A provider whose infrastructure listing hands out a further cursor on
    every page. *)
Definition endless_listing : ExadataDataFetcher :=
  {| db_client :=
       {| DatabaseClient.list_exadata_infrastructures :=
            fun _ _ _ _ =>
              Data (Build_Page [Mock.infra "i1" "exa-1"] (Some "more"));
          DatabaseClient.get_exadata_infrastructure :=
            DatabaseClient.get_exadata_infrastructure (db_client Mock.tenancy_ab);
          DatabaseClient.get_exadata_infrastructure_ocpus :=
            DatabaseClient.get_exadata_infrastructure_ocpus
              (db_client Mock.tenancy_ab);
          DatabaseClient.get_exadata_infrastructure_un_allocated_resources :=
            DatabaseClient.get_exadata_infrastructure_un_allocated_resources
              (db_client Mock.tenancy_ab);
          DatabaseClient.list_vm_clusters :=
            DatabaseClient.list_vm_clusters (db_client Mock.tenancy_ab);
          DatabaseClient.get_vm_cluster :=
            DatabaseClient.get_vm_cluster (db_client Mock.tenancy_ab);
          DatabaseClient.get_vm_cluster_iorm_config :=
            DatabaseClient.get_vm_cluster_iorm_config (db_client Mock.tenancy_ab);
          DatabaseClient.list_vm_cluster_patches :=
            DatabaseClient.list_vm_cluster_patches (db_client Mock.tenancy_ab) |};
     identity_client := identity_client Mock.tenancy_ab;
     tenancy_id := tenancy_id Mock.tenancy_ab |}.

(** ** The summaries *)

(** The attributes of the SDK objects that only the summaries and the
    saved document read, as Python renders them.  The SLO status may be
    missing; the database servers are a list. *)
Module InfraText.
Record t : Type :=
  { availability_domain : string;
    time_created : string;
    max_memory_in_gbs : string;
    db_node_storage_size_in_gbs : string;
    data_storage_size_in_tbs : string;
    max_data_storage_in_t_bs : string;
    admin_network_cidr : string;
    infini_band_network_cidr : string;
    gateway : string;
    storage_server_version : string;
    db_server_version : string;
    maintenance_slo_status : option string }.
End InfraText.

Module ClusterText.
Record t : Type :=
  { shape : string;
    vm_cluster_type : string;
    system_version : string;
    ocpus_enabled : string;
    db_node_storage_size_in_gbs : string;
    data_storage_size_in_tbs : string;
    license_model : string;
    is_local_backup_enabled : string;
    is_sparse_diskgroup_enabled : string;
    storage_management_type : string;
    compute_model : string;
    db_servers : list string }.
End ClusterText.

(** How the SDK presents its objects: the further attributes of an
    infrastructure and of a cluster, and [str(e)] of an exception. *)
Record Attributes : Type :=
  { infra_text : ExadataInfrastructure.t -> InfraText.t;
    cluster_text : VmCluster.t -> ClusterText.t;
    exception_text : exn -> string }.

(** [s * n] *)
Fixpoint times (n : nat) (s : string) : string :=
  match n with
  | O => EmptyString
  | S n' => (s ++ times n' s)%string
  end.

(** The text of an optional attribute that is there. *)
Definition text_of (o : option string) : string :=
  match o with
  | Some s => s
  | None => "None"
  end.

(** The list [output] of [format_infrastructure_summary]. *)
Definition infrastructure_summary_lines (sdk : Attributes)
    (infra_data : InfraDetails) : list string :=
  let infra := infrastructure infra_data in
  let more := infra_text sdk infra in
  [ times 80 "=";
    ("INFRASTRUCTURE: " ++ ExadataInfrastructure.display_name infra)%string;
    times 80 "=";
    ("OCID: " ++ ExadataInfrastructure.id infra)%string;
    ("State: " ++ ExadataInfrastructure.lifecycle_state infra)%string;
    ("Shape: " ++ ExadataInfrastructure.shape infra)%string;
    ("Availability Domain: " ++ InfraText.availability_domain more)%string;
    ("Created: " ++ InfraText.time_created more)%string;
    (LF ++ "HARDWARE:")%string;
    ("  Compute Servers: "
     ++ show_Z (ExadataInfrastructure.compute_count infra))%string;
    ("  Storage Servers: "
     ++ show_Z (ExadataInfrastructure.storage_count infra))%string;
    (LF ++ "RESOURCES:")%string;
    ("  CPUs: " ++ show_Z (ExadataInfrastructure.cpus_enabled infra) ++ " / "
     ++ show_Z (ExadataInfrastructure.max_cpu_count infra))%string;
    ("  Memory: " ++ show_Z (ExadataInfrastructure.memory_size_in_gbs infra)
     ++ " GB / " ++ InfraText.max_memory_in_gbs more ++ " GB")%string;
    ("  DB Node Storage: " ++ InfraText.db_node_storage_size_in_gbs more
     ++ " GB")%string;
    ("  Data Storage: " ++ InfraText.data_storage_size_in_tbs more ++ " TB / "
     ++ InfraText.max_data_storage_in_t_bs more ++ " TB")%string ]
  ++ match ocpu_info infra_data with
     | Some ocpu =>
         [ (LF ++ "OCPU INFO:")%string;
           ("  Total: " ++ show_Z (Ocpus.total_cpu_count ocpu))%string;
           ("  Consumed: " ++ show_Z (Ocpus.consumed_cpu_count ocpu))%string ]
     | None => []
     end
  ++ match unallocated_resources infra_data with
     | Some unallocated =>
         [ (LF ++ "UNALLOCATED:")%string;
           ("  Available CPUs: "
            ++ show_Z (UnAllocated.available_cpus unallocated))%string ]
     | None => []
     end
  ++ [ (LF ++ "NETWORK:")%string;
       ("  Admin CIDR: " ++ InfraText.admin_network_cidr more)%string;
       ("  InfiniBand CIDR: " ++ InfraText.infini_band_network_cidr more)%string;
       ("  Gateway: " ++ InfraText.gateway more)%string;
       (LF ++ "SOFTWARE:")%string;
       ("  Storage Server Version: "
        ++ InfraText.storage_server_version more)%string;
       ("  DB Server Version: " ++ InfraText.db_server_version more)%string;
       (LF ++ "MAINTENANCE:")%string ]
  ++ (if truthy (InfraText.maintenance_slo_status more)
      then [ ("  SLO Status: "
              ++ text_of (InfraText.maintenance_slo_status more))%string ]
      else []).

Definition format_infrastructure_summary (sdk : Attributes)
    (infra_data : InfraDetails) : string :=
  String.concat LF (infrastructure_summary_lines sdk infra_data).

(** The list [output] of [format_vm_cluster_summary]. *)
Definition vm_cluster_summary_lines (sdk : Attributes)
    (cluster_data : ClusterDetails) : list string :=
  let cluster := cluster cluster_data in
  let more := cluster_text sdk cluster in
  [ (LF ++ "  " ++ times 76 "-")%string;
    ("  VM CLUSTER: " ++ VmCluster.display_name cluster)%string;
    ("  " ++ times 76 "-")%string;
    ("  OCID: " ++ VmCluster.id cluster)%string;
    ("  State: " ++ VmCluster.lifecycle_state cluster)%string;
    ("  Shape: " ++ ClusterText.shape more)%string;
    ("  Cluster Type: " ++ ClusterText.vm_cluster_type more)%string;
    (LF ++ "  SOFTWARE:")%string;
    ("    Grid Infrastructure: " ++ VmCluster.gi_version cluster)%string;
    ("    System Version: " ++ ClusterText.system_version more)%string;
    (LF ++ "  RESOURCES:")%string;
    ("    CPUs Enabled: " ++ show_Z (VmCluster.cpus_enabled cluster))%string;
    ("    OCPUs Enabled: " ++ ClusterText.ocpus_enabled more)%string;
    ("    Memory: " ++ show_Z (VmCluster.memory_size_in_gbs cluster)
     ++ " GB")%string;
    ("    DB Node Storage: " ++ ClusterText.db_node_storage_size_in_gbs more
     ++ " GB")%string;
    ("    Data Storage: " ++ ClusterText.data_storage_size_in_tbs more
     ++ " TB")%string;
    (LF ++ "  CONFIGURATION:")%string;
    ("    License Model: " ++ ClusterText.license_model more)%string;
    ("    Local Backup: " ++ ClusterText.is_local_backup_enabled more)%string;
    ("    Sparse Diskgroup: "
     ++ ClusterText.is_sparse_diskgroup_enabled more)%string;
    ("    Storage Management: "
     ++ ClusterText.storage_management_type more)%string;
    ("    Compute Model: " ++ ClusterText.compute_model more)%string ]
  ++ match ClusterText.db_servers more with
     | _ :: _ =>
         [ (LF ++ "  DATABASE SERVERS: "
            ++ show_nat (List.length (ClusterText.db_servers more)))%string ]
     | [] => []
     end
  ++ match iorm_config cluster_data with
     | Some iorm =>
         [ (LF ++ "  IORM:")%string;
           ("    State: " ++ IormConfig.lifecycle_state iorm)%string;
           ("    Objective: " ++ IormConfig.objective iorm)%string ]
     | None => []
     end.

Definition format_vm_cluster_summary (sdk : Attributes)
    (cluster_data : ClusterDetails) : string :=
  String.concat LF (vm_cluster_summary_lines sdk cluster_data).

(** ** The saved document *)

(** The dictionaries of [json_data]. *)
Module JsonInfrastructure.
Record t : Type :=
  { id : string;
    display_name : string;
    lifecycle_state : string;
    shape : string;
    compute_count : Z;
    storage_count : Z;
    cpus_enabled : Z;
    max_cpu_count : Z;
    memory_size_in_gbs : Z;
    data_storage_size_in_tbs : string }.
End JsonInfrastructure.

Module JsonCluster.
Record t : Type :=
  { id : string;
    display_name : string;
    lifecycle_state : string;
    gi_version : string;
    cpus_enabled : Z;
    memory_size_in_gbs : Z;
    data_storage_size_in_tbs : string }.
End JsonCluster.

Module JsonEntry.
Record t : Type :=
  { infrastructure : JsonInfrastructure.t;
    vm_clusters : list JsonCluster.t }.
End JsonEntry.

Module JsonCompartment.
Record t : Type :=
  { compartment_id : string;
    compartment_name : string;
    infrastructures : list JsonEntry.t }.
End JsonCompartment.

Module JsonData.
Record t : Type :=
  { tenancy_id : value;
    compartments : list JsonCompartment.t }.
End JsonData.

(** [cluster_dict] *)
Definition cluster_dict (sdk : Attributes) (cluster_data : ClusterDetails)
  : JsonCluster.t :=
  let cl := cluster cluster_data in
  {| JsonCluster.id := VmCluster.id cl;
     JsonCluster.display_name := VmCluster.display_name cl;
     JsonCluster.lifecycle_state := VmCluster.lifecycle_state cl;
     JsonCluster.gi_version := VmCluster.gi_version cl;
     JsonCluster.cpus_enabled := VmCluster.cpus_enabled cl;
     JsonCluster.memory_size_in_gbs := VmCluster.memory_size_in_gbs cl;
     JsonCluster.data_storage_size_in_tbs :=
       ClusterText.data_storage_size_in_tbs (cluster_text sdk cl) |}.

(** [infra_dict], once the loop over the clusters has filled it. *)
Definition infra_dict (sdk : Attributes) (infra_data : InfraEntry) : JsonEntry.t :=
  let infra := infrastructure (details infra_data) in
  {| JsonEntry.infrastructure :=
       {| JsonInfrastructure.id := ExadataInfrastructure.id infra;
          JsonInfrastructure.display_name :=
            ExadataInfrastructure.display_name infra;
          JsonInfrastructure.lifecycle_state :=
            ExadataInfrastructure.lifecycle_state infra;
          JsonInfrastructure.shape := ExadataInfrastructure.shape infra;
          JsonInfrastructure.compute_count :=
            ExadataInfrastructure.compute_count infra;
          JsonInfrastructure.storage_count :=
            ExadataInfrastructure.storage_count infra;
          JsonInfrastructure.cpus_enabled :=
            ExadataInfrastructure.cpus_enabled infra;
          JsonInfrastructure.max_cpu_count :=
            ExadataInfrastructure.max_cpu_count infra;
          JsonInfrastructure.memory_size_in_gbs :=
            ExadataInfrastructure.memory_size_in_gbs infra;
          JsonInfrastructure.data_storage_size_in_tbs :=
            InfraText.data_storage_size_in_tbs (infra_text sdk infra) |};
     JsonEntry.vm_clusters :=
       fold_left (fun acc cluster_data => acc ++ [cluster_dict sdk cluster_data])
         (vm_clusters infra_data) [] |}.

(** [compartment_dict], once the loop over the infrastructures has filled
    it. *)
Definition compartment_dict (sdk : Attributes) (compartment_data : CompartmentData)
  : JsonCompartment.t :=
  {| JsonCompartment.compartment_id := compartment_id compartment_data;
     JsonCompartment.compartment_name := compartment_name compartment_data;
     JsonCompartment.infrastructures :=
       fold_left (fun acc infra_data => acc ++ [infra_dict sdk infra_data])
         (infrastructures compartment_data) [] |}.

(** [json_data], once the loop over the compartments has filled it. *)
Definition json_data_of (sdk : Attributes) (tenancy : value)
    (comps : list CompartmentData) : JsonData.t :=
  {| JsonData.tenancy_id := tenancy;
     JsonData.compartments :=
       fold_left
         (fun acc compartment_data => acc ++ [compartment_dict sdk compartment_data])
         comps [] |}.

(** ** The command line program *)

(** [data[key]]: a missing key is a [KeyError]. *)
Definition subscript (data : Report) (key : string) : M value :=
  match dict_get key data with
  | Some v => ret v
  | None => raise (OtherError ("'" ++ key ++ "'"))
  end.

(** Truth value of what a key holds. *)
Definition truth (v : value) : bool :=
  match v with
  | VStr EmptyString => false
  | VStr _ => true
  | VInt n => negb (Z.eqb n 0)
  | VCompartments [] => false
  | VCompartments _ => true
  end.

(** [for compartment_data in v]: only the list of compartments can be
    walked; anything else that is true ends in a [TypeError]. *)
Definition iterate (v : value) : M (list CompartmentData) :=
  match v with
  | VCompartments l => ret l
  | _ => raise (OtherError "TypeError")
  end.

(** The three display loops. *)
Definition show_cluster (sdk : Attributes) (cluster_data : ClusterDetails)
    (_ : unit) : M unit :=
  print (format_vm_cluster_summary sdk cluster_data).

Definition show_infrastructure (sdk : Attributes) (infra_data : InfraEntry)
    (_ : unit) : M unit :=
  print (format_infrastructure_summary sdk (details infra_data)) ;;
  match vm_clusters infra_data with
  | _ :: _ =>
      print (LF ++ "  VM CLUSTERS: "
             ++ show_nat (List.length (vm_clusters infra_data))) ;;
      for_each (vm_clusters infra_data) (show_cluster sdk) tt
  | [] => print (LF ++ "  No VM clusters found for this infrastructure.")
  end ;;
  print LF.

Definition show_compartment (sdk : Attributes) (compartment_data : CompartmentData)
    (_ : unit) : M unit :=
  print (LF ++ "COMPARTMENT: " ++ compartment_name compartment_data) ;;
  print ("OCID: " ++ compartment_id compartment_data) ;;
  print (times 80 "=") ;;
  for_each (infrastructures compartment_data) (show_infrastructure sdk) tt.

Definition program_banner : M unit :=
  print (times 80 "=") ;;
  print "OCI ExadataCC Data Fetcher - Prototype" ;;
  print (times 80 "=") ;;
  print EmptyString.

Definition results_banner : M unit :=
  print (times 80 "=") ;;
  print "RESULTS" ;;
  print (times 80 "=") ;;
  print EmptyString.

(** What the program does besides running the fetcher: it writes a
    traceback, and it dumps a document to a file. *)
Inductive main_event : Type :=
| Ran (e : event)
| Traceback (e : exn)
| Dumped (path : string) (doc : JsonData.t).

Definition Run (A : Type) : Type := (outcome A * list main_event)%type.

Definition lift {A} (m : M A) : Run A := (fst m, map Ran (snd m)).

Definition run_bind {A B} (m : Run A) (k : A -> Run B) : Run B :=
  match m with
  | (Ok a, t) => let (o, t') := k a in (o, t ++ t')
  | (Raise e, t) => (Raise e, t)
  | (OutOfFuel, t) => (OutOfFuel, t)
  end.

Declare Scope run_scope.
Delimit Scope run_scope with run.
Notation "x <- m ;; k" := (run_bind m (fun x => k))
  (at level 61, m at next level, right associativity) : run_scope.

(** What surrounds the program: the constructor of the fetcher, which
    reads the configuration of a profile and may throw, and the file
    system, where opening the output file may throw. *)
Record Environment : Type :=
  { new_fetcher : string -> response ExadataDataFetcher;
    open_output : string -> option exn }.

(** The parsed arguments; [--profile] defaults to [DEFAULT] and
    [--output] to [exadata_data.json]. *)
Record Args : Type := { profile : string; output : string }.

Definition default_args : Args :=
  {| profile := "DEFAULT"; output := "exadata_data.json" |}.

(** [ExadataDataFetcher(profile=...)] *)
Definition construct (env : Environment) (profile : string)
  : Run ExadataDataFetcher :=
  match new_fetcher env profile with
  | Data fetcher => (Ok fetcher, [])
  | Throws e => (Raise e, [])
  end.

(** [with open(output_file, 'w') as f: json.dump(json_data, f, indent=2)] *)
Definition dump (env : Environment) (path : string) (doc : JsonData.t)
  : Run unit :=
  match open_output env path with
  | None => (Ok tt, [Dumped path doc])
  | Some e => (Raise e, [])
  end.

(** The body of the [try] of [main]. *)
Definition main_try (fuel : nat) (sdk : Attributes) (env : Environment)
    (args : Args) : Run unit :=
  (fetcher <- construct env (profile args) ;;
   data <- lift (fetch_all_data fuel fetcher) ;;
   _ <- lift results_banner ;;
   listed <- lift (subscript data "compartments") ;;
   if negb (truth listed)
   then lift (print "No Exadata infrastructures found.")
   else
     comps <- lift (iterate listed) ;;
     _ <- lift (for_each comps (show_compartment sdk) tt) ;;
     _ <- lift (print ("Saving raw data to " ++ output args ++ "...")) ;;
     tenancy <- lift (subscript data "tenancy_id") ;;
     _ <- dump env (output args) (json_data_of sdk tenancy comps) ;;
     lift (print "Data saved successfully!"))%run.

(** [main], after the arguments were parsed: the exit status of the
    process (none while the traversal has not ended) and what it did. *)
Definition main (fuel : nat) (sdk : Attributes) (env : Environment)
    (args : Args) : option nat * list main_event :=
  let (o, t) := (_ <- lift program_banner ;; main_try fuel sdk env args)%run in
  match o with
  | Ok _ => (Some 0, t)
  | Raise e =>
      (Some 1,
       t ++ [ Ran (Printed (LF ++ "Error occurred: " ++ exception_text sdk e));
              Traceback e ])
  | OutOfFuel => (None, t)
  end.

(** The files a run wrote, the lines it printed and the calls it made. *)
Definition saved (t : list main_event) : list (string * JsonData.t) :=
  flat_map (fun ev => match ev with Dumped p d => [(p, d)] | _ => [] end) t.

Definition printed (t : list main_event) : list string :=
  flat_map (fun ev => match ev with Ran (Printed s) => [s] | _ => [] end) t.

Definition called (t : list main_event) : list request :=
  flat_map (fun ev => match ev with Ran (Called r _) => [r] | _ => [] end) t.

(** The surroundings of the runs on the tenancies above. *)
Definition plain_attributes : Attributes :=
  {| infra_text :=
       fun _ =>
         {| InfraText.availability_domain := "AD-1";
            InfraText.time_created := "2024-01-01 00:00:00+00:00";
            InfraText.max_memory_in_gbs := "128";
            InfraText.db_node_storage_size_in_gbs := "900";
            InfraText.data_storage_size_in_tbs := "12.5";
            InfraText.max_data_storage_in_t_bs := "50.0";
            InfraText.admin_network_cidr := "10.0.0.0/24";
            InfraText.infini_band_network_cidr := "10.0.1.0/24";
            InfraText.gateway := "10.0.0.1";
            InfraText.storage_server_version := "23.1";
            InfraText.db_server_version := "23.1";
            InfraText.maintenance_slo_status := Some "OK" |};
     cluster_text :=
       fun _ =>
         {| ClusterText.shape := "ExadataCC.X9M";
            ClusterText.vm_cluster_type := "REGULAR";
            ClusterText.system_version := "23.1";
            ClusterText.ocpus_enabled := "2.0";
            ClusterText.db_node_storage_size_in_gbs := "120";
            ClusterText.data_storage_size_in_tbs := "4.0";
            ClusterText.license_model := "LICENSE_INCLUDED";
            ClusterText.is_local_backup_enabled := "False";
            ClusterText.is_sparse_diskgroup_enabled := "False";
            ClusterText.storage_management_type := "ASM";
            ClusterText.compute_model := "OCPU";
            ClusterText.db_servers := ["db1"; "db2"] |};
     exception_text := exn_text |}.

Definition environment_of (fetcher : ExadataDataFetcher) : Environment :=
  {| new_fetcher :=
       fun profile =>
         if profile =? "DEFAULT" then Data fetcher
         else Throws (OtherError "ProfileNotFound");
     open_output := fun _ => None |}.

(** The surroundings [env] with the optional fetches selected by [broken]
    failing in every fetcher it constructs. *)
Definition with_broken_optional (broken : request -> option exn)
    (env : Environment) : Environment :=
  {| new_fetcher :=
       fun profile =>
         match new_fetcher env profile with
         | Data fetcher => Data (break_optional broken fetcher)
         | Throws e => Throws e
         end;
     open_output := open_output env |}.

(** ** Outlines *)

(** What a report and a saved document list: per compartment its
    identifier and name, per infrastructure its identifier, per cluster
    its identifier, in order. *)
Definition report_outline (cds : list CompartmentData)
  : list (string * string * list (string * list string)) :=
  map (fun cd =>
         (compartment_id cd, compartment_name cd,
          map (fun e =>
                 (ExadataInfrastructure.id (infrastructure (details e)),
                  map (fun d => VmCluster.id (cluster d)) (vm_clusters e)))
              (infrastructures cd)))
      cds.

Definition document_outline (doc : JsonData.t)
  : list (string * string * list (string * list string)) :=
  map (fun cd =>
         (JsonCompartment.compartment_id cd, JsonCompartment.compartment_name cd,
          map (fun e =>
                 (JsonInfrastructure.id (JsonEntry.infrastructure e),
                  map JsonCluster.id (JsonEntry.vm_clusters e)))
              (JsonCompartment.infrastructures cd)))
      (JsonData.compartments doc).

(** * Properties *)

(** ** The monad: result and trace of a composite run *)

Section MonadFacts.
Context {A B : Type}.

Lemma bind_fst (m : M A) (k : A -> M B) :
  fst (bind m k) =
  match fst m with
  | Ok a => fst (k a)
  | Raise e => Raise e
  | OutOfFuel => OutOfFuel
  end.
Proof.
  destruct m as [[a | e |] t]; simpl; trivial.
  destruct (k a); reflexivity.
Qed.

Lemma bind_snd (m : M A) (k : A -> M B) :
  snd (bind m k) =
  snd m ++ match fst m with
           | Ok a => snd (k a)
           | _ => []
           end.
Proof.
  destruct m as [[a | e |] t]; simpl; try (now rewrite app_nil_r).
  destruct (k a); reflexivity.
Qed.

End MonadFacts.

Section TryFacts.
Context {A : Type}.

Lemma try_except_fst (m : M A) (h : exn -> M A) :
  fst (try_except m h) =
  match fst m with
  | Raise e => fst (h e)
  | o => o
  end.
Proof.
  destruct m as [[a | e |] t]; simpl; trivial.
  destruct (h e); reflexivity.
Qed.

Lemma try_except_snd (m : M A) (h : exn -> M A) :
  snd (try_except m h) =
  snd m ++ match fst m with
           | Raise e => snd (h e)
           | _ => []
           end.
Proof.
  destruct m as [[a | e |] t]; simpl; try (now rewrite app_nil_r).
  destruct (h e); reflexivity.
Qed.

Lemma reraise_service_fst (label : string) (e : exn) :
  fst (@reraise_service A label e) = Raise e.
Proof. destruct e; reflexivity. Qed.

Lemma reraise_service_or_request_fst (e : exn) :
  fst (@reraise_service_or_request A e) = Raise e.
Proof. destruct e; reflexivity. Qed.

(** A handler that logs and re-raises: the result is the one of the
    body. *)
Lemma try_reraise_fst (m : M A) (h : exn -> M A) :
  (forall e, fst (h e) = Raise e) -> fst (try_except m h) = fst m.
Proof.
  intros Hh. rewrite try_except_fst.
  destruct (fst m); trivial.
Qed.
End TryFacts.

Lemma ret_fst {A} (a : A) : fst (ret a) = Ok a.
Proof. reflexivity. Qed.

Lemma print_fst (s : string) : fst (print s) = Ok tt.
Proof. reflexivity. Qed.

Lemma call_fst {A} (r : request) (answer : response A) :
  fst (call r answer) =
  match answer with Data a => Ok a | Throws e => Raise e end.
Proof. now destruct answer. Qed.

Lemma call_snd {A} (r : request) (answer : response A) :
  snd (call r answer) =
  [Called r match answer with Data _ => None | Throws e => Some e end].
Proof. now destruct answer. Qed.

(** [x = m.data] under a bare [except:]: the value, or the default. *)
Lemma try_default_call_fst {A B} (r : request) (answer : response A)
    (f : A -> B) (default : B) :
  fst (try_default (x <- call r answer ;; ret (f x)) default) =
  Ok match answer with Data a => f a | Throws _ => default end.
Proof. now destruct answer. Qed.

Lemma try_default_call_snd {A B} (r : request) (answer : response A)
    (f : A -> B) (default : B) :
  snd (try_default (x <- call r answer ;; ret (f x)) default) =
  [Called r match answer with Data _ => None | Throws e => Some e end].
Proof. now destruct answer. Qed.

(** ** Paginated listing *)

Section WhilePages.
Context {A B : Type}.
Variable req : option string -> request.
Variable get : option string -> response (Page A).
Variable absorb : B -> list A -> B.

Lemma while_pages_chain (pages : list (Page A)) :
  forall (page : option string) (acc : B) (fuel : nat),
    page_chain get page pages ->
    List.length pages <= fuel ->
    while_pages fuel (fun c => call (req c) (get c)) absorb acc page =
    (Ok (fold_left absorb (map data pages) acc),
     map (fun c => Called (req c) None) (cursors page pages)).
Proof.
  induction pages as [| pg rest IH]; intros page acc fuel Hc Hf.
  - inversion Hc.
  - destruct fuel as [| fuel]; [simpl in Hf; lia |].
    simpl in Hf. simpl while_pages.
    inversion Hc as [page' pg' Hget Hlast | page' pg' rest' Hget Hmore Hrest];
      subst; rewrite Hget; simpl; rewrite ?Hlast, ?Hmore; trivial.
    rewrite (IH _ _ fuel Hrest) by lia. reflexivity.
Qed.

(** The loop stops only on a false cursor: a run that returns has walked
    a finite chain. *)
Lemma while_pages_Ok_chain (fuel : nat) :
  forall (page : option string) (acc out : B),
    fst (while_pages fuel (fun c => call (req c) (get c)) absorb acc page) = Ok out ->
    exists pages,
      page_chain get page pages /\
      List.length pages <= fuel /\
      out = fold_left absorb (map data pages) acc.
Proof.
  induction fuel as [| fuel IH]; intros page acc out H; [discriminate |].
  simpl in H. rewrite bind_fst in H.
  rewrite call_fst in H.
  destruct (get page) as [pg | e] eqn:Hget; [| discriminate].
  destruct (truthy (next_page pg)) eqn:Ht.
  - apply IH in H as (pages & Hc & Hl & ->).
    exists (pg :: pages). repeat split; simpl; try lia.
    now apply chain_more.
  - simpl in H. injection H as <-.
    exists [pg]. repeat split; simpl; try lia.
    now apply chain_last.
Qed.
End WhilePages.

Lemma page_chain_functional {A} (get : option string -> response (Page A))
    (page : option string) (pages pages' : list (Page A)) :
  page_chain get page pages -> page_chain get page pages' -> pages = pages'.
Proof.
  intros H. revert pages'.
  induction H as [page pg Hg Hl | page pg rest Hg Hm Hr IH];
    intros pages' H'; inversion H'; subst;
    match goal with
    | H1 : get ?p = Data _, H2 : get ?p = Data _ |- _ =>
        rewrite H1 in H2; injection H2 as ->
    end; try congruence.
  f_equal. now apply IH.
Qed.

Lemma fold_left_extend {A} (ls : list (list A)) (acc : list A) :
  fold_left extend ls acc = acc ++ List.concat ls.
Proof.
  revert acc. induction ls as [| l ls IH]; intros acc; simpl.
  - now rewrite app_nil_r.
  - rewrite IH. unfold extend. now rewrite app_assoc.
Qed.

(** The two resource listings, on a provider whose cursor chain ends. *)
Lemma list_exadata_infrastructures_chain (self : ExadataDataFetcher)
    (comp : string) (pages : list (Page ExadataInfrastructure.t)) (fuel : nat) :
  page_chain (DatabaseClient.list_exadata_infrastructures (db_client self)
                comp "DISPLAYNAME" "ASC") None pages ->
  List.length pages <= fuel ->
  list_exadata_infrastructures fuel self comp =
  (Ok (List.concat (map data pages)),
   map (fun c => Called (ListExadataInfrastructures comp "DISPLAYNAME" "ASC" c) None)
       (cursors None pages)).
Proof.
  intros Hc Hf. unfold list_exadata_infrastructures.
  rewrite (while_pages_chain
             (fun c => ListExadataInfrastructures comp "DISPLAYNAME" "ASC" c)
             _ extend pages None [] fuel Hc Hf).
  now rewrite fold_left_extend.
Qed.

Lemma list_vm_clusters_chain (self : ExadataDataFetcher)
    (comp : string) (infra : option string)
    (pages : list (Page VmCluster.t)) (fuel : nat) :
  page_chain (DatabaseClient.list_vm_clusters (db_client self)
                comp infra "DISPLAYNAME" "ASC") None pages ->
  List.length pages <= fuel ->
  list_vm_clusters fuel self comp infra =
  (Ok (List.concat (map data pages)),
   map (fun c => Called (ListVmClusters comp infra "DISPLAYNAME" "ASC" c) None)
       (cursors None pages)).
Proof.
  intros Hc Hf. unfold list_vm_clusters.
  rewrite (while_pages_chain
             (fun c => ListVmClusters comp infra "DISPLAYNAME" "ASC" c)
             _ extend pages None [] fuel Hc Hf).
  now rewrite fold_left_extend.
Qed.

(** ** Detail fetchers *)

Lemma get_exadata_infrastructure_details_fst (self : ExadataDataFetcher)
    (i : string) :
  fst (get_exadata_infrastructure_details self i) =
  match DatabaseClient.get_exadata_infrastructure (db_client self) i with
  | Data infra => Ok (infra_details_of self i infra)
  | Throws e => Raise e
  end.
Proof.
  unfold get_exadata_infrastructure_details.
  rewrite try_reraise_fst by apply reraise_service_fst.
  rewrite bind_fst, call_fst.
  destruct (DatabaseClient.get_exadata_infrastructure _ i) as [infra | e];
    trivial.
  rewrite bind_fst, try_default_call_fst.
  rewrite bind_fst, try_default_call_fst.
  unfold infra_details_of.
  destruct (DatabaseClient.get_exadata_infrastructure_ocpus _ i),
    (DatabaseClient.get_exadata_infrastructure_un_allocated_resources _ i);
    reflexivity.
Qed.

Lemma get_vm_cluster_details_fst (self : ExadataDataFetcher) (i : string) :
  fst (get_vm_cluster_details self i) =
  match DatabaseClient.get_vm_cluster (db_client self) i with
  | Data cl => Ok (cluster_details_of self i cl)
  | Throws e => Raise e
  end.
Proof.
  unfold get_vm_cluster_details.
  rewrite try_reraise_fst by apply reraise_service_fst.
  rewrite bind_fst, call_fst.
  destruct (DatabaseClient.get_vm_cluster _ i) as [cl | e]; trivial.
  rewrite bind_fst, try_default_call_fst.
  rewrite bind_fst, try_default_call_fst.
  unfold cluster_details_of.
  destruct (DatabaseClient.get_vm_cluster_iorm_config _ i),
    (DatabaseClient.list_vm_cluster_patches _ i);
    reflexivity.
Qed.

(** ** The loops of the traversal *)

Lemma for_each_fst_cons {A S} (x : A) (xs : list A) (body : A -> S -> M S) (s : S) :
  fst (for_each (x :: xs) body s) =
  match fst (body x s) with
  | Ok s' => fst (for_each xs body s')
  | Raise e => Raise e
  | OutOfFuel => OutOfFuel
  end.
Proof. simpl. apply bind_fst. Qed.

(** Induction on a loop that completes. *)
Lemma for_each_Ok_ind {A S} (body : A -> S -> M S) (R : S -> list A -> S -> Prop) :
  (forall s, R s [] s) ->
  (forall x xs s s1 out,
      fst (body x s) = Ok s1 -> R s1 xs out -> R s (x :: xs) out) ->
  forall xs s out, fst (for_each xs body s) = Ok out -> R s xs out.
Proof.
  intros Hnil Hcons. induction xs as [| x xs IH]; intros s out H.
  - simpl in H. injection H as <-. apply Hnil.
  - rewrite for_each_fst_cons in H.
    destruct (fst (body x s)) as [s1 | e |] eqn:Hb; try discriminate.
    eapply Hcons; eauto.
Qed.

Lemma append_compartment_report_of (tenancy : string)
    (cds : list CompartmentData) (x : CompartmentData) :
  append_compartment (report_of tenancy cds) x = report_of tenancy (cds ++ [x]).
Proof. reflexivity. Qed.

Lemma compartments_report_of (tenancy : string) (cds : list CompartmentData) :
  compartments (report_of tenancy cds) = cds.
Proof. reflexivity. Qed.

Lemma cluster_step_Ok (self : ExadataDataFetcher) (cl : VmCluster.t)
    (acc out : list ClusterDetails) (n n' : nat) :
  fst (cluster_step self cl (acc, n)) = Ok (out, n') ->
  exists d, fetched_cluster self cl d /\ out = acc ++ [d] /\ n' = n + 1.
Proof.
  unfold cluster_step. rewrite bind_fst. simpl fst at 2. cbv iota.
  rewrite bind_fst, get_vm_cluster_details_fst.
  destruct (DatabaseClient.get_vm_cluster _ _) as [rec | e] eqn:Hrec;
    [| discriminate].
  simpl. intros H. injection H as <- <-.
  eexists. split; [exists rec; split; [exact Hrec | reflexivity] | auto].
Qed.

Lemma cluster_loop_Ok (self : ExadataDataFetcher) (cls : list VmCluster.t) :
  forall acc out n n',
    fst (for_each cls (cluster_step self) (acc, n)) = Ok (out, n') ->
    exists ds,
      Forall2 (fetched_cluster self) cls ds /\
      out = acc ++ ds /\ n' = n + List.length ds.
Proof.
  intros acc out n n' H.
  apply (for_each_Ok_ind (cluster_step self)
           (fun s xs s' =>
              exists ds, Forall2 (fetched_cluster self) xs ds /\
                         fst s' = fst s ++ ds /\
                         snd s' = snd s + List.length ds)) in H.
  - exact H.
  - intros s. exists []. simpl. rewrite app_nil_r. auto.
  - intros x xs [a k] [a1 k1] [o k'] Hs (ds & Hds & Ho & Hk).
    apply cluster_step_Ok in Hs as (d & Hd & -> & ->).
    simpl in *. exists (d :: ds). repeat split.
    + now constructor.
    + now rewrite Ho, <- app_assoc.
    + simpl. lia.
Qed.

Lemma infra_step_Ok (fuel : nat) (self : ExadataDataFetcher) (comp : string)
    (infra : ExadataInfrastructure.t) (acc out : list InfraEntry) (n n' : nat) :
  fst (infra_step fuel self comp infra (acc, n)) = Ok (out, n') ->
  exists e,
    fetched_infra fuel self comp infra e /\
    out = acc ++ [e] /\ n' = n + List.length (vm_clusters e).
Proof.
  unfold infra_step. rewrite bind_fst. simpl fst at 2. cbv iota.
  rewrite bind_fst, get_exadata_infrastructure_details_fst.
  destruct (DatabaseClient.get_exadata_infrastructure _ _) as [rec | e] eqn:Hrec;
    [| discriminate].
  rewrite bind_fst.
  destruct (fst (list_vm_clusters _ _ _ _)) as [cls | e |] eqn:Hcls;
    try discriminate.
  rewrite bind_fst.
  destruct (fst (for_each cls _ _)) as [[ds k] | e |] eqn:Hloop;
    try discriminate.
  simpl. intros H. injection H as <- <-.
  apply cluster_loop_Ok in Hloop as (ds' & Hds & -> & ->).
  simpl in Hds.
  exists {| details := infra_details_of self (ExadataInfrastructure.id infra) rec;
            vm_clusters := ds' |}.
  repeat split; trivial.
  exists rec, cls. simpl. auto.
Qed.

Lemma infra_loop_Ok (fuel : nat) (self : ExadataDataFetcher) (comp : string)
    (items : list ExadataInfrastructure.t) :
  forall acc out n n',
    fst (for_each items (infra_step fuel self comp) (acc, n)) = Ok (out, n') ->
    exists es,
      Forall2 (fetched_infra fuel self comp) items es /\
      out = acc ++ es /\ n' = n + count_clusters_of es.
Proof.
  intros acc out n n' H.
  apply (for_each_Ok_ind (infra_step fuel self comp)
           (fun s xs s' =>
              exists es, Forall2 (fetched_infra fuel self comp) xs es /\
                         fst s' = fst s ++ es /\
                         snd s' = snd s + count_clusters_of es)) in H.
  - exact H.
  - intros s. exists []. unfold count_clusters_of. simpl.
    rewrite app_nil_r. auto.
  - intros x xs [a k] [a1 k1] [o k'] Hs (es & Hes & Ho & Hk).
    apply infra_step_Ok in Hs as (e & He & -> & ->).
    simpl in *. exists (e :: es). repeat split.
    + now constructor.
    + now rewrite Ho, <- app_assoc.
    + unfold count_clusters_of in *. simpl. lia.
Qed.

Lemma scanned_cons (fuel : nat) (self : ExadataDataFetcher)
    (c : CompartmentInfo.t) (cs : list CompartmentInfo.t)
    (new1 new2 : list CompartmentData) :
  scanned fuel self [c] new1 ->
  scanned fuel self cs new2 ->
  scanned fuel self (c :: cs) (new1 ++ new2).
Proof.
  intros H1 H2. inversion H1 as [| c' cs' out Hl Hr | c' cs' items es out Hl Hne Hes Hr];
    subst; inversion Hr; subst; simpl.
  - now apply scanned_skip.
  - now apply scanned_keep with (items := items).
Qed.

Lemma count_infrastructures_app (a b : list CompartmentData) :
  count_infrastructures (a ++ b) = count_infrastructures a + count_infrastructures b.
Proof.
  unfold count_infrastructures. now rewrite map_app, list_sum_app.
Qed.

Lemma count_vm_clusters_app (a b : list CompartmentData) :
  count_vm_clusters (a ++ b) = count_vm_clusters a + count_vm_clusters b.
Proof.
  unfold count_vm_clusters. now rewrite map_app, list_sum_app.
Qed.

Lemma compartment_step_Ok (fuel : nat) (self : ExadataDataFetcher)
    (c : CompartmentInfo.t) (tenancy : string) (cds : list CompartmentData)
    (ti tv : nat) (out : Report * nat * nat) :
  fst (compartment_step fuel self c (report_of tenancy cds, ti, tv)) = Ok out ->
  exists new,
    scanned fuel self [c] new /\
    out = (report_of tenancy (cds ++ new),
           ti + count_infrastructures new,
           tv + count_vm_clusters new).
Proof.
  unfold compartment_step. cbv iota. rewrite bind_fst, print_fst. cbv iota.
  rewrite bind_fst.
  destruct (fst (list_exadata_infrastructures _ _ _)) as [items | e |] eqn:Hl;
    try discriminate.
  destruct items as [| item items].
  - rewrite bind_fst, print_fst. cbv iota. rewrite ret_fst.
    intros H. injection H as <-.
    exists []. split.
    + apply scanned_skip; [exact Hl | constructor].
    + rewrite app_nil_r. unfold count_infrastructures, count_vm_clusters.
      simpl. now rewrite !Nat.add_0_r.
  - rewrite bind_fst, print_fst. cbv iota. rewrite bind_fst.
    destruct (fst (for_each _ _ _)) as [[es k] | e |] eqn:Hloop;
      try discriminate.
    rewrite bind_fst, print_fst. cbv iota. rewrite ret_fst.
    rewrite append_compartment_report_of.
    intros H. injection H as <-.
    apply infra_loop_Ok in Hloop as (es' & Hes & -> & ->).
    simpl in Hes.
    exists [ {| compartment_id := CompartmentInfo.id c;
                compartment_name := CompartmentInfo.name c;
                infrastructures := es' |} ].
    split.
    + eapply scanned_keep; eauto; [discriminate | constructor].
    + apply Forall2_length in Hes.
      unfold count_infrastructures, count_vm_clusters. simpl in *.
      f_equal; [f_equal |]; lia.
Qed.

Lemma compartment_loop_Ok (fuel : nat) (self : ExadataDataFetcher)
    (comps : list CompartmentInfo.t) :
  forall tenancy cds ti tv out,
    fst (for_each comps (compartment_step fuel self)
           (report_of tenancy cds, ti, tv)) = Ok out ->
    exists new,
      scanned fuel self comps new /\
      out = (report_of tenancy (cds ++ new),
             ti + count_infrastructures new,
             tv + count_vm_clusters new).
Proof.
  intros tenancy cds ti tv out H.
  apply (for_each_Ok_ind (compartment_step fuel self)
           (fun s xs s' =>
              forall cds ti tv,
                s = (report_of tenancy cds, ti, tv) ->
                exists new,
                  scanned fuel self xs new /\
                  s' = (report_of tenancy (cds ++ new),
                        ti + count_infrastructures new,
                        tv + count_vm_clusters new))) with (cds := cds)
    (ti := ti) (tv := tv) in H; trivial.
  - intros s cds0 ti0 tv0 ->. exists []. split; [constructor |].
    rewrite app_nil_r. unfold count_infrastructures, count_vm_clusters.
    simpl. now rewrite !Nat.add_0_r.
  - intros x xs s s1 out' Hs IH cds0 ti0 tv0 ->.
    apply compartment_step_Ok in Hs as (new1 & Hn1 & ->).
    destruct (IH _ _ _ eq_refl) as (new2 & Hn2 & ->).
    exists (new1 ++ new2). split; [now apply scanned_cons |].
    rewrite <- app_assoc, count_infrastructures_app, count_vm_clusters_app.
    now rewrite !Nat.add_assoc.
Qed.

(** What a traversal that returns has done: it discovered the compartments,
    scanned them in order, returned the dictionary holding the entries of
    the scan, and printed the totals last. *)
Lemma fetch_all_data_Ok (fuel : nat) (self : ExadataDataFetcher)
    (r : Report) (t : list event) :
  fetch_all_data fuel self = (Ok r, t) ->
  exists comps cds t0,
    fst (list_all_compartments fuel self) = Ok comps /\
    scanned fuel self comps cds /\
    r = report_of (tenancy_id self) cds /\
    t = t0 ++ [Printed (total_line (count_infrastructures cds)
                          (count_vm_clusters cds))].
Proof.
  intros H.
  assert (Hf : fst (fetch_all_data fuel self) = Ok r) by now rewrite H.
  assert (Hs : snd (fetch_all_data fuel self) = t) by now rewrite H.
  clear H. unfold fetch_all_data in Hf, Hs.
  rewrite bind_fst in Hf. rewrite bind_snd in Hs.
  destruct (fst (list_all_compartments fuel self)) as [comps | e |] eqn:Hc;
    try discriminate.
  rewrite bind_fst in Hf. rewrite bind_snd in Hs.
  destruct (fst (for_each comps _ _)) as [[[res ti] tv] | e |] eqn:Hloop;
    try discriminate.
  apply (compartment_loop_Ok fuel self comps (tenancy_id self) []) in Hloop
    as (cds & Hsc & Heq).
  injection Heq as -> -> ->. simpl in Hf, Hs. injection Hf as <-.
  exists comps, cds. eexists. repeat split; trivial.
  rewrite <- Hs, app_assoc. reflexivity.
Qed.

(** ** Facts about the scan *)

Lemma Forall2_In_right {A B} (R : A -> B -> Prop) (l : list A) (l' : list B) (y : B) :
  Forall2 R l l' -> In y l' -> exists x, In x l /\ R x y.
Proof.
  induction 1 as [| a b l l' Hab _ IH]; intros Hy; [contradiction |].
  destruct Hy as [<- | Hy].
  - exists a. split; [now left | exact Hab].
  - destruct (IH Hy) as (x & Hx & Hr). exists x. split; [now right | exact Hr].
Qed.

(** Every entry of the scan comes from a discovered compartment that lists
    at least one infrastructure. *)
Lemma scanned_In_inv (fuel : nat) (self : ExadataDataFetcher)
    (comps : list CompartmentInfo.t) (cds : list CompartmentData) :
  scanned fuel self comps cds ->
  forall cd, In cd cds ->
  exists c items,
    In c comps /\
    compartment_id cd = CompartmentInfo.id c /\
    compartment_name cd = CompartmentInfo.name c /\
    fst (list_exadata_infrastructures fuel self (CompartmentInfo.id c)) = Ok items /\
    items <> [] /\
    Forall2 (fetched_infra fuel self (CompartmentInfo.id c)) items
      (infrastructures cd).
Proof.
  induction 1 as [| c cs out Hl Hr IH | c cs items es out Hl Hne Hes Hr IH];
    intros cd Hcd.
  - contradiction.
  - destruct (IH cd Hcd) as (c' & items & Hin & H').
    exists c', items. split; [now right | exact H'].
  - destruct Hcd as [<- | Hcd].
    + exists c, items. simpl. repeat split; trivial. now left.
    + destruct (IH cd Hcd) as (c' & items' & Hin & H').
      exists c', items'. split; [now right | exact H'].
Qed.

(** Every discovered compartment that lists an infrastructure has its
    entry. *)
Lemma scanned_In_keep (fuel : nat) (self : ExadataDataFetcher)
    (comps : list CompartmentInfo.t) (cds : list CompartmentData) :
  scanned fuel self comps cds ->
  forall c items,
    In c comps ->
    fst (list_exadata_infrastructures fuel self (CompartmentInfo.id c)) = Ok items ->
    items <> [] ->
    exists cd,
      In cd cds /\
      compartment_id cd = CompartmentInfo.id c /\
      compartment_name cd = CompartmentInfo.name c /\
      Forall2 (fetched_infra fuel self (CompartmentInfo.id c)) items
        (infrastructures cd).
Proof.
  induction 1 as [| c0 cs out Hl Hr IH | c0 cs items0 es out Hl Hne Hes Hr IH];
    intros c items Hin Hitems Hnonempty.
  - contradiction.
  - destruct Hin as [-> | Hin].
    + rewrite Hl in Hitems. injection Hitems as <-. now contradiction Hnonempty.
    + apply (IH c items Hin Hitems Hnonempty).
  - destruct Hin as [-> | Hin].
    + rewrite Hl in Hitems. injection Hitems as <-.
      eexists. split; [now left |]. simpl. auto.
    + destruct (IH c items Hin Hitems Hnonempty) as (cd & Hcd & H').
      exists cd. split; [now right | exact H'].
Qed.

Lemma fetched_infra_no_clusters (fuel : nat) (self : ExadataDataFetcher)
    (comp : string) (item : ExadataInfrastructure.t) (e : InfraEntry) :
  fetched_infra fuel self comp item e ->
  forall cls,
    fst (list_vm_clusters fuel self comp (Some (ExadataInfrastructure.id item)))
    = Ok cls ->
    List.length (vm_clusters e) = List.length cls.
Proof.
  intros (rec & cls0 & _ & _ & Hl & Hf) cls Hcls.
  rewrite Hl in Hcls. injection Hcls as <-.
  symmetry. exact (Forall2_length Hf).
Qed.

Lemma fst_Ok_run {A} (m : M A) (a : A) :
  fst m = Ok a -> exists t, m = (Ok a, t).
Proof. destruct m as [o t]. simpl. intros ->. now exists t. Qed.

(** * The specified properties *)

(** ** Pagination *)

(** C8. On a provider whose chain of continuation cursors for a scope ends,
    each resource listing ([list_exadata_infrastructures], [list_vm_clusters])
    returns, once the loop budget covers the chain, the items of every page
    in page order, after exactly one call per page; pages may have any size,
    zero included. *)
Theorem paginated_listing_returns_every_page (self : ExadataDataFetcher)
    (comp : string) (infra : option string) (fuel : nat) :
  (forall pages,
      page_chain (DatabaseClient.list_exadata_infrastructures (db_client self)
                    comp "DISPLAYNAME" "ASC") None pages ->
      List.length pages <= fuel ->
      list_exadata_infrastructures fuel self comp =
      (Ok (List.concat (map data pages)),
       map (fun c => Called (ListExadataInfrastructures comp "DISPLAYNAME" "ASC" c)
                       None)
           (cursors None pages))) /\
  (forall pages,
      page_chain (DatabaseClient.list_vm_clusters (db_client self)
                    comp infra "DISPLAYNAME" "ASC") None pages ->
      List.length pages <= fuel ->
      list_vm_clusters fuel self comp infra =
      (Ok (List.concat (map data pages)),
       map (fun c => Called (ListVmClusters comp infra "DISPLAYNAME" "ASC" c) None)
           (cursors None pages))).
Proof.
  split; intros pages Hc Hf.
  - now apply list_exadata_infrastructures_chain.
  - now apply list_vm_clusters_chain.
Qed.

Lemma paginated_listing_returns_every_page_witness :
  page_chain (DatabaseClient.list_exadata_infrastructures
                (db_client Mock.tenancy_ab) "A" "DISPLAYNAME" "ASC") None
    [ Build_Page [] (Some "q2"); Build_Page [Mock.infra "i1" "exa-1"] None ] /\
  page_chain (DatabaseClient.list_vm_clusters
                (db_client Mock.tenancy_ab) "A" (Some "i1") "DISPLAYNAME" "ASC") None
    [ Build_Page [Mock.vm_cluster "c1" "vm-1"] (Some "n1");
      Build_Page [Mock.vm_cluster "c2" "vm-2"] (Some EmptyString) ] /\
  fst (list_exadata_infrastructures 2 Mock.tenancy_ab "A")
  = Ok [Mock.infra "i1" "exa-1"] /\
  fst (list_vm_clusters 2 Mock.tenancy_ab "A" (Some "i1"))
  = Ok [Mock.vm_cluster "c1" "vm-1"; Mock.vm_cluster "c2" "vm-2"].
Proof.
  assert (Hi : page_chain (DatabaseClient.list_exadata_infrastructures
                             (db_client Mock.tenancy_ab) "A" "DISPLAYNAME" "ASC")
                 None
                 [ Build_Page [] (Some "q2");
                   Build_Page [Mock.infra "i1" "exa-1"] None ]).
  { apply chain_more; [reflexivity | reflexivity |].
    apply chain_last; reflexivity. }
  assert (Hc : page_chain (DatabaseClient.list_vm_clusters
                             (db_client Mock.tenancy_ab) "A" (Some "i1")
                             "DISPLAYNAME" "ASC") None
                 [ Build_Page [Mock.vm_cluster "c1" "vm-1"] (Some "n1");
                   Build_Page [Mock.vm_cluster "c2" "vm-2"] (Some EmptyString) ]).
  { apply chain_more; [reflexivity | reflexivity |].
    apply chain_last; reflexivity. }
  destruct (paginated_listing_returns_every_page
              Mock.tenancy_ab "A" (Some "i1") 2) as [Ti Tc].
  split; [exact Hi |]. split; [exact Hc |]. split.
  - rewrite (Ti _ Hi); [reflexivity | simpl; lia].
  - rewrite (Tc _ Hc); [reflexivity | simpl; lia].
Defined.

(** ** Pending updates *)

(** C6. For every VM cluster whose base record can be read, the detail
    record carries the first five entries of the patch list in the
    provider's order, all of them when there are fewer, and the empty list
    when the patch listing throws; its length never exceeds five. *)
Theorem pending_updates_are_first_five (self : ExadataDataFetcher)
    (i : string) (cl : VmCluster.t) :
  DatabaseClient.get_vm_cluster (db_client self) i = Data cl ->
  exists d,
    fst (get_vm_cluster_details self i) = Ok d /\
    cluster d = cl /\
    patches d =
      match DatabaseClient.list_vm_cluster_patches (db_client self) i with
      | Data l => firstn (Nat.min 5 (List.length l)) l
      | Throws _ => []
      end /\
    List.length (patches d) <= 5.
Proof.
  intros Hcl. exists (cluster_details_of self i cl).
  rewrite get_vm_cluster_details_fst, Hcl. repeat split.
  - unfold cluster_details_of, kept_patches. cbn [patches].
    destruct (DatabaseClient.list_vm_cluster_patches _ i) as [l | e]; trivial.
    destruct (Nat.min_spec 5 (List.length l)) as [[Hlt ->] | [Hle ->]]; trivial.
    rewrite firstn_all. apply firstn_all2. exact Hle.
  - unfold cluster_details_of, kept_patches. cbn [patches].
    destruct (DatabaseClient.list_vm_cluster_patches _ i) as [l | e];
      [| simpl; lia].
    rewrite length_firstn. lia.
Qed.

Lemma pending_updates_are_first_five_witness :
  DatabaseClient.get_vm_cluster (db_client Mock.tenancy_ab) "c1"
  = Data (Mock.vm_cluster "c1" "vm-1") /\
  exists d,
    fst (get_vm_cluster_details Mock.tenancy_ab "c1") = Ok d /\
    cluster d = Mock.vm_cluster "c1" "vm-1" /\
    patches d = [Mock.patch "u1"; Mock.patch "u2"; Mock.patch "u3";
                 Mock.patch "u4"; Mock.patch "u5"] /\
    List.length (patches d) <= 5.
Proof.
  split; [reflexivity |].
  destruct (pending_updates_are_first_five Mock.tenancy_ab "c1"
              (Mock.vm_cluster "c1" "vm-1") eq_refl) as (d & Hd & Hc & Hp & Hl).
  exists d. repeat split; trivial.
Defined.

(** ** Shape of the report *)

(** C4. In a traversal that returns, a discovered compartment whose
    infrastructure listing is empty has no entry in the report, while a
    compartment that lists infrastructures has an entry holding one item per
    listed infrastructure, in listing order; the item of an infrastructure
    whose cluster listing is empty is there too, with [vm_clusters] empty. *)
Theorem empty_compartment_omitted_empty_infrastructure_kept
    (fuel : nat) (self : ExadataDataFetcher) (r : Report)
    (comps : list CompartmentInfo.t) :
  fst (fetch_all_data fuel self) = Ok r ->
  fst (list_all_compartments fuel self) = Ok comps ->
  (forall c,
      In c comps ->
      fst (list_exadata_infrastructures fuel self (CompartmentInfo.id c)) = Ok [] ->
      ~ In (CompartmentInfo.id c) (map compartment_id (compartments r))) /\
  (forall c items,
      In c comps ->
      fst (list_exadata_infrastructures fuel self (CompartmentInfo.id c)) = Ok items ->
      items <> [] ->
      exists cd,
        In cd (compartments r) /\
        compartment_id cd = CompartmentInfo.id c /\
        compartment_name cd = CompartmentInfo.name c /\
        Forall2
          (fun item e =>
             fetched_infra fuel self (CompartmentInfo.id c) item e /\
             (fst (list_vm_clusters fuel self (CompartmentInfo.id c)
                     (Some (ExadataInfrastructure.id item))) = Ok [] ->
              vm_clusters e = []))
          items (infrastructures cd)).
Proof.
  intros Hr Hc.
  apply fst_Ok_run in Hr as (t & Hr).
  apply fetch_all_data_Ok in Hr as (comps' & cds & t0 & Hc' & Hsc & -> & _).
  rewrite Hc in Hc'. injection Hc' as <-.
  rewrite compartments_report_of. split.
  - intros c Hin Hempty Habs.
    apply in_map_iff in Habs as (cd & Hid & Hcd).
    destruct (scanned_In_inv _ _ _ _ Hsc cd Hcd)
      as (c' & items & _ & Hid' & _ & Hl & Hne & _).
    rewrite <- Hid', Hid, Hempty in Hl. injection Hl as <-.
    now apply Hne.
  - intros c items Hin Hl Hne.
    destruct (scanned_In_keep _ _ _ _ Hsc c items Hin Hl Hne)
      as (cd & Hcd & Hid & Hname & Hf).
    exists cd. repeat split; trivial.
    eapply Forall2_impl; [| exact Hf].
    intros item e He. split; [exact He |].
    intros Hnone. apply (fetched_infra_no_clusters _ _ _ _ _ He) in Hnone.
    now apply length_zero_iff_nil.
Qed.

Lemma empty_compartment_omitted_empty_infrastructure_kept_witness :
  fst (fetch_all_data 3 Mock.tenancy_zeta) = Ok Mock.report_zeta /\
  fst (list_all_compartments 3 Mock.tenancy_zeta) = Ok Mock.discovered_zeta /\
  fst (fetch_all_data 3 Mock.tenancy_ab) = Ok Mock.report_ab /\
  fst (list_all_compartments 3 Mock.tenancy_ab) = Ok Mock.discovered_ab /\
  ~ In "B" (map compartment_id (compartments Mock.report_ab)) /\
  exists cd,
    In cd (compartments Mock.report_zeta) /\
    compartment_id cd = "ocid1.zeta" /\
    compartment_name cd = "zeta" /\
    Forall2
      (fun item e =>
         fetched_infra 3 Mock.tenancy_zeta "ocid1.zeta" item e /\
         (fst (list_vm_clusters 3 Mock.tenancy_zeta "ocid1.zeta"
                 (Some (ExadataInfrastructure.id item))) = Ok [] ->
          vm_clusters e = []))
      [Mock.infra "i1" "exa"; Mock.infra "i2" "exa"] (infrastructures cd).
Proof.
  assert (Hz : fst (fetch_all_data 3 Mock.tenancy_zeta) = Ok Mock.report_zeta)
    by reflexivity.
  assert (Hzc : fst (list_all_compartments 3 Mock.tenancy_zeta)
                = Ok Mock.discovered_zeta) by reflexivity.
  assert (Ha : fst (fetch_all_data 3 Mock.tenancy_ab) = Ok Mock.report_ab)
    by reflexivity.
  assert (Hac : fst (list_all_compartments 3 Mock.tenancy_ab)
                = Ok Mock.discovered_ab) by reflexivity.
  repeat (split; [assumption |]). split.
  - apply (proj1 (empty_compartment_omitted_empty_infrastructure_kept
                    3 Mock.tenancy_ab Mock.report_ab Mock.discovered_ab Ha Hac)
             (Mock.info "B" "beta" false)).
    + simpl. auto.
    + reflexivity.
  - apply (proj2 (empty_compartment_omitted_empty_infrastructure_kept
                    3 Mock.tenancy_zeta Mock.report_zeta Mock.discovered_zeta
                    Hz Hzc)
             (Mock.info "ocid1.zeta" "zeta" true)
             [Mock.infra "i1" "exa"; Mock.infra "i2" "exa"]).
    + simpl. auto.
    + reflexivity.
    + discriminate.
Defined.

(** C10. In a report that is returned, every infrastructure entry carries
    the base record its [get_exadata_infrastructure] call answered, and
    every cluster entry the record its [get_vm_cluster] call answered; only
    [ocpu_info], [unallocated_resources] and [iorm_config] can be absent,
    exactly when their call threw, and [patches] is the kept part of the
    patch list. *)
Theorem report_entries_carry_base_records (fuel : nat)
    (self : ExadataDataFetcher) (r : Report) :
  fst (fetch_all_data fuel self) = Ok r ->
  forall cd e,
    In cd (compartments r) ->
    In e (infrastructures cd) ->
    (exists i,
        DatabaseClient.get_exadata_infrastructure (db_client self) i
        = Data (infrastructure (details e)) /\
        ocpu_info (details e) =
          to_option (DatabaseClient.get_exadata_infrastructure_ocpus
                       (db_client self) i) /\
        unallocated_resources (details e) =
          to_option (DatabaseClient.get_exadata_infrastructure_un_allocated_resources
                       (db_client self) i)) /\
    (forall d,
        In d (vm_clusters e) ->
        exists j,
          DatabaseClient.get_vm_cluster (db_client self) j = Data (cluster d) /\
          iorm_config d =
            to_option (DatabaseClient.get_vm_cluster_iorm_config (db_client self) j) /\
          patches d =
            kept_patches (DatabaseClient.list_vm_cluster_patches (db_client self) j)).
Proof.
  intros Hr cd e Hcd He.
  apply fst_Ok_run in Hr as (t & Hr).
  apply fetch_all_data_Ok in Hr as (comps & cds & t0 & _ & Hsc & -> & _).
  rewrite compartments_report_of in Hcd.
  destruct (scanned_In_inv _ _ _ _ Hsc cd Hcd)
    as (c & items & _ & _ & _ & _ & _ & Hf).
  destruct (Forall2_In_right _ _ _ _ Hf He)
    as (item & _ & rec & cls & Hrec & Hd & _ & Hcls).
  split.
  - exists (ExadataInfrastructure.id item). rewrite Hd. simpl. auto.
  - intros d Hin.
    destruct (Forall2_In_right _ _ _ _ Hcls Hin) as (cl & _ & rec' & Hrec' & ->).
    exists (VmCluster.id cl). simpl. auto.
Qed.

Lemma report_entries_carry_base_records_witness :
  fst (fetch_all_data 3 Mock.tenancy_ab) = Ok Mock.report_ab /\
  (exists i,
      DatabaseClient.get_exadata_infrastructure (db_client Mock.tenancy_ab) i
      = Data (infrastructure (details Mock.entry_i1)) /\
      ocpu_info (details Mock.entry_i1) =
        to_option (DatabaseClient.get_exadata_infrastructure_ocpus
                     (db_client Mock.tenancy_ab) i) /\
      unallocated_resources (details Mock.entry_i1) =
        to_option (DatabaseClient.get_exadata_infrastructure_un_allocated_resources
                     (db_client Mock.tenancy_ab) i)) /\
  (forall d,
      In d (vm_clusters Mock.entry_i1) ->
      exists j,
        DatabaseClient.get_vm_cluster (db_client Mock.tenancy_ab) j
        = Data (cluster d) /\
        iorm_config d =
          to_option (DatabaseClient.get_vm_cluster_iorm_config
                       (db_client Mock.tenancy_ab) j) /\
        patches d =
          kept_patches (DatabaseClient.list_vm_cluster_patches
                          (db_client Mock.tenancy_ab) j)).
Proof.
  split; [reflexivity |].
  apply (report_entries_carry_base_records 3 Mock.tenancy_ab Mock.report_ab
           eq_refl
           {| compartment_id := "A";
              compartment_name := "alpha";
              infrastructures := [Mock.entry_i1] |}
           Mock.entry_i1).
  - simpl. auto.
  - simpl. auto.
Defined.

(** ** What the traversal returns *)

(** C7, as the code has it.  [fetch_all_data] takes the fetcher alone (its
    clients and tenancy id) and returns the dictionary with the two keys
    [tenancy_id] and [compartments], nothing else; the two totals are not
    returned but printed, as the last line of the run, and they are the
    numbers of infrastructure entries and of cluster entries of the
    report. *)
Theorem fetch_all_data_returns_report_and_prints_totals (fuel : nat)
    (self : ExadataDataFetcher) (r : Report) (t : list event) :
  fetch_all_data fuel self = (Ok r, t) ->
  exists cds t0,
    r = [ ("tenancy_id", VStr (tenancy_id self));
          ("compartments", VCompartments cds) ] /\
    t = t0 ++ [Printed (total_line (count_infrastructures cds)
                          (count_vm_clusters cds))].
Proof.
  intros H.
  apply fetch_all_data_Ok in H as (comps & cds & t0 & _ & _ & -> & ->).
  now exists cds, t0.
Qed.

Lemma fetch_all_data_returns_report_and_prints_totals_witness :
  fetch_all_data 3 Mock.tenancy_ab = (Ok Mock.report_ab, Mock.trace_ab) /\
  exists cds t0,
    Mock.report_ab = [ ("tenancy_id", VStr "ocid1.tenancy");
                       ("compartments", VCompartments cds) ] /\
    Mock.trace_ab = t0 ++ [Printed (total_line (count_infrastructures cds)
                                      (count_vm_clusters cds))].
Proof.
  split; [reflexivity |].
  apply (fetch_all_data_returns_report_and_prints_totals 3 Mock.tenancy_ab).
  reflexivity.
Defined.

(** C7, as the claim states it, fails: on the tenancy with one
    infrastructure and two clusters the value returned is the dictionary
    with the keys [tenancy_id] and [compartments] and holds no number; the
    totals 1 and 2 only appear in the last printed line. *)
Lemma fetch_all_data_returns_no_counters :
  exists r t,
    fetch_all_data 3 Mock.tenancy_ab = (Ok r, t) /\
    map fst r = ["tenancy_id"; "compartments"] /\
    (forall k n, ~ In (k, VInt n) r) /\
    last t (Printed EmptyString) = Printed (total_line 1 2).
Proof.
  exists Mock.report_ab, Mock.trace_ab. split; [reflexivity |].
  split; [reflexivity |]. split; [| reflexivity].
  intros k n [H | [H | []]]; discriminate H.
Qed.

(** ** Failing fast *)

Section FailFast.
Context {A B : Type}.

Lemma fail_fast_silent (m : M A) : silent m -> fail_fast m.
Proof. intros Hs r e Hin _. now apply Hs in Hin. Qed.

Lemma silent_ret (a : A) : silent (ret a).
Proof. intros r f []. Qed.

Lemma silent_reraise_service (label : string) (e : exn) :
  silent (@reraise_service A label e).
Proof. destruct e; intros r f H; simpl in H; intuition discriminate. Qed.

Lemma silent_reraise_service_or_request (e : exn) :
  silent (@reraise_service_or_request A e).
Proof. destruct e; intros r f H; simpl in H; intuition discriminate. Qed.

Lemma fail_fast_call (r : request) (answer : response A) :
  fail_fast (call r answer).
Proof.
  intros r' e Hin _. rewrite call_snd in Hin. rewrite call_fst.
  destruct Hin as [Heq | []]. destruct answer; now inversion Heq.
Qed.

Lemma fail_fast_bind (m : M A) (k : A -> M B) :
  fail_fast m -> (forall a, fail_fast (k a)) -> fail_fast (bind m k).
Proof.
  intros Hm Hk r e Hin Hr. rewrite bind_snd in Hin. rewrite bind_fst.
  apply in_app_or in Hin as [Hin | Hin].
  - now rewrite (Hm r e Hin Hr).
  - destruct (fst m) as [a | e' |]; try contradiction.
    now apply (Hk a r e).
Qed.

(** A handler that only logs and re-raises. *)
Lemma fail_fast_try_reraise (m : M A) (h : exn -> M A) :
  fail_fast m ->
  (forall e, fst (h e) = Raise e) ->
  (forall e, silent (h e)) ->
  fail_fast (try_except m h).
Proof.
  intros Hm Hf Hs r e Hin Hr.
  rewrite try_except_snd in Hin. rewrite try_reraise_fst by exact Hf.
  apply in_app_or in Hin as [Hin | Hin]; [now apply (Hm r e) |].
  destruct (fst m) as [a | e' |]; try contradiction.
  now apply Hs in Hin.
Qed.

(** An optional fetch: its call is not mandatory. *)
Lemma fail_fast_optional (r : request) (answer : response A) (f : A -> B)
    (default : B) :
  mandatory r = false ->
  fail_fast (try_default (x <- call r answer ;; ret (f x)) default).
Proof.
  intros Hopt r' e Hin Hr. rewrite try_default_call_snd in Hin.
  destruct Hin as [Heq | []]. injection Heq as <- _. congruence.
Qed.
End FailFast.

Lemma fail_fast_print (s : string) : fail_fast (print s).
Proof. apply fail_fast_silent. intros r f [H | []]. discriminate H. Qed.

Lemma fail_fast_ret {A} (a : A) : fail_fast (ret a).
Proof. apply fail_fast_silent, silent_ret. Qed.

Lemma fail_fast_for_each {A S} (body : A -> S -> M S) (xs : list A) :
  (forall x s, fail_fast (body x s)) ->
  forall s, fail_fast (for_each xs body s).
Proof.
  intros Hb. induction xs as [| x xs IH]; intros s; simpl.
  - apply fail_fast_ret.
  - apply fail_fast_bind; [apply Hb | exact IH].
Qed.

Lemma fail_fast_while_pages {A B} (fetch : option string -> M (Page A))
    (absorb : B -> list A -> B) (fuel : nat) :
  (forall page, fail_fast (fetch page)) ->
  forall acc page, fail_fast (while_pages fuel fetch absorb acc page).
Proof.
  intros Hf. induction fuel as [| fuel IH]; intros acc page; simpl.
  - intros r e [].
  - apply fail_fast_bind; [apply Hf |].
    intros pg. destruct (truthy (next_page pg)); [apply IH | apply fail_fast_ret].
Qed.

Create HintDb fail_fast.
#[local] Hint Resolve fail_fast_print fail_fast_ret fail_fast_call
  fail_fast_while_pages fail_fast_for_each : fail_fast.
#[local] Hint Extern 1 (fail_fast (bind _ _)) =>
  apply fail_fast_bind; [| intros ?] : fail_fast.
#[local] Hint Extern 1 (fail_fast (try_default _ _)) =>
  apply fail_fast_optional; reflexivity : fail_fast.
#[local] Hint Extern 1 (fail_fast (try_except _ (reraise_service _))) =>
  apply fail_fast_try_reraise;
  [| apply reraise_service_fst | apply silent_reraise_service] : fail_fast.
#[local] Hint Extern 1 (fail_fast (try_except _ reraise_service_or_request)) =>
  apply fail_fast_try_reraise;
  [| apply reraise_service_or_request_fst
   | apply silent_reraise_service_or_request] : fail_fast.

Lemma fail_fast_list_all_compartments (fuel : nat) (self : ExadataDataFetcher) :
  fail_fast (list_all_compartments fuel self).
Proof.
  unfold list_all_compartments, list_compartments_recursive.
  auto 10 with fail_fast.
Qed.

Lemma fail_fast_list_exadata_infrastructures (fuel : nat)
    (self : ExadataDataFetcher) (comp : string) :
  fail_fast (list_exadata_infrastructures fuel self comp).
Proof. unfold list_exadata_infrastructures. auto 10 with fail_fast. Qed.

Lemma fail_fast_list_vm_clusters (fuel : nat) (self : ExadataDataFetcher)
    (comp : string) (infra : option string) :
  fail_fast (list_vm_clusters fuel self comp infra).
Proof. unfold list_vm_clusters. auto 10 with fail_fast. Qed.

Lemma fail_fast_get_exadata_infrastructure_details (self : ExadataDataFetcher)
    (i : string) :
  fail_fast (get_exadata_infrastructure_details self i).
Proof. unfold get_exadata_infrastructure_details. auto 10 with fail_fast. Qed.

Lemma fail_fast_get_vm_cluster_details (self : ExadataDataFetcher) (i : string) :
  fail_fast (get_vm_cluster_details self i).
Proof. unfold get_vm_cluster_details. auto 10 with fail_fast. Qed.

#[local] Hint Resolve fail_fast_list_all_compartments
  fail_fast_list_exadata_infrastructures fail_fast_list_vm_clusters
  fail_fast_get_exadata_infrastructure_details
  fail_fast_get_vm_cluster_details : fail_fast.

Lemma fail_fast_cluster_step (self : ExadataDataFetcher) (cl : VmCluster.t)
    (st : list ClusterDetails * nat) :
  fail_fast (cluster_step self cl st).
Proof. destruct st. unfold cluster_step. auto 10 with fail_fast. Qed.

#[local] Hint Resolve fail_fast_cluster_step : fail_fast.

Lemma fail_fast_infra_step (fuel : nat) (self : ExadataDataFetcher)
    (comp : string) (infra : ExadataInfrastructure.t)
    (st : list InfraEntry * nat) :
  fail_fast (infra_step fuel self comp infra st).
Proof.
  destruct st. unfold infra_step.
  repeat (apply fail_fast_bind; [auto with fail_fast | intros ?]).
  match goal with p : (_ * _)%type |- _ => destruct p end.
  auto with fail_fast.
Qed.

#[local] Hint Resolve fail_fast_infra_step : fail_fast.

Lemma fail_fast_compartment_step (fuel : nat) (self : ExadataDataFetcher)
    (c : CompartmentInfo.t) (st : Report * nat * nat) :
  fail_fast (compartment_step fuel self c st).
Proof.
  destruct st as [[res ti] tv]. unfold compartment_step.
  repeat (apply fail_fast_bind; [auto with fail_fast | intros ?]).
  match goal with l : list ExadataInfrastructure.t |- _ => destruct l end.
  - auto 10 with fail_fast.
  - repeat (apply fail_fast_bind; [auto with fail_fast | intros ?]).
    match goal with p : (_ * _)%type |- _ => destruct p end.
    auto 10 with fail_fast.
Qed.

#[local] Hint Resolve fail_fast_compartment_step : fail_fast.

Lemma fail_fast_fetch_all_data (fuel : nat) (self : ExadataDataFetcher) :
  fail_fast (fetch_all_data fuel self).
Proof.
  unfold fetch_all_data.
  repeat (apply fail_fast_bind; [auto with fail_fast | intros ?]).
  match goal with p : (_ * _ * _)%type |- _ => destruct p as [[? ?] ?] end.
  auto 10 with fail_fast.
Qed.

(** C2. In every run of [fetch_all_data] in which a listing call
    (compartments, infrastructures, VM clusters) or a base-record fetch
    (tenancy, infrastructure, cluster) throws, the run ends with that very
    exception: no report is returned, whatever was collected before. *)
Theorem mandatory_failure_aborts_traversal (fuel : nat)
    (self : ExadataDataFetcher) (r : request) (e : exn) :
  In (Called r (Some e)) (snd (fetch_all_data fuel self)) ->
  mandatory r = true ->
  fst (fetch_all_data fuel self) = Raise e /\
  forall report, fst (fetch_all_data fuel self) <> Ok report.
Proof.
  intros Hin Hr.
  assert (H : fst (fetch_all_data fuel self) = Raise e)
    by exact (fail_fast_fetch_all_data fuel self r e Hin Hr).
  split; [exact H |]. intros report. rewrite H. discriminate.
Qed.

Lemma mandatory_failure_aborts_traversal_witness :
  In (Called (ListVmClusters "A" (Some "i1") "DISPLAYNAME" "ASC" None)
        (Some (ServiceError 503 "ServiceUnavailable")))
     (snd (fetch_all_data 3 Mock.clusters_down)) /\
  mandatory (ListVmClusters "A" (Some "i1") "DISPLAYNAME" "ASC" None) = true /\
  fst (fetch_all_data 3 Mock.clusters_down)
  = Raise (ServiceError 503 "ServiceUnavailable") /\
  forall report, fst (fetch_all_data 3 Mock.clusters_down) <> Ok report.
Proof.
  assert (Hin : In (Called (ListVmClusters "A" (Some "i1") "DISPLAYNAME" "ASC" None)
                      (Some (ServiceError 503 "ServiceUnavailable")))
                   (snd (fetch_all_data 3 Mock.clusters_down))).
  { vm_compute. repeat (first [left; reflexivity | right]). }
  split; [exact Hin |]. split; [reflexivity |].
  exact (mandatory_failure_aborts_traversal 3 Mock.clusters_down _ _ Hin eq_refl).
Defined.

(** ** Container discovery *)

Lemma append_active_spec (items : list Compartment.t) :
  forall acc,
    append_active acc items = acc ++ map info_of (filter is_active items).
Proof.
  unfold append_active.
  induction items as [| c items IH]; intros acc; simpl.
  - now rewrite app_nil_r.
  - rewrite IH. unfold is_active.
    destruct (Compartment.lifecycle_state c =? "ACTIVE"); simpl; trivial.
    now rewrite <- app_assoc.
Qed.

Lemma fold_left_append_active (ls : list (list Compartment.t)) :
  forall acc,
    fold_left append_active ls acc =
    acc ++ map info_of (filter is_active (List.concat ls)).
Proof.
  induction ls as [| l ls IH]; intros acc; simpl.
  - now rewrite app_nil_r.
  - rewrite IH, append_active_spec, filter_app, map_app.
    now rewrite app_assoc.
Qed.

Lemma info_of_active (l : list Compartment.t) :
  Forall (fun c => CompartmentInfo.lifecycle_state c = "ACTIVE" /\
                   CompartmentInfo.is_root c = false)
    (map info_of (filter is_active l)).
Proof.
  apply Forall_forall. intros c Hc.
  apply in_map_iff in Hc as (c0 & <- & Hc0).
  apply filter_In in Hc0 as [_ Ha]. unfold is_active in Ha.
  apply String.eqb_eq in Ha. simpl. auto.
Qed.

(** C5, as the code has it.  When the tenancy can be read and the chain of
    pages of the subtree listing (called on the tenancy with
    [compartment_id_in_subtree] set and access level [ACCESSIBLE]) ends,
    discovery returns the tenancy first, with state [ACTIVE] and [is_root]
    set, followed by one entry, with [is_root] unset, for each [ACTIVE]
    compartment of the pages, in the provider's order and as often as the
    provider lists it: compartments in another state are dropped, and
    nothing is deduplicated. *)
Theorem discovery_returns_root_then_active_compartments (fuel : nat)
    (self : ExadataDataFetcher) (tenancy : Tenancy.t)
    (pages : list (Page Compartment.t)) :
  IdentityClient.get_tenancy (identity_client self) (tenancy_id self)
  = Data tenancy ->
  page_chain (IdentityClient.list_compartments (identity_client self)
                (tenancy_id self) true "ACCESSIBLE") None pages ->
  List.length pages <= fuel ->
  exists rest,
    fst (list_all_compartments fuel self) = Ok (root_info tenancy :: rest) /\
    rest = map info_of (filter is_active (List.concat (map data pages))) /\
    Forall (fun c => CompartmentInfo.lifecycle_state c = "ACTIVE" /\
                     CompartmentInfo.is_root c = false) rest /\
    map CompartmentInfo.id rest =
    map Compartment.id (filter is_active (List.concat (map data pages))).
Proof.
  intros Ht Hc Hf.
  exists (map info_of (filter is_active (List.concat (map data pages)))).
  split; [| split; [reflexivity | split; [apply info_of_active |]]].
  - unfold list_all_compartments.
    rewrite try_reraise_fst by apply reraise_service_fst.
    rewrite bind_fst, print_fst. cbv iota.
    rewrite bind_fst, call_fst, Ht.
    rewrite bind_fst. unfold list_compartments_recursive.
    rewrite (while_pages_chain
               (fun c => ListCompartments (tenancy_id self) true "ACCESSIBLE" c)
               _ append_active pages None _ fuel Hc Hf).
    cbn [fst]. rewrite bind_fst, print_fst. cbv iota. rewrite ret_fst.
    now rewrite fold_left_append_active.
  - rewrite map_map. reflexivity.
Qed.

Lemma discovery_returns_root_then_active_compartments_witness :
  IdentityClient.get_tenancy (identity_client Mock.tenancy_ab) "ocid1.tenancy"
  = Data {| Tenancy.id := "ocid1.tenancy"; Tenancy.name := "root" |} /\
  page_chain (IdentityClient.list_compartments (identity_client Mock.tenancy_ab)
                "ocid1.tenancy" true "ACCESSIBLE") None
    (map snd (Mock.compartment_pages Mock.two_compartments)) /\
  exists rest,
    fst (list_all_compartments 3 Mock.tenancy_ab)
    = Ok (Mock.info "ocid1.tenancy" "root" true :: rest) /\
    rest = [Mock.info "A" "alpha" false; Mock.info "B" "beta" false] /\
    Forall (fun c => CompartmentInfo.lifecycle_state c = "ACTIVE" /\
                     CompartmentInfo.is_root c = false) rest /\
    map CompartmentInfo.id rest = ["A"; "B"].
Proof.
  assert (Hc : page_chain
                 (IdentityClient.list_compartments (identity_client Mock.tenancy_ab)
                    "ocid1.tenancy" true "ACCESSIBLE") None
                 (map snd (Mock.compartment_pages Mock.two_compartments))).
  { apply chain_more; [reflexivity | reflexivity |].
    apply chain_more; [reflexivity | reflexivity |].
    apply chain_last; reflexivity. }
  split; [reflexivity |]. split; [exact Hc |].
  exact (discovery_returns_root_then_active_compartments 3 Mock.tenancy_ab
           {| Tenancy.id := "ocid1.tenancy"; Tenancy.name := "root" |}
           _ eq_refl Hc (le_n 3)).
Defined.

(** C5, as the claim states it, fails: a provider that lists compartment
    [A] on two pages gets it twice in the result. *)
Lemma discovery_keeps_duplicates :
  exists out,
    fst (list_all_compartments 2 Mock.tenancy_repeating) = Ok out /\
    map CompartmentInfo.id out = ["ocid1.tenancy"; "A"; "A"] /\
    ~ NoDup (map CompartmentInfo.id out).
Proof.
  eexists. split; [reflexivity |]. split; [reflexivity |].
  intros H. inversion H as [| x l _ H']; subst.
  inversion H' as [| y l' Hnot _]; subst.
  apply Hnot. now left.
Qed.

(** ** Order of the report *)

Lemma page_chain_In {A} (get : option string -> response (Page A))
    (page : option string) (pages : list (Page A)) (pg : Page A) :
  page_chain get page pages -> In pg pages -> exists c, get c = Data pg.
Proof.
  induction 1 as [page pg0 Hg Hl | page pg0 rest Hg Hm Hr IH]; intros Hin.
  - destruct Hin as [<- | []]. now exists page.
  - destruct Hin as [<- | Hin]; [now exists page | now apply IH].
Qed.

(** A listing that returns has walked a chain of pages and returns their
    items. *)
Lemma list_exadata_infrastructures_Ok (fuel : nat) (self : ExadataDataFetcher)
    (comp : string) (items : list ExadataInfrastructure.t) :
  fst (list_exadata_infrastructures fuel self comp) = Ok items ->
  exists pages,
    page_chain (DatabaseClient.list_exadata_infrastructures (db_client self)
                  comp "DISPLAYNAME" "ASC") None pages /\
    List.length pages <= fuel /\
    items = List.concat (map data pages).
Proof.
  unfold list_exadata_infrastructures.
  rewrite try_reraise_fst by apply reraise_service_or_request_fst.
  intros H.
  apply (while_pages_Ok_chain
           (fun c => ListExadataInfrastructures comp "DISPLAYNAME" "ASC" c))
    in H as (pages & Hc & Hl & ->).
  exists pages. now rewrite fold_left_extend.
Qed.

Lemma list_vm_clusters_Ok (fuel : nat) (self : ExadataDataFetcher)
    (comp : string) (infra : option string) (items : list VmCluster.t) :
  fst (list_vm_clusters fuel self comp infra) = Ok items ->
  exists pages,
    page_chain (DatabaseClient.list_vm_clusters (db_client self)
                  comp infra "DISPLAYNAME" "ASC") None pages /\
    List.length pages <= fuel /\
    items = List.concat (map data pages).
Proof.
  unfold list_vm_clusters.
  rewrite try_reraise_fst by apply reraise_service_fst.
  intros H.
  apply (while_pages_Ok_chain
           (fun c => ListVmClusters comp infra "DISPLAYNAME" "ASC" c))
    in H as (pages & Hc & Hl & ->).
  exists pages. now rewrite fold_left_extend.
Qed.

Lemma Forall2_map_eq {A B C} (f : A -> C) (g : B -> C) (l : list A) (l' : list B) :
  Forall2 (fun a b => g b = f a) l l' -> map g l' = map f l.
Proof. induction 1; simpl; congruence. Qed.

Lemma Forall2_In_impl {A B} (R Q : A -> B -> Prop) (l : list A) (l' : list B) :
  (forall a b, In a l -> R a b -> Q a b) -> Forall2 R l l' -> Forall2 Q l l'.
Proof.
  intros H HF. induction HF as [| a b l l' Hab _ IH]; constructor.
  - apply H; [now left | exact Hab].
  - apply IH. intros a' b' Hin. apply H. now right.
Qed.

Lemma In_concat_pages {A} (pages : list (Page A)) (x : A) :
  In x (List.concat (map data pages)) ->
  exists pg, In pg pages /\ In x (data pg).
Proof.
  intros H. apply in_concat in H as (l & Hl & Hx).
  apply in_map_iff in Hl as (pg & <- & Hpg). now exists pg.
Qed.

(** Under a provider whose records carry the listed names, the cluster
    entries and the infrastructure entries show the names of the listing,
    in the order of the listing. *)
Lemma fetched_cluster_names (fuel : nat) (self : ExadataDataFetcher)
    (comp : string) (infra : option string)
    (cls : list VmCluster.t) (ds : list ClusterDetails) :
  names_agree self ->
  fst (list_vm_clusters fuel self comp infra) = Ok cls ->
  Forall2 (fetched_cluster self) cls ds ->
  map cluster_name ds = map VmCluster.display_name cls.
Proof.
  intros [_ Hagree] Hl Hf.
  apply list_vm_clusters_Ok in Hl as (pages & Hc & _ & ->).
  apply Forall2_map_eq. eapply Forall2_In_impl; [| exact Hf].
  intros cl d Hin (rec & Hrec & ->).
  apply In_concat_pages in Hin as (pg & Hpg & Hin).
  destruct (page_chain_In _ _ _ _ Hc Hpg) as (c & Hget).
  unfold cluster_name. simpl.
  exact (Hagree comp infra c pg cl rec Hget Hin Hrec).
Qed.

Lemma fetched_infra_names (fuel : nat) (self : ExadataDataFetcher)
    (comp : string) (items : list ExadataInfrastructure.t)
    (es : list InfraEntry) :
  names_agree self ->
  fst (list_exadata_infrastructures fuel self comp) = Ok items ->
  Forall2 (fetched_infra fuel self comp) items es ->
  map entry_name es = map ExadataInfrastructure.display_name items.
Proof.
  intros [Hagree _] Hl Hf.
  apply list_exadata_infrastructures_Ok in Hl as (pages & Hc & _ & ->).
  apply Forall2_map_eq. eapply Forall2_In_impl; [| exact Hf].
  intros item e Hin (rec & cls & Hrec & Hd & _).
  apply In_concat_pages in Hin as (pg & Hpg & Hin).
  destruct (page_chain_In _ _ _ _ Hc Hpg) as (c & Hget).
  unfold entry_name. rewrite Hd. simpl.
  exact (Hagree comp c pg item rec Hget Hin Hrec).
Qed.

Lemma scanned_subsequence (fuel : nat) (self : ExadataDataFetcher)
    (comps : list CompartmentInfo.t) (cds : list CompartmentData) :
  scanned fuel self comps cds ->
  subsequence
    (map (fun cd => (compartment_id cd, compartment_name cd)) cds)
    (map (fun c => (CompartmentInfo.id c, CompartmentInfo.name c)) comps).
Proof.
  induction 1; simpl; now constructor.
Qed.

(** C1, as the code has it.  The code sorts nothing itself: it asks the
    provider for display-name order in the two resource listings and keeps
    the order it is given.  So, when the provider honours that sort over
    the pages of each scope and its base records carry the listed names,
    the infrastructure entries of each compartment and the cluster entries
    of each infrastructure are ascending by display name (byte-wise; equal
    names may follow each other), while the compartment entries come in
    discovery order: the tenancy first, then the compartments in the order
    the provider listed them, whatever their names. *)
Theorem report_keeps_listing_order (fuel : nat) (self : ExadataDataFetcher)
    (r : Report) :
  honours_sort self ->
  names_agree self ->
  fst (fetch_all_data fuel self) = Ok r ->
  (exists comps,
      fst (list_all_compartments fuel self) = Ok comps /\
      subsequence
        (map (fun cd => (compartment_id cd, compartment_name cd)) (compartments r))
        (map (fun c => (CompartmentInfo.id c, CompartmentInfo.name c)) comps)) /\
  (forall cd,
      In cd (compartments r) ->
      ascending (map entry_name (infrastructures cd)) /\
      forall e,
        In e (infrastructures cd) ->
        ascending (map cluster_name (vm_clusters e))).
Proof.
  intros [Hsi Hsc] Hagree Hr.
  apply fst_Ok_run in Hr as (t & Hr).
  apply fetch_all_data_Ok in Hr as (comps & cds & t0 & Hc & Hscan & -> & _).
  rewrite compartments_report_of. split.
  - exists comps. split; [exact Hc | exact (scanned_subsequence _ _ _ _ Hscan)].
  - intros cd Hcd.
    destruct (scanned_In_inv _ _ _ _ Hscan cd Hcd)
      as (c & items & _ & _ & _ & Hl & _ & Hf).
    split.
    + rewrite (fetched_infra_names _ _ _ _ _ Hagree Hl Hf).
      apply list_exadata_infrastructures_Ok in Hl as (pages & Hpc & _ & ->).
      now apply (Hsi (CompartmentInfo.id c)).
    + intros e He.
      destruct (Forall2_In_right _ _ _ _ Hf He)
        as (item & _ & rec & cls & _ & _ & Hcls & Hfc).
      rewrite (fetched_cluster_names _ _ _ _ _ _ Hagree Hcls Hfc).
      apply list_vm_clusters_Ok in Hcls as (pages & Hpc & _ & ->).
      now apply (Hsc (CompartmentInfo.id c)
                   (Some (ExadataInfrastructure.id item))).
Qed.

(** ** The in-memory provider *)

Lemma find_cons_eq {A} (k : string) (a : A) (tbl : list (string * A)) :
  Mock.find k ((k, a) :: tbl) = Some a.
Proof. simpl. now rewrite String.eqb_refl. Qed.

Lemma find_cons_neq {A} (k k' : string) (a : A) (tbl : list (string * A)) :
  k' <> k -> Mock.find k ((k', a) :: tbl) = Mock.find k tbl.
Proof. intros H. simpl. apply String.eqb_neq in H. now rewrite H. Qed.

Lemma find_In {A} (k : string) (tbl : list (string * A)) (a : A) :
  Mock.find k tbl = Some a -> In (k, a) tbl.
Proof.
  induction tbl as [| [k' a'] tbl IH]; simpl; [discriminate |].
  destruct (String.eqb_spec k' k) as [-> | Hne].
  - intros H. injection H as ->. now left.
  - intros H. right. now apply IH.
Qed.

Lemma find_page_In {A} (page : option string)
    (tbl : list (option string * Page A)) (pg : Page A) :
  Mock.find_page page tbl = Some pg -> In pg (map snd tbl).
Proof.
  induction tbl as [| [c pg'] tbl IH]; simpl; [discriminate |].
  destruct (Mock.cursor_eqb c page).
  - intros H. injection H as ->. now left.
  - intros H. right. now apply IH.
Qed.

Lemma serve_scope_In {A} (tbl : list (string * list (option string * Page A)))
    (scope : string) (page : option string) (pg : Page A) (item : A) :
  Mock.serve_scope tbl scope page = Data pg ->
  In item (data pg) ->
  In item (Mock.all_items tbl).
Proof.
  unfold Mock.serve_scope, Mock.serve, Mock.all_items.
  destruct (Mock.find scope tbl) as [ps |] eqn:Hs.
  - destruct (Mock.find_page page ps) as [pg' |] eqn:Hp; [| discriminate].
    intros H Hin. injection H as ->.
    apply in_flat_map. exists (scope, ps). split; [now apply find_In |].
    apply find_page_In in Hp. apply in_map_iff in Hp as (p & <- & Hp).
    apply in_flat_map. now exists p.
  - intros H Hin. injection H as <-. contradiction.
Qed.

(** Records stored under their own identifier are served under it. *)
Lemma get_own_key {A} (key : A -> string) (tbl : list (string * A))
    (k : string) (a : A) :
  Forall (fun kv => key (snd kv) = fst kv) tbl ->
  Mock.get tbl k = Data a -> key a = k.
Proof.
  unfold Mock.get. intros Hall H.
  destruct (Mock.find k tbl) as [a' |] eqn:Hf; [| discriminate].
  injection H as ->. apply find_In in Hf.
  rewrite Forall_forall in Hall. exact (Hall _ Hf).
Qed.

(** A provider served from tables agrees on names when the records of
    the listed items do. *)
Lemma mock_names_agree (tenancy : string) (tb : Mock.tables) :
  Forall (fun item =>
            forall rec,
              Mock.get (Mock.infra_records tb) (ExadataInfrastructure.id item)
              = Data rec ->
              ExadataInfrastructure.display_name rec
              = ExadataInfrastructure.display_name item)
    (Mock.all_items (Mock.infra_pages tb)) ->
  Forall (fun item =>
            forall rec,
              Mock.get (Mock.cluster_records tb) (VmCluster.id item) = Data rec ->
              VmCluster.display_name rec = VmCluster.display_name item)
    (Mock.all_items (Mock.cluster_pages tb)) ->
  names_agree (Mock.fetcher tenancy tb).
Proof.
  intros Hi Hc. rewrite Forall_forall in Hi, Hc. split.
  - intros comp page pg item rec Hl Hin Hrec.
    exact (Hi item (serve_scope_In _ _ _ _ _ Hl Hin) rec Hrec).
  - intros comp infra page pg item rec Hl Hin Hrec.
    exact (Hc item (serve_scope_In _ _ _ _ _ Hl Hin) rec Hrec).
Qed.

Lemma names_agree_tenancy_ab : names_agree Mock.tenancy_ab.
Proof.
  apply mock_names_agree; repeat constructor;
    intros rec H; injection H as <-; reflexivity.
Qed.

Lemma honours_sort_tenancy_ab : honours_sort Mock.tenancy_ab.
Proof.
  split.
  - intros comp pages Hc.
    change (DatabaseClient.list_exadata_infrastructures
              (db_client Mock.tenancy_ab) comp "DISPLAYNAME" "ASC")
      with (Mock.serve_scope (Mock.infra_pages Mock.two_compartments) comp) in Hc.
    unfold Mock.serve_scope in Hc.
    cbn [Mock.infra_pages Mock.two_compartments] in Hc.
    destruct (string_dec "A" comp) as [<- | Hne].
    + rewrite find_cons_eq in Hc.
      inversion Hc as [? ? Hg Hl | ? ? ? Hg Hm Hr]; subst;
        vm_compute in Hg; injection Hg as <-; try discriminate.
      cbn [next_page] in Hr.
      inversion Hr as [? ? Hg Hl | ? ? ? Hg Hm' Hr']; subst;
        vm_compute in Hg; injection Hg as <-; try discriminate.
      repeat constructor.
    + rewrite find_cons_neq in Hc by assumption. cbn [Mock.find] in Hc.
      inversion Hc as [? ? Hg Hl | ? ? ? Hg Hm Hr]; subst;
        injection Hg as <-; try discriminate.
      constructor.
  - intros comp infra pages Hc.
    change (DatabaseClient.list_vm_clusters
              (db_client Mock.tenancy_ab) comp infra "DISPLAYNAME" "ASC")
      with (Mock.serve_scope (Mock.cluster_pages Mock.two_compartments)
              (Mock.scope_key comp infra)) in Hc.
    unfold Mock.serve_scope in Hc.
    cbn [Mock.cluster_pages Mock.two_compartments] in Hc.
    destruct (string_dec "A/i1" (Mock.scope_key comp infra)) as [Heq | Hne].
    + rewrite <- Heq, find_cons_eq in Hc.
      inversion Hc as [? ? Hg Hl | ? ? ? Hg Hm Hr]; subst;
        vm_compute in Hg; injection Hg as <-; try discriminate.
      cbn [next_page] in Hr.
      inversion Hr as [? ? Hg Hl | ? ? ? Hg Hm' Hr']; subst;
        vm_compute in Hg; injection Hg as <-; try discriminate.
      repeat constructor.
    + rewrite find_cons_neq in Hc by assumption. cbn [Mock.find] in Hc.
      inversion Hc as [? ? Hg Hl | ? ? ? Hg Hm Hr]; subst;
        injection Hg as <-; try discriminate.
      constructor.
Qed.

Lemma honours_sort_tenancy_zeta : honours_sort Mock.tenancy_zeta.
Proof.
  split.
  - intros comp pages Hc.
    change (DatabaseClient.list_exadata_infrastructures
              (db_client Mock.tenancy_zeta) comp "DISPLAYNAME" "ASC")
      with (Mock.serve_scope (Mock.infra_pages Mock.zeta_tables) comp) in Hc.
    unfold Mock.serve_scope in Hc.
    cbn [Mock.infra_pages Mock.zeta_tables] in Hc.
    destruct (string_dec "ocid1.zeta" comp) as [<- | Hne].
    + rewrite find_cons_eq in Hc.
      inversion Hc as [? ? Hg Hl | ? ? ? Hg Hm Hr]; subst;
        vm_compute in Hg; injection Hg as <-; try discriminate.
      repeat constructor.
    + rewrite find_cons_neq in Hc by assumption.
      destruct (string_dec "A" comp) as [<- | Hne'].
      * rewrite find_cons_eq in Hc.
        inversion Hc as [? ? Hg Hl | ? ? ? Hg Hm Hr]; subst;
          vm_compute in Hg; injection Hg as <-; try discriminate.
        repeat constructor.
      * rewrite find_cons_neq in Hc by assumption. cbn [Mock.find] in Hc.
        inversion Hc as [? ? Hg Hl | ? ? ? Hg Hm Hr]; subst;
          injection Hg as <-; try discriminate.
        constructor.
  - intros comp infra pages Hc.
    change (DatabaseClient.list_vm_clusters
              (db_client Mock.tenancy_zeta) comp infra "DISPLAYNAME" "ASC")
      with (Mock.serve_scope (Mock.cluster_pages Mock.zeta_tables)
              (Mock.scope_key comp infra)) in Hc.
    unfold Mock.serve_scope in Hc.
    cbn [Mock.cluster_pages Mock.zeta_tables Mock.find] in Hc.
    inversion Hc as [? ? Hg Hl | ? ? ? Hg Hm Hr]; subst;
      injection Hg as <-; try discriminate.
    constructor.
Qed.

Lemma report_keeps_listing_order_witness :
  honours_sort Mock.tenancy_ab /\
  names_agree Mock.tenancy_ab /\
  fst (fetch_all_data 3 Mock.tenancy_ab) = Ok Mock.report_ab /\
  (exists comps,
      fst (list_all_compartments 3 Mock.tenancy_ab) = Ok comps /\
      subsequence
        (map (fun cd => (compartment_id cd, compartment_name cd))
           (compartments Mock.report_ab))
        (map (fun c => (CompartmentInfo.id c, CompartmentInfo.name c)) comps)) /\
  (forall cd,
      In cd (compartments Mock.report_ab) ->
      ascending (map entry_name (infrastructures cd)) /\
      forall e,
        In e (infrastructures cd) ->
        ascending (map cluster_name (vm_clusters e))).
Proof.
  split; [exact honours_sort_tenancy_ab |].
  split; [exact names_agree_tenancy_ab |].
  split; [reflexivity |].
  exact (report_keeps_listing_order 3 Mock.tenancy_ab Mock.report_ab
           honours_sort_tenancy_ab names_agree_tenancy_ab eq_refl).
Defined.

(** C1, as the claim states it, fails.  In the tenancy named [zeta] the
    report lists the compartments as [zeta], [alpha], and the two
    infrastructures of [zeta] share the name [exa]: neither sequence is
    strictly ascending, although the provider serves every listing
    sorted. *)
Lemma report_order_is_not_strictly_ascending :
  honours_sort Mock.tenancy_zeta /\
  exists r,
    fst (fetch_all_data 3 Mock.tenancy_zeta) = Ok r /\
    map compartment_name (compartments r) = ["zeta"; "alpha"] /\
    ~ strictly_ascending (map compartment_name (compartments r)) /\
    ~ ascending (map compartment_name (compartments r)) /\
    exists cd,
      In cd (compartments r) /\
      map entry_name (infrastructures cd) = ["exa"; "exa"] /\
      ~ strictly_ascending (map entry_name (infrastructures cd)).
Proof.
  split; [exact honours_sort_tenancy_zeta |].
  exists Mock.report_zeta. split; [reflexivity |]. split; [reflexivity |].
  split; [| split].
  - intros H. inversion H as [| a l _ Hall]; subst.
    inversion Hall as [| b l' Hlt _]; subst. discriminate Hlt.
  - intros H. inversion H as [| a l _ Hall]; subst.
    inversion Hall as [| b l' Hle _]; subst. discriminate Hle.
  - eexists. split; [left; reflexivity |]. split; [reflexivity |].
    intros H. inversion H as [| a l _ Hall]; subst.
    inversion Hall as [| b l' Hlt _]; subst. discriminate Hlt.
Qed.

(** ** Determinism *)

(** A run that ends is reproduced by any run that agrees with it step by
    step, under any larger loop budget. *)
Section Agreement.
Context {A B : Type}.

Lemma bind_agree (m m' : M A) (k k' : A -> M B) :
  (terminates m -> m' = m) ->
  (forall a, terminates (k a) -> k' a = k a) ->
  terminates (bind m k) -> bind m' k' = bind m k.
Proof.
  unfold terminates. intros Hm Hk Ht. rewrite bind_fst in Ht.
  rewrite Hm by (intros E; now rewrite E in Ht).
  destruct m as [[a | e |] t]; simpl in *; trivial.
  now rewrite Hk.
Qed.

Lemma try_agree (m m' : M A) (h h' : exn -> M A) :
  (terminates m -> m' = m) ->
  (forall e, terminates (h e) -> h' e = h e) ->
  terminates (try_except m h) -> try_except m' h' = try_except m h.
Proof.
  unfold terminates. intros Hm Hh Ht. rewrite try_except_fst in Ht.
  rewrite Hm by (intros E; now rewrite E in Ht).
  destruct m as [[a | e |] t]; simpl in *; trivial.
  now rewrite Hh.
Qed.

End Agreement.

Lemma while_agree {A B} (fetch fetch' : option string -> M (Page A))
    (absorb : B -> list A -> B) (fuel : nat) :
  (forall page, fetch' page = fetch page) ->
  forall fuel' acc page,
    fuel <= fuel' ->
    terminates (while_pages fuel fetch absorb acc page) ->
    while_pages fuel' fetch' absorb acc page
    = while_pages fuel fetch absorb acc page.
Proof.
  intros Hf. induction fuel as [| fuel IH]; intros fuel' acc page Hle Ht.
  - now contradiction Ht.
  - destruct fuel' as [| fuel']; [lia |]. cbn [while_pages] in *.
    revert Ht. apply bind_agree; [intros _; apply Hf |].
    intros pg. destruct (truthy (next_page pg)); [| reflexivity].
    apply IH. lia.
Qed.

Lemma for_each_agree {A S} (body body' : A -> S -> M S) (xs : list A) :
  (forall x s, terminates (body x s) -> body' x s = body x s) ->
  forall s,
    terminates (for_each xs body s) ->
    for_each xs body' s = for_each xs body s.
Proof.
  intros Hb. induction xs as [| x xs IH]; intros s; simpl; [reflexivity |].
  apply bind_agree; [apply Hb | exact IH].
Qed.

Section SameResponses.
Variables a b : ExadataDataFetcher.
Hypothesis same : same_responses a b.
Variables fuel fuel' : nat.
Hypothesis budget : fuel <= fuel'.

Lemma list_all_compartments_agree :
  terminates (list_all_compartments fuel a) ->
  list_all_compartments fuel' b = list_all_compartments fuel a.
Proof.
  unfold list_all_compartments, list_compartments_recursive.
  rewrite <- (same_tenancy_id a b same).
  apply try_agree; [| reflexivity].
  apply bind_agree; [reflexivity | intros _].
  apply bind_agree; [now rewrite (same_get_tenancy a b same) | intros tenancy].
  apply bind_agree; [| reflexivity].
  apply while_agree; [| exact budget].
  intros page. now rewrite (same_list_compartments a b same).
Qed.

Lemma list_exadata_infrastructures_agree (comp : string) :
  terminates (list_exadata_infrastructures fuel a comp) ->
  list_exadata_infrastructures fuel' b comp
  = list_exadata_infrastructures fuel a comp.
Proof.
  unfold list_exadata_infrastructures.
  apply try_agree; [| reflexivity].
  apply while_agree; [| exact budget].
  intros page. now rewrite (same_list_exadata_infrastructures a b same).
Qed.

Lemma list_vm_clusters_agree (comp : string) (infra : option string) :
  terminates (list_vm_clusters fuel a comp infra) ->
  list_vm_clusters fuel' b comp infra = list_vm_clusters fuel a comp infra.
Proof.
  unfold list_vm_clusters.
  apply try_agree; [| reflexivity].
  apply while_agree; [| exact budget].
  intros page. now rewrite (same_list_vm_clusters a b same).
Qed.

Lemma get_exadata_infrastructure_details_agree (i : string) :
  get_exadata_infrastructure_details b i
  = get_exadata_infrastructure_details a i.
Proof.
  unfold get_exadata_infrastructure_details.
  now rewrite (same_get_exadata_infrastructure a b same),
    (same_get_exadata_infrastructure_ocpus a b same),
    (same_get_exadata_infrastructure_un_allocated_resources a b same).
Qed.

Lemma get_vm_cluster_details_agree (i : string) :
  get_vm_cluster_details b i = get_vm_cluster_details a i.
Proof.
  unfold get_vm_cluster_details.
  now rewrite (same_get_vm_cluster a b same),
    (same_get_vm_cluster_iorm_config a b same),
    (same_list_vm_cluster_patches a b same).
Qed.

Lemma cluster_step_agree (cl : VmCluster.t) (st : list ClusterDetails * nat) :
  cluster_step b cl st = cluster_step a cl st.
Proof.
  unfold cluster_step. destruct st.
  now rewrite get_vm_cluster_details_agree.
Qed.

Lemma infra_step_agree (comp : string) (infra : ExadataInfrastructure.t)
    (st : list InfraEntry * nat) :
  terminates (infra_step fuel a comp infra st) ->
  infra_step fuel' b comp infra st = infra_step fuel a comp infra st.
Proof.
  unfold infra_step. destruct st as [infras n].
  apply bind_agree; [reflexivity | intros _].
  apply bind_agree;
    [intros _; apply get_exadata_infrastructure_details_agree | intros d].
  apply bind_agree; [apply list_vm_clusters_agree | intros cls].
  apply bind_agree; [| reflexivity].
  apply for_each_agree. intros cl st _. apply cluster_step_agree.
Qed.

Lemma compartment_step_agree (c : CompartmentInfo.t) (st : Report * nat * nat) :
  terminates (compartment_step fuel a c st) ->
  compartment_step fuel' b c st = compartment_step fuel a c st.
Proof.
  unfold compartment_step. destruct st as [[res ti] tv].
  apply bind_agree; [reflexivity | intros _].
  apply bind_agree; [apply list_exadata_infrastructures_agree | intros items].
  destruct items as [| item items]; [reflexivity |].
  apply bind_agree; [reflexivity | intros _].
  apply bind_agree; [| reflexivity].
  apply for_each_agree. intros x s. apply infra_step_agree.
Qed.

Lemma fetch_all_data_agree :
  terminates (fetch_all_data fuel a) ->
  fetch_all_data fuel' b = fetch_all_data fuel a.
Proof.
  unfold fetch_all_data. rewrite <- (same_tenancy_id a b same).
  apply bind_agree; [apply list_all_compartments_agree | intros comps].
  apply bind_agree; [| reflexivity].
  apply for_each_agree. intros c st. apply compartment_step_agree.
Qed.
End SameResponses.

Lemma same_responses_refl (a : ExadataDataFetcher) : same_responses a a.
Proof. now constructor. Qed.


Lemma same_responses_shadowed :
  same_responses Mock.tenancy_ab Mock.tenancy_ab_shadowed.
Proof.
  constructor; try reflexivity.
  intros i. unfold Mock.tenancy_ab, Mock.tenancy_ab_shadowed, Mock.fetcher.
  cbn [db_client Mock.database DatabaseClient.get_exadata_infrastructure_ocpus].
  unfold Mock.get.
  cbn [Mock.ocpus Mock.two_compartments Mock.two_compartments_shadowed
       app Mock.find].
  destruct ("i1" =? i); reflexivity.
Qed.


(** ** Optional sub-records *)

(** A loop that completes is followed by any loop whose body follows its
    body. *)
Lemma for_each_sim {A S S'} (R : S -> S' -> Prop)
    (body : A -> S -> M S) (body' : A -> S' -> M S') :
  (forall x s s' s1,
      R s s' -> fst (body x s) = Ok s1 ->
      exists s1', fst (body' x s') = Ok s1' /\ R s1 s1') ->
  forall xs s s' out,
    R s s' -> fst (for_each xs body s) = Ok out ->
    exists out', fst (for_each xs body' s') = Ok out' /\ R out out'.
Proof.
  intros Hb. induction xs as [| x xs IH]; intros s s' out HR H.
  - simpl in H. injection H as <-. now exists s'.
  - rewrite for_each_fst_cons in H.
    destruct (fst (body x s)) as [s1 | e |] eqn:Hs; try discriminate.
    destruct (Hb x s s' s1 HR Hs) as (s1' & Hs' & HR1).
    destruct (IH s1 s1' out HR1 H) as (out' & Ho & HRo).
    exists out'. split; [| exact HRo].
    now rewrite for_each_fst_cons, Hs'.
Qed.

Ltac run_fst :=
  repeat (progress (rewrite ?bind_fst, ?print_fst, ?ret_fst; cbv iota)).

Section BrokenOptional.
Variable broken : request -> option exn.
Variable self : ExadataDataFetcher.
Hypothesis faithful : id_faithful self.

Lemma cluster_details_of_broken (i : string) (rec : VmCluster.t) :
  DatabaseClient.get_vm_cluster (db_client self) i = Data rec ->
  cluster_details_of (break_optional broken self) i rec
  = degrade_cluster broken (cluster_details_of self i rec).
Proof.
  intros Hrec. destruct faithful as [_ Hid]. apply Hid in Hrec.
  unfold cluster_details_of, degrade_cluster, blank_if. simpl. rewrite Hrec.
  destruct (broken (GetVmClusterIormConfig i)),
    (broken (ListVmClusterPatches i)); reflexivity.
Qed.

Lemma infra_details_of_broken (i : string) (rec : ExadataInfrastructure.t) :
  DatabaseClient.get_exadata_infrastructure (db_client self) i = Data rec ->
  infra_details_of (break_optional broken self) i rec
  = degrade_infra broken (infra_details_of self i rec).
Proof.
  intros Hrec. destruct faithful as [Hid _]. apply Hid in Hrec.
  unfold infra_details_of, degrade_infra, blank_if. simpl. rewrite Hrec.
  destruct (broken (GetExadataInfrastructureOcpus i)),
    (broken (GetExadataInfrastructureUnAllocatedResources i)); reflexivity.
Qed.

Lemma cluster_step_broken (cl : VmCluster.t) (acc out : list ClusterDetails)
    (n n' : nat) :
  fst (cluster_step self cl (acc, n)) = Ok (out, n') ->
  fst (cluster_step (break_optional broken self) cl
         (map (degrade_cluster broken) acc, n))
  = Ok (map (degrade_cluster broken) out, n').
Proof.
  intros H. apply cluster_step_Ok in H as (d & (rec & Hrec & ->) & -> & ->).
  unfold cluster_step. rewrite bind_fst, print_fst. cbv iota.
  rewrite bind_fst, get_vm_cluster_details_fst.
  change (DatabaseClient.get_vm_cluster (db_client (break_optional broken self)))
    with (DatabaseClient.get_vm_cluster (db_client self)).
  rewrite Hrec, ret_fst, (cluster_details_of_broken _ _ Hrec), map_app.
  reflexivity.
Qed.

Lemma cluster_loop_broken (cls : list VmCluster.t) (n n' : nat)
    (out : list ClusterDetails) :
  fst (for_each cls (cluster_step self) ([], n)) = Ok (out, n') ->
  fst (for_each cls (cluster_step (break_optional broken self)) ([], n))
  = Ok (map (degrade_cluster broken) out, n').
Proof.
  intros H.
  destruct (for_each_sim
              (fun s s' => s' = (map (degrade_cluster broken) (fst s), snd s))
              (cluster_step self) (cluster_step (break_optional broken self)))
    with (xs := cls) (s := ([] : list ClusterDetails, n))
         (s' := ([] : list ClusterDetails, n)) (out := (out, n'))
    as (out' & Ho & ->); trivial.
  intros x [acc k] s' [acc1 k1] -> Hs. cbn [fst snd].
  eexists. split; [exact (cluster_step_broken _ _ _ _ _ Hs) | reflexivity].
Qed.

Lemma infra_step_broken (fuel : nat) (comp : string)
    (infra : ExadataInfrastructure.t) (acc out : list InfraEntry) (n n' : nat) :
  fst (infra_step fuel self comp infra (acc, n)) = Ok (out, n') ->
  fst (infra_step fuel (break_optional broken self) comp infra
         (map (degrade_entry broken) acc, n))
  = Ok (map (degrade_entry broken) out, n').
Proof.
  unfold infra_step. run_fst.
  rewrite !get_exadata_infrastructure_details_fst.
  change (DatabaseClient.get_exadata_infrastructure
            (db_client (break_optional broken self)))
    with (DatabaseClient.get_exadata_infrastructure (db_client self)).
  destruct (DatabaseClient.get_exadata_infrastructure _ _) as [rec | e] eqn:Hrec;
    [| discriminate].
  run_fst.
  change (list_vm_clusters fuel (break_optional broken self))
    with (list_vm_clusters fuel self).
  destruct (fst (list_vm_clusters _ _ _ _)) as [cls | e |]; try discriminate.
  run_fst.
  destruct (fst (for_each cls (cluster_step self) _)) as [[ds k] | e |] eqn:Hloop;
    try discriminate.
  rewrite (cluster_loop_broken _ _ _ _ Hloop). run_fst.
  intros H. injection H as <- <-.
  rewrite map_app, (infra_details_of_broken _ _ Hrec). reflexivity.
Qed.

Lemma infra_loop_broken (fuel : nat) (comp : string)
    (items : list ExadataInfrastructure.t) (n n' : nat) (out : list InfraEntry) :
  fst (for_each items (infra_step fuel self comp) ([], n)) = Ok (out, n') ->
  fst (for_each items (infra_step fuel (break_optional broken self) comp) ([], n))
  = Ok (map (degrade_entry broken) out, n').
Proof.
  intros H.
  destruct (for_each_sim
              (fun s s' => s' = (map (degrade_entry broken) (fst s), snd s))
              (infra_step fuel self comp)
              (infra_step fuel (break_optional broken self) comp))
    with (xs := items) (s := ([] : list InfraEntry, n))
         (s' := ([] : list InfraEntry, n)) (out := (out, n'))
    as (out' & Ho & ->); trivial.
  intros x [acc k] s' [acc1 k1] -> Hs. cbn [fst snd].
  eexists. split; [exact (infra_step_broken _ _ _ _ _ _ _ Hs) | reflexivity].
Qed.

Lemma append_compartment_degrade (r : Report) (x : CompartmentData) :
  append_compartment (degrade_report broken r) (degrade_compartment broken x)
  = degrade_report broken (append_compartment r x).
Proof.
  unfold append_compartment, degrade_report. rewrite !map_map.
  apply map_ext. intros [k v]. simpl.
  destruct (k =? "compartments"); simpl; trivial.
  destruct v; simpl; trivial. now rewrite map_app.
Qed.

Lemma compartment_step_broken (fuel : nat) (c : CompartmentInfo.t)
    (res out : Report) (ti tv ti' tv' : nat) :
  fst (compartment_step fuel self c (res, ti, tv)) = Ok (out, ti', tv') ->
  fst (compartment_step fuel (break_optional broken self) c
         (degrade_report broken res, ti, tv))
  = Ok (degrade_report broken out, ti', tv').
Proof.
  unfold compartment_step. run_fst.
  change (list_exadata_infrastructures fuel (break_optional broken self))
    with (list_exadata_infrastructures fuel self).
  destruct (fst (list_exadata_infrastructures _ _ _)) as [items | e |];
    try discriminate.
  destruct items as [| item items].
  - run_fst. intros H. now injection H as <- <- <-.
  - run_fst.
    destruct (fst (for_each _ (infra_step fuel self _) _)) as [[es k] | e |]
      eqn:Hloop; try discriminate.
    rewrite (infra_loop_broken _ _ _ _ _ _ Hloop). run_fst.
    intros H. injection H as <- <- <-.
    now rewrite <- append_compartment_degrade.
Qed.

Lemma fetch_all_data_broken (fuel : nat) (r : Report) :
  fst (fetch_all_data fuel self) = Ok r ->
  fst (fetch_all_data fuel (break_optional broken self))
  = Ok (degrade_report broken r).
Proof.
  unfold fetch_all_data. run_fst.
  change (list_all_compartments fuel (break_optional broken self))
    with (list_all_compartments fuel self).
  destruct (fst (list_all_compartments fuel self)) as [comps | e |];
    try discriminate.
  run_fst.
  destruct (fst (for_each comps (compartment_step fuel self) _))
    as [[[res ti] tv] | e |] eqn:Hloop; try discriminate.
  destruct (for_each_sim
              (fun s s' =>
                 s' = (degrade_report broken (fst (fst s)), snd (fst s), snd s))
              (compartment_step fuel self)
              (compartment_step fuel (break_optional broken self)))
    with (xs := comps)
         (s := (report_of (tenancy_id self) [], 0, 0))
         (s' := (report_of (tenancy_id self) [], 0, 0))
         (out := (res, ti, tv))
    as (out' & Ho & ->); trivial.
  { intros x [[r0 i0] v0] s' [[r1 i1] v1] -> Hs. cbn [fst snd].
    eexists. split;
      [exact (compartment_step_broken _ _ _ _ _ _ _ _ Hs) | reflexivity]. }
  change (tenancy_id (break_optional broken self)) with (tenancy_id self).
  unfold report_of in Ho. rewrite Ho. run_fst.
  intros H. now injection H as <-.
Qed.
End BrokenOptional.

Lemma id_faithful_mock (tenancy : string) (tb : Mock.tables) :
  Forall (fun kv => ExadataInfrastructure.id (snd kv) = fst kv)
    (Mock.infra_records tb) ->
  Forall (fun kv => VmCluster.id (snd kv) = fst kv) (Mock.cluster_records tb) ->
  id_faithful (Mock.fetcher tenancy tb).
Proof.
  intros Hi Hc. split; intros i rec H.
  - exact (get_own_key ExadataInfrastructure.id _ _ _ Hi H).
  - exact (get_own_key VmCluster.id _ _ _ Hc H).
Qed.

Lemma id_faithful_tenancy_ab : id_faithful Mock.tenancy_ab.
Proof. apply id_faithful_mock; repeat constructor. Qed.

(** C3. Whatever the optional fetches do, the detail fetchers return the
    base record with each optional field filled from its own call: absent
    when that call throws ([None]; the empty list for the patches), the
    data otherwise.  And in the traversal: when some optional fetches start
    to throw on a provider that otherwise answers as before, the report is
    the same report with exactly the fields of those fetches blanked; every
    resource is still there, the other fields keep their values, and the
    entries of resources none of whose fetches broke are unchanged. *)
Theorem optional_failures_only_blank_their_fields (self : ExadataDataFetcher) :
  (forall i infra,
      DatabaseClient.get_exadata_infrastructure (db_client self) i = Data infra ->
      fst (get_exadata_infrastructure_details self i) =
      Ok {| infrastructure := infra;
            ocpu_info :=
              to_option (DatabaseClient.get_exadata_infrastructure_ocpus
                           (db_client self) i);
            unallocated_resources :=
              to_option
                (DatabaseClient.get_exadata_infrastructure_un_allocated_resources
                   (db_client self) i) |}) /\
  (forall i cl,
      DatabaseClient.get_vm_cluster (db_client self) i = Data cl ->
      fst (get_vm_cluster_details self i) =
      Ok {| cluster := cl;
            iorm_config :=
              to_option (DatabaseClient.get_vm_cluster_iorm_config
                           (db_client self) i);
            patches :=
              match DatabaseClient.list_vm_cluster_patches (db_client self) i with
              | Data l => firstn 5 l
              | Throws _ => []
              end |}) /\
  (forall broken fuel r,
      id_faithful self ->
      fst (fetch_all_data fuel self) = Ok r ->
      fst (fetch_all_data fuel (break_optional broken self))
      = Ok (degrade_report broken r)) /\
  (forall broken e,
      broken (GetExadataInfrastructureOcpus
                (ExadataInfrastructure.id (infrastructure (details e)))) = None ->
      broken (GetExadataInfrastructureUnAllocatedResources
                (ExadataInfrastructure.id (infrastructure (details e)))) = None ->
      (forall d,
          In d (vm_clusters e) ->
          broken (GetVmClusterIormConfig (VmCluster.id (cluster d))) = None /\
          broken (ListVmClusterPatches (VmCluster.id (cluster d))) = None) ->
      degrade_entry broken e = e).
Proof.
  repeat split.
  - intros i infra H. now rewrite get_exadata_infrastructure_details_fst, H.
  - intros i cl H. now rewrite get_vm_cluster_details_fst, H.
  - intros broken fuel r Hid Hr. now apply fetch_all_data_broken.
  - intros broken [[infra o u] ds] Ho Hu Hds.
    unfold degrade_entry, degrade_infra, blank_if. cbn [details vm_clusters] in *.
    cbn [infrastructure ocpu_info unallocated_resources] in *.
    rewrite Ho, Hu. f_equal.
    rewrite <- (map_id ds) at 2. apply map_ext_in.
    intros [cl io ps] Hin. destruct (Hds _ Hin) as [Hi Hp].
    unfold degrade_cluster, blank_if.
    cbn [cluster iorm_config patches] in *. now rewrite Hi, Hp.
Qed.

Lemma optional_failures_only_blank_their_fields_witness :
  DatabaseClient.get_vm_cluster (db_client Mock.tenancy_ab) "c2"
  = Data (Mock.vm_cluster "c2" "vm-2") /\
  fst (get_vm_cluster_details Mock.tenancy_ab "c2") = Ok Mock.details_c2 /\
  id_faithful Mock.tenancy_ab /\
  fst (fetch_all_data 3 Mock.tenancy_ab) = Ok Mock.report_ab /\
  fst (fetch_all_data 3
         (break_optional Mock.ocpus_and_iorm_down Mock.tenancy_ab))
  = Ok Mock.report_ab_blanked.
Proof.
  destruct (optional_failures_only_blank_their_fields Mock.tenancy_ab)
    as (_ & Hcl & Hrep & _).
  split; [reflexivity |].
  split; [exact (Hcl "c2" (Mock.vm_cluster "c2" "vm-2") eq_refl) |].
  split; [exact id_faithful_tenancy_ab |].
  split; [reflexivity |].
  exact (Hrep Mock.ocpus_and_iorm_down 3 Mock.report_ab
           id_faithful_tenancy_ab eq_refl).
Defined.

(** * Further properties of the traversal *)

(** ** The exception of a run is the one of its last call *)

Section LastCall.
Context {A B : Type}.

Lemma last_call_ret (a : A) : raised_by_last_call (ret a).
Proof. intros e H. discriminate H. Qed.

Lemma last_call_call (r : request) (answer : response A) :
  mandatory r = true -> raised_by_last_call (call r answer).
Proof.
  intros Hm e H. rewrite call_fst in H.
  destruct answer as [a | e']; [discriminate |]. injection H as ->.
  exists r, [], []. simpl. repeat split; auto.
Qed.

Lemma last_call_bind (m : M A) (k : A -> M B) :
  raised_by_last_call m ->
  (forall a, raised_by_last_call (k a)) ->
  raised_by_last_call (bind m k).
Proof.
  intros Hm Hk e H. rewrite bind_fst in H. rewrite bind_snd.
  destruct (fst m) as [a | e' |] eqn:E; try discriminate.
  - destruct (Hk a e H) as (r & before & after & Hs & Hr & Hn).
    exists r, (snd m ++ before), after. rewrite Hs, app_assoc. auto.
  - injection H as ->.
    destruct (Hm e E) as (r & before & after & Hs & Hr & Hn).
    exists r, before, after. rewrite app_nil_r. auto.
Qed.

Lemma last_call_try_reraise (m : M A) (h : exn -> M A) :
  raised_by_last_call m ->
  (forall e, fst (h e) = Raise e) ->
  (forall e, silent (h e)) ->
  raised_by_last_call (try_except m h).
Proof.
  intros Hm Hf Hs e H. rewrite try_reraise_fst in H by exact Hf.
  rewrite try_except_snd, H.
  destruct (Hm e H) as (r & before & after & Ht & Hr & Hn).
  exists r, before, (after ++ snd (h e)).
  rewrite Ht, <- app_assoc. simpl. repeat split; trivial.
  intros r' f Hin. apply in_app_or in Hin as [Hin | Hin].
  - exact (Hn r' f Hin).
  - exact (Hs e r' f Hin).
Qed.

Lemma last_call_optional (r : request) (answer : response A) (f : A -> B)
    (default : B) :
  raised_by_last_call (try_default (x <- call r answer ;; ret (f x)) default).
Proof. intros e H. rewrite try_default_call_fst in H. discriminate H. Qed.
End LastCall.

Lemma last_call_print (s : string) : raised_by_last_call (print s).
Proof. intros e H. discriminate H. Qed.

Lemma last_call_for_each {A S} (body : A -> S -> M S) (xs : list A) :
  (forall x s, raised_by_last_call (body x s)) ->
  forall s, raised_by_last_call (for_each xs body s).
Proof.
  intros Hb. induction xs as [| x xs IH]; intros s; simpl.
  - apply last_call_ret.
  - apply last_call_bind; [apply Hb | exact IH].
Qed.

Lemma last_call_while_pages {A B} (fetch : option string -> M (Page A))
    (absorb : B -> list A -> B) (fuel : nat) :
  (forall page, raised_by_last_call (fetch page)) ->
  forall acc page, raised_by_last_call (while_pages fuel fetch absorb acc page).
Proof.
  intros Hf. induction fuel as [| fuel IH]; intros acc page; simpl.
  - intros e H. discriminate H.
  - apply last_call_bind; [apply Hf |].
    intros pg. destruct (truthy (next_page pg)); [apply IH | apply last_call_ret].
Qed.

Create HintDb last_call.
#[local] Hint Resolve last_call_print last_call_ret last_call_optional
  last_call_while_pages last_call_for_each : last_call.
#[local] Hint Extern 1 (raised_by_last_call (call _ _)) =>
  apply last_call_call; reflexivity : last_call.
#[local] Hint Extern 1 (raised_by_last_call (bind _ _)) =>
  apply last_call_bind; [| intros ?] : last_call.
#[local] Hint Extern 1 (raised_by_last_call (try_except _ (reraise_service _))) =>
  apply last_call_try_reraise;
  [| apply reraise_service_fst | apply silent_reraise_service] : last_call.
#[local] Hint Extern 1
  (raised_by_last_call (try_except _ reraise_service_or_request)) =>
  apply last_call_try_reraise;
  [| apply reraise_service_or_request_fst
   | apply silent_reraise_service_or_request] : last_call.

Lemma last_call_list_all_compartments (fuel : nat) (self : ExadataDataFetcher) :
  raised_by_last_call (list_all_compartments fuel self).
Proof.
  unfold list_all_compartments, list_compartments_recursive.
  auto 10 with last_call.
Qed.

Lemma last_call_list_exadata_infrastructures (fuel : nat)
    (self : ExadataDataFetcher) (comp : string) :
  raised_by_last_call (list_exadata_infrastructures fuel self comp).
Proof. unfold list_exadata_infrastructures. auto 10 with last_call. Qed.

Lemma last_call_list_vm_clusters (fuel : nat) (self : ExadataDataFetcher)
    (comp : string) (infra : option string) :
  raised_by_last_call (list_vm_clusters fuel self comp infra).
Proof. unfold list_vm_clusters. auto 10 with last_call. Qed.

Lemma last_call_get_exadata_infrastructure_details (self : ExadataDataFetcher)
    (i : string) :
  raised_by_last_call (get_exadata_infrastructure_details self i).
Proof.
  unfold get_exadata_infrastructure_details.
  apply last_call_try_reraise;
    [| apply reraise_service_fst | apply silent_reraise_service].
  apply last_call_bind; [auto with last_call | intros infra].
  apply last_call_bind; [apply last_call_optional | intros o].
  apply last_call_bind; [apply last_call_optional | intros u].
  apply last_call_ret.
Qed.

Lemma last_call_get_vm_cluster_details (self : ExadataDataFetcher) (i : string) :
  raised_by_last_call (get_vm_cluster_details self i).
Proof.
  unfold get_vm_cluster_details.
  apply last_call_try_reraise;
    [| apply reraise_service_fst | apply silent_reraise_service].
  apply last_call_bind; [auto with last_call | intros cl].
  apply last_call_bind; [apply last_call_optional | intros o].
  apply last_call_bind; [apply last_call_optional | intros u].
  apply last_call_ret.
Qed.

#[local] Hint Resolve last_call_list_all_compartments
  last_call_list_exadata_infrastructures last_call_list_vm_clusters
  last_call_get_exadata_infrastructure_details
  last_call_get_vm_cluster_details : last_call.

Lemma last_call_cluster_step (self : ExadataDataFetcher) (cl : VmCluster.t)
    (st : list ClusterDetails * nat) :
  raised_by_last_call (cluster_step self cl st).
Proof. destruct st. unfold cluster_step. auto 10 with last_call. Qed.

#[local] Hint Resolve last_call_cluster_step : last_call.

Lemma last_call_infra_step (fuel : nat) (self : ExadataDataFetcher)
    (comp : string) (infra : ExadataInfrastructure.t)
    (st : list InfraEntry * nat) :
  raised_by_last_call (infra_step fuel self comp infra st).
Proof.
  destruct st. unfold infra_step.
  repeat (apply last_call_bind; [auto with last_call | intros ?]).
  match goal with p : (_ * _)%type |- _ => destruct p end.
  auto with last_call.
Qed.

#[local] Hint Resolve last_call_infra_step : last_call.

Lemma last_call_compartment_step (fuel : nat) (self : ExadataDataFetcher)
    (c : CompartmentInfo.t) (st : Report * nat * nat) :
  raised_by_last_call (compartment_step fuel self c st).
Proof.
  destruct st as [[res ti] tv]. unfold compartment_step.
  repeat (apply last_call_bind; [auto with last_call | intros ?]).
  match goal with l : list ExadataInfrastructure.t |- _ => destruct l end.
  - auto 10 with last_call.
  - repeat (apply last_call_bind; [auto with last_call | intros ?]).
    match goal with p : (_ * _)%type |- _ => destruct p end.
    auto 10 with last_call.
Qed.

#[local] Hint Resolve last_call_compartment_step : last_call.

(** X1. A traversal that raises [e] raised it on its last SDK call: that
    call is a listing or a base-record fetch, it threw [e], and the run
    made no call after it. *)
Theorem traversal_raises_on_its_last_call (fuel : nat)
    (self : ExadataDataFetcher) (e : exn) :
  fst (fetch_all_data fuel self) = Raise e ->
  exists r before after,
    snd (fetch_all_data fuel self) = before ++ Called r (Some e) :: after /\
    mandatory r = true /\
    forall r' f, ~ In (Called r' f) after.
Proof.
  revert e. change (raised_by_last_call (fetch_all_data fuel self)).
  unfold fetch_all_data.
  repeat (apply last_call_bind; [auto with last_call | intros ?]).
  match goal with p : (_ * _ * _)%type |- _ => destruct p as [[? ?] ?] end.
  auto 10 with last_call.
Qed.

Lemma traversal_raises_on_its_last_call_witness :
  fst (fetch_all_data 3 Mock.clusters_down)
  = Raise (ServiceError 503 "ServiceUnavailable") /\
  exists r before after,
    snd (fetch_all_data 3 Mock.clusters_down)
    = before ++ Called r (Some (ServiceError 503 "ServiceUnavailable")) :: after /\
    mandatory r = true /\
    forall r' f, ~ In (Called r' f) after.
Proof.
  split; [reflexivity |].
  exact (traversal_raises_on_its_last_call 3 Mock.clusters_down _ eq_refl).
Defined.

(** ** Service errors are logged before they leave *)

Section Logs.
Context {A B : Type}.

Lemma logs_ret (a : A) : logs_service_error (ret a).
Proof. intros s msg H. discriminate H. Qed.

Lemma logs_bind (m : M A) (k : A -> M B) :
  logs_service_error m ->
  (forall a, logs_service_error (k a)) ->
  logs_service_error (bind m k).
Proof.
  intros Hm Hk s msg H. rewrite bind_fst in H. rewrite bind_snd.
  destruct (fst m) as [a | e' |] eqn:E; try discriminate.
  - destruct (Hk a s msg H) as (label & before & Hl & Hs).
    exists label, (snd m ++ before). rewrite Hs, app_assoc. auto.
  - injection H as ->.
    destruct (Hm s msg E) as (label & before & Hl & Hs).
    exists label, before. rewrite app_nil_r. auto.
Qed.

Lemma logs_try_service (m : M A) (label : string) :
  In label service_labels ->
  logs_service_error (try_except m (reraise_service label)).
Proof.
  intros Hl s msg H.
  rewrite try_reraise_fst in H by apply reraise_service_fst.
  rewrite try_except_snd, H. exists label, (snd m). split; [exact Hl |].
  reflexivity.
Qed.

Lemma logs_try_service_or_request (m : M A) :
  logs_service_error (try_except m reraise_service_or_request).
Proof.
  intros s msg H.
  rewrite try_reraise_fst in H by apply reraise_service_or_request_fst.
  rewrite try_except_snd, H. exists "Service Error: ", (snd m).
  split; [now left | reflexivity].
Qed.
End Logs.

Lemma logs_print (s : string) : logs_service_error (print s).
Proof. intros st msg H. discriminate H. Qed.

Lemma logs_for_each {A S} (body : A -> S -> M S) (xs : list A) :
  (forall x s, logs_service_error (body x s)) ->
  forall s, logs_service_error (for_each xs body s).
Proof.
  intros Hb. induction xs as [| x xs IH]; intros s; simpl.
  - apply logs_ret.
  - apply logs_bind; [apply Hb | exact IH].
Qed.

Lemma logs_list_all_compartments (fuel : nat) (self : ExadataDataFetcher) :
  logs_service_error (list_all_compartments fuel self).
Proof. apply logs_try_service. now left. Qed.

Lemma logs_list_exadata_infrastructures (fuel : nat)
    (self : ExadataDataFetcher) (comp : string) :
  logs_service_error (list_exadata_infrastructures fuel self comp).
Proof. apply logs_try_service_or_request. Qed.

Lemma logs_list_vm_clusters (fuel : nat) (self : ExadataDataFetcher)
    (comp : string) (infra : option string) :
  logs_service_error (list_vm_clusters fuel self comp infra).
Proof. apply logs_try_service. now left. Qed.

Lemma logs_get_exadata_infrastructure_details (self : ExadataDataFetcher)
    (i : string) :
  logs_service_error (get_exadata_infrastructure_details self i).
Proof. apply logs_try_service. right. now left. Qed.

Lemma logs_get_vm_cluster_details (self : ExadataDataFetcher) (i : string) :
  logs_service_error (get_vm_cluster_details self i).
Proof. apply logs_try_service. right. right. now left. Qed.

Create HintDb logs.
#[local] Hint Resolve logs_print logs_ret logs_for_each
  logs_list_all_compartments logs_list_exadata_infrastructures
  logs_list_vm_clusters logs_get_exadata_infrastructure_details
  logs_get_vm_cluster_details : logs.

Lemma logs_cluster_step (self : ExadataDataFetcher) (cl : VmCluster.t)
    (st : list ClusterDetails * nat) :
  logs_service_error (cluster_step self cl st).
Proof.
  destruct st. unfold cluster_step.
  repeat (apply logs_bind; [auto with logs | intros ?]). apply logs_ret.
Qed.

#[local] Hint Resolve logs_cluster_step : logs.

Lemma logs_infra_step (fuel : nat) (self : ExadataDataFetcher)
    (comp : string) (infra : ExadataInfrastructure.t)
    (st : list InfraEntry * nat) :
  logs_service_error (infra_step fuel self comp infra st).
Proof.
  destruct st. unfold infra_step.
  repeat (apply logs_bind; [auto with logs | intros ?]).
  match goal with p : (_ * _)%type |- _ => destruct p end.
  apply logs_ret.
Qed.

#[local] Hint Resolve logs_infra_step : logs.

Lemma logs_compartment_step (fuel : nat) (self : ExadataDataFetcher)
    (c : CompartmentInfo.t) (st : Report * nat * nat) :
  logs_service_error (compartment_step fuel self c st).
Proof.
  destruct st as [[res ti] tv]. unfold compartment_step.
  repeat (apply logs_bind; [auto with logs | intros ?]).
  match goal with l : list ExadataInfrastructure.t |- _ => destruct l end.
  - apply logs_bind; [auto with logs | intros ?]. apply logs_ret.
  - repeat (apply logs_bind; [auto with logs | intros ?]).
    match goal with p : (_ * _)%type |- _ => destruct p end.
    apply logs_bind; [auto with logs | intros ?]. apply logs_ret.
Qed.

#[local] Hint Resolve logs_compartment_step : logs.

(** X2. A traversal that ends on a service error has printed, as its last
    line, one of the three [Service Error] messages with the status and the
    message of that error. *)
Theorem traversal_logs_the_service_error (fuel : nat)
    (self : ExadataDataFetcher) (status : Z) (message : string) :
  fst (fetch_all_data fuel self) = Raise (ServiceError status message) ->
  exists label before,
    In label service_labels /\
    snd (fetch_all_data fuel self)
    = before ++ [Printed (label ++ show_Z status ++ " - " ++ message)%string].
Proof.
  revert status message. change (logs_service_error (fetch_all_data fuel self)).
  unfold fetch_all_data.
  repeat (apply logs_bind; [auto with logs | intros ?]).
  match goal with p : (_ * _ * _)%type |- _ => destruct p as [[? ?] ?] end.
  apply logs_bind; [auto with logs | intros ?]. apply logs_ret.
Qed.

Lemma traversal_logs_the_service_error_witness :
  fst (fetch_all_data 3 Mock.clusters_down)
  = Raise (ServiceError 503 "ServiceUnavailable") /\
  exists label before,
    In label service_labels /\
    snd (fetch_all_data 3 Mock.clusters_down)
    = before ++ [Printed (label ++ show_Z 503 ++ " - " ++ "ServiceUnavailable")%string].
Proof.
  split; [reflexivity |].
  exact (traversal_logs_the_service_error 3 Mock.clusters_down _ _ eq_refl).
Defined.

(** ** What the traversal asks of the provider *)

Section Asks.
Variable self : ExadataDataFetcher.
Context {A B : Type}.

Lemma asks_silent (m : M A) : silent m -> asks_as_expected self m.
Proof. intros Hs r f Hin. now apply Hs in Hin. Qed.

Lemma asks_call (r : request) (answer : response A) :
  expected_request self r -> asks_as_expected self (call r answer).
Proof.
  intros Hr r' f Hin. rewrite call_snd in Hin.
  destruct Hin as [Heq | []]. now injection Heq as <- _.
Qed.

Lemma asks_bind (m : M A) (k : A -> M B) :
  asks_as_expected self m ->
  (forall a, asks_as_expected self (k a)) ->
  asks_as_expected self (bind m k).
Proof.
  intros Hm Hk r f Hin. rewrite bind_snd in Hin.
  apply in_app_or in Hin as [Hin | Hin]; [exact (Hm r f Hin) |].
  destruct (fst m) as [a | e |]; try contradiction.
  exact (Hk a r f Hin).
Qed.

Lemma asks_try_silent (m : M A) (h : exn -> M A) :
  asks_as_expected self m ->
  (forall e, silent (h e)) ->
  asks_as_expected self (try_except m h).
Proof.
  intros Hm Hs r f Hin. rewrite try_except_snd in Hin.
  apply in_app_or in Hin as [Hin | Hin]; [exact (Hm r f Hin) |].
  destruct (fst m) as [a | e |]; try contradiction.
  now apply Hs in Hin.
Qed.

Lemma asks_optional (r : request) (answer : response A) (f : A -> B)
    (default : B) :
  expected_request self r ->
  asks_as_expected self (try_default (x <- call r answer ;; ret (f x)) default).
Proof.
  intros Hr r' f' Hin. rewrite try_default_call_snd in Hin.
  destruct Hin as [Heq | []]. now injection Heq as <- _.
Qed.
End Asks.

Lemma asks_ret (self : ExadataDataFetcher) {A} (a : A) :
  asks_as_expected self (ret a).
Proof. apply asks_silent, silent_ret. Qed.

Lemma asks_print (self : ExadataDataFetcher) (s : string) :
  asks_as_expected self (print s).
Proof. apply asks_silent. intros r f [H | []]. discriminate H. Qed.

Lemma asks_for_each (self : ExadataDataFetcher) {A S} (body : A -> S -> M S)
    (xs : list A) :
  (forall x s, asks_as_expected self (body x s)) ->
  forall s, asks_as_expected self (for_each xs body s).
Proof.
  intros Hb. induction xs as [| x xs IH]; intros s; simpl.
  - apply asks_ret.
  - apply asks_bind; [apply Hb | exact IH].
Qed.

Lemma asks_while_pages (self : ExadataDataFetcher) {A B}
    (fetch : option string -> M (Page A)) (absorb : B -> list A -> B)
    (fuel : nat) :
  (forall page, asks_as_expected self (fetch page)) ->
  forall acc page,
    asks_as_expected self (while_pages fuel fetch absorb acc page).
Proof.
  intros Hf. induction fuel as [| fuel IH]; intros acc page; simpl.
  - intros r f [].
  - apply asks_bind; [apply Hf |].
    intros pg. destruct (truthy (next_page pg)); [apply IH | apply asks_ret].
Qed.

Create HintDb asks.
#[local] Hint Resolve asks_print asks_ret asks_for_each asks_while_pages : asks.
#[local] Hint Extern 1 (asks_as_expected _ (call _ _)) =>
  apply asks_call; simpl; auto using eq_refl : asks.
#[local] Hint Extern 1 (asks_as_expected _ (bind _ _)) =>
  apply asks_bind; [| intros ?] : asks.
#[local] Hint Extern 1 (asks_as_expected _ (try_default _ _)) =>
  apply asks_optional; exact I : asks.
#[local] Hint Extern 1 (asks_as_expected _ (try_except _ (reraise_service _))) =>
  apply asks_try_silent; [| apply silent_reraise_service] : asks.
#[local] Hint Extern 1
  (asks_as_expected _ (try_except _ reraise_service_or_request)) =>
  apply asks_try_silent; [| apply silent_reraise_service_or_request] : asks.

Lemma asks_list_all_compartments (fuel : nat) (self : ExadataDataFetcher) :
  asks_as_expected self (list_all_compartments fuel self).
Proof.
  unfold list_all_compartments, list_compartments_recursive.
  auto 10 with asks.
Qed.

Lemma asks_list_exadata_infrastructures (fuel : nat)
    (self : ExadataDataFetcher) (comp : string) :
  asks_as_expected self (list_exadata_infrastructures fuel self comp).
Proof. unfold list_exadata_infrastructures. auto 10 with asks. Qed.

Lemma asks_list_vm_clusters (fuel : nat) (self : ExadataDataFetcher)
    (comp infra : string) :
  asks_as_expected self (list_vm_clusters fuel self comp (Some infra)).
Proof.
  unfold list_vm_clusters.
  apply asks_try_silent; [| apply silent_reraise_service].
  apply asks_while_pages. intros page. apply asks_call. simpl.
  repeat split; discriminate.
Qed.

Lemma asks_get_exadata_infrastructure_details (self : ExadataDataFetcher)
    (i : string) :
  asks_as_expected self (get_exadata_infrastructure_details self i).
Proof. unfold get_exadata_infrastructure_details. auto 10 with asks. Qed.

Lemma asks_get_vm_cluster_details (self : ExadataDataFetcher) (i : string) :
  asks_as_expected self (get_vm_cluster_details self i).
Proof. unfold get_vm_cluster_details. auto 10 with asks. Qed.

#[local] Hint Resolve asks_list_all_compartments
  asks_list_exadata_infrastructures asks_list_vm_clusters
  asks_get_exadata_infrastructure_details asks_get_vm_cluster_details : asks.

Lemma asks_cluster_step (self : ExadataDataFetcher) (cl : VmCluster.t)
    (st : list ClusterDetails * nat) :
  asks_as_expected self (cluster_step self cl st).
Proof. destruct st. unfold cluster_step. auto 10 with asks. Qed.

#[local] Hint Resolve asks_cluster_step : asks.

Lemma asks_infra_step (fuel : nat) (self : ExadataDataFetcher)
    (comp : string) (infra : ExadataInfrastructure.t)
    (st : list InfraEntry * nat) :
  asks_as_expected self (infra_step fuel self comp infra st).
Proof.
  destruct st. unfold infra_step.
  repeat (apply asks_bind; [auto with asks | intros ?]).
  match goal with p : (_ * _)%type |- _ => destruct p end.
  auto with asks.
Qed.

#[local] Hint Resolve asks_infra_step : asks.

Lemma asks_compartment_step (fuel : nat) (self : ExadataDataFetcher)
    (c : CompartmentInfo.t) (st : Report * nat * nat) :
  asks_as_expected self (compartment_step fuel self c st).
Proof.
  destruct st as [[res ti] tv]. unfold compartment_step.
  repeat (apply asks_bind; [auto with asks | intros ?]).
  match goal with l : list ExadataInfrastructure.t |- _ => destruct l end.
  - auto 10 with asks.
  - repeat (apply asks_bind; [auto with asks | intros ?]).
    match goal with p : (_ * _)%type |- _ => destruct p end.
    auto 10 with asks.
Qed.

#[local] Hint Resolve asks_compartment_step : asks.

(** X3. Whatever the provider answers, every call of a traversal is one
    of these: the tenancy record of the fetcher's own tenancy; a
    compartment listing of that tenancy over its whole subtree at access
    level [ACCESSIBLE]; an infrastructure listing sorted by display name,
    ascending; a cluster listing narrowed to one infrastructure, sorted the
    same; or a fetch of a record by identifier.  The traversal never lists
    the clusters of a compartment unfiltered, and never lists resources
    unsorted. *)
Theorem traversal_asks_as_expected (fuel : nat) (self : ExadataDataFetcher)
    (r : request) (f : option exn) :
  In (Called r f) (snd (fetch_all_data fuel self)) ->
  match r with
  | GetTenancy t => t = tenancy_id self
  | ListCompartments c in_subtree access _ =>
      c = tenancy_id self /\ in_subtree = true /\ access = "ACCESSIBLE"
  | ListExadataInfrastructures _ sort_by sort_order _ =>
      sort_by = "DISPLAYNAME" /\ sort_order = "ASC"
  | ListVmClusters _ infra sort_by sort_order _ =>
      infra <> None /\ sort_by = "DISPLAYNAME" /\ sort_order = "ASC"
  | _ => True
  end.
Proof.
  revert r f. change (asks_as_expected self (fetch_all_data fuel self)).
  unfold fetch_all_data.
  repeat (apply asks_bind; [auto with asks | intros ?]).
  match goal with p : (_ * _ * _)%type |- _ => destruct p as [[? ?] ?] end.
  auto 10 with asks.
Qed.

Lemma traversal_asks_as_expected_witness :
  In (Called (ListVmClusters "A" (Some "i1") "DISPLAYNAME" "ASC" (Some "n1")) None)
     (snd (fetch_all_data 3 Mock.tenancy_ab)) /\
  Some "i1" <> None /\ "DISPLAYNAME" = "DISPLAYNAME" /\ "ASC" = "ASC".
Proof.
  assert (Hin : In (Called (ListVmClusters "A" (Some "i1") "DISPLAYNAME" "ASC"
                              (Some "n1")) None)
                   (snd (fetch_all_data 3 Mock.tenancy_ab))).
  { vm_compute. repeat (first [left; reflexivity | right]). }
  split; [exact Hin |].
  exact (traversal_asks_as_expected 3 Mock.tenancy_ab _ _ Hin).
Defined.

(** ** The report against the provider's listings *)

Lemma fetched_infra_cluster_count (fuel : nat) (self : ExadataDataFetcher)
    (comp : string) (item : ExadataInfrastructure.t) (e : InfraEntry) :
  fetched_infra fuel self comp item e ->
  List.length (vm_clusters e) = List.length (listed_clusters fuel self comp item).
Proof.
  intros (rec & cls & _ & _ & Hl & Hf). unfold listed_clusters. rewrite Hl.
  symmetry. exact (Forall2_length Hf).
Qed.

Lemma fetched_infras_cluster_count (fuel : nat) (self : ExadataDataFetcher)
    (comp : string) (items : list ExadataInfrastructure.t)
    (es : list InfraEntry) :
  Forall2 (fetched_infra fuel self comp) items es ->
  count_clusters_of es =
  list_sum (map (fun item => List.length (listed_clusters fuel self comp item))
              items).
Proof.
  unfold count_clusters_of.
  induction 1 as [| item e items es He _ IH]; simpl; [reflexivity |].
  now rewrite IH, (fetched_infra_cluster_count _ _ _ _ _ He).
Qed.

Lemma scanned_exact (fuel : nat) (self : ExadataDataFetcher)
    (comps : list CompartmentInfo.t) (cds : list CompartmentData) :
  scanned fuel self comps cds ->
  map (fun cd => (compartment_id cd, compartment_name cd)) cds =
  map (fun c => (CompartmentInfo.id c, CompartmentInfo.name c))
      (filter (has_infrastructure fuel self) comps) /\
  Forall (fun cd => infrastructures cd <> []) cds /\
  count_infrastructures cds =
  list_sum (map (fun c => List.length
                            (listed_infrastructures fuel self (CompartmentInfo.id c)))
              comps) /\
  count_vm_clusters cds =
  list_sum
    (map (fun c =>
            list_sum
              (map (fun item =>
                      List.length
                        (listed_clusters fuel self (CompartmentInfo.id c) item))
                 (listed_infrastructures fuel self (CompartmentInfo.id c))))
       comps).
Proof.
  unfold count_infrastructures, count_vm_clusters.
  induction 1 as [| c cs out Hl Hr IH | c cs items es out Hl Hne Hes Hr IH].
  - simpl. auto.
  - destruct IH as (Hk & Hn & Hi & Hv).
    assert (Hli : listed_infrastructures fuel self (CompartmentInfo.id c) = [])
      by (unfold listed_infrastructures; now rewrite Hl).
    assert (Hh : has_infrastructure fuel self c = false)
      by (unfold has_infrastructure; now rewrite Hli).
    cbn [filter map list_sum]. rewrite Hh, Hli. simpl. auto.
  - destruct IH as (Hk & Hn & Hi & Hv).
    destruct items as [| item items]; [now contradiction Hne |].
    assert (Hli : listed_infrastructures fuel self (CompartmentInfo.id c)
                  = item :: items)
      by (unfold listed_infrastructures; now rewrite Hl).
    assert (Hh : has_infrastructure fuel self c = true)
      by (unfold has_infrastructure; now rewrite Hli).
    cbn [filter map list_sum]. rewrite Hh, Hli.
    cbn [map list_sum infrastructures compartment_id compartment_name].
    repeat split.
    + now rewrite Hk.
    + constructor; [| exact Hn]. simpl. intros ->. inversion Hes.
    + unfold list_sum in *. cbn [fold_right]. rewrite Hi. f_equal.
      symmetry. exact (Forall2_length Hes).
    + pose proof (fetched_infras_cluster_count _ _ _ _ _ Hes) as Hcc.
      cbn [map] in Hcc. rewrite <- Hcc.
      unfold list_sum in *. cbn [fold_right]. now rewrite Hv.
Qed.

(** X4. The compartment entries of a returned report are exactly the
    discovered compartments that list at least one infrastructure, each
    with its identifier and name, in discovery order and as often as
    discovery found them; and no entry has an empty list of
    infrastructures. *)
Theorem report_compartments_are_the_populated_ones (fuel : nat)
    (self : ExadataDataFetcher) (r : Report) (comps : list CompartmentInfo.t) :
  fst (fetch_all_data fuel self) = Ok r ->
  fst (list_all_compartments fuel self) = Ok comps ->
  map (fun cd => (compartment_id cd, compartment_name cd)) (compartments r) =
  map (fun c => (CompartmentInfo.id c, CompartmentInfo.name c))
      (filter (has_infrastructure fuel self) comps) /\
  Forall (fun cd => infrastructures cd <> []) (compartments r).
Proof.
  intros Hr Hc.
  apply fst_Ok_run in Hr as (t & Hr).
  apply fetch_all_data_Ok in Hr as (comps' & cds & t0 & Hc' & Hsc & -> & _).
  rewrite Hc in Hc'. injection Hc' as <-.
  rewrite compartments_report_of.
  destruct (scanned_exact _ _ _ _ Hsc) as (Hk & Hn & _). auto.
Qed.

Lemma report_compartments_are_the_populated_ones_witness :
  fst (fetch_all_data 3 Mock.tenancy_ab) = Ok Mock.report_ab /\
  fst (list_all_compartments 3 Mock.tenancy_ab) = Ok Mock.discovered_ab /\
  map (fun cd => (compartment_id cd, compartment_name cd))
      (compartments Mock.report_ab) =
  map (fun c => (CompartmentInfo.id c, CompartmentInfo.name c))
      (filter (has_infrastructure 3 Mock.tenancy_ab) Mock.discovered_ab) /\
  Forall (fun cd => infrastructures cd <> []) (compartments Mock.report_ab).
Proof.
  split; [reflexivity |]. split; [reflexivity |].
  exact (report_compartments_are_the_populated_ones 3 Mock.tenancy_ab
           Mock.report_ab Mock.discovered_ab eq_refl eq_refl).
Defined.

(** X5. The totals a traversal prints in its last line are the provider's
    own counts: the number of infrastructures listed over all discovered
    compartments, and the number of clusters listed over all those
    infrastructures. *)
Theorem printed_totals_count_what_was_listed (fuel : nat)
    (self : ExadataDataFetcher) (r : Report) (t : list event)
    (comps : list CompartmentInfo.t) :
  fetch_all_data fuel self = (Ok r, t) ->
  fst (list_all_compartments fuel self) = Ok comps ->
  last t (Printed EmptyString) =
  Printed
    (total_line
       (list_sum
          (map (fun c =>
                  List.length
                    (listed_infrastructures fuel self (CompartmentInfo.id c)))
             comps))
       (list_sum
          (map (fun c =>
                  list_sum
                    (map (fun item =>
                            List.length
                              (listed_clusters fuel self (CompartmentInfo.id c)
                                 item))
                       (listed_infrastructures fuel self (CompartmentInfo.id c))))
             comps))).
Proof.
  intros Hr Hc.
  apply fetch_all_data_Ok in Hr as (comps' & cds & t0 & Hc' & Hsc & -> & ->).
  rewrite Hc in Hc'. injection Hc' as <-.
  destruct (scanned_exact _ _ _ _ Hsc) as (_ & _ & <- & <-).
  apply last_last.
Qed.

Lemma printed_totals_count_what_was_listed_witness :
  fetch_all_data 3 Mock.tenancy_ab = (Ok Mock.report_ab, Mock.trace_ab) /\
  fst (list_all_compartments 3 Mock.tenancy_ab) = Ok Mock.discovered_ab /\
  last Mock.trace_ab (Printed EmptyString) = Printed (total_line 1 2).
Proof.
  split; [reflexivity |]. split; [reflexivity |].
  exact (printed_totals_count_what_was_listed 3 Mock.tenancy_ab
           Mock.report_ab Mock.trace_ab Mock.discovered_ab eq_refl eq_refl).
Defined.

(** X6. In a returned report no cluster entry carries more than five
    pending updates. *)
Theorem report_patches_are_bounded (fuel : nat) (self : ExadataDataFetcher)
    (r : Report) :
  fst (fetch_all_data fuel self) = Ok r ->
  forall cd e d,
    In cd (compartments r) ->
    In e (infrastructures cd) ->
    In d (vm_clusters e) ->
    List.length (patches d) <= 5.
Proof.
  intros Hr cd e d Hcd He Hd.
  apply fst_Ok_run in Hr as (t & Hr).
  apply fetch_all_data_Ok in Hr as (comps & cds & t0 & _ & Hsc & -> & _).
  rewrite compartments_report_of in Hcd.
  destruct (scanned_In_inv _ _ _ _ Hsc cd Hcd)
    as (c & items & _ & _ & _ & _ & _ & Hf).
  destruct (Forall2_In_right _ _ _ _ Hf He)
    as (item & _ & rec & cls & _ & _ & _ & Hcls).
  destruct (Forall2_In_right _ _ _ _ Hcls Hd) as (cl & _ & rec' & _ & ->).
  unfold cluster_details_of, kept_patches. cbn [patches].
  destruct (DatabaseClient.list_vm_cluster_patches _ _) as [l | e'];
    [| simpl; lia].
  rewrite length_firstn. lia.
Qed.

Lemma report_patches_are_bounded_witness :
  fst (fetch_all_data 3 Mock.tenancy_ab) = Ok Mock.report_ab /\
  List.length (patches Mock.details_c1) <= 5.
Proof.
  split; [reflexivity |].
  apply (report_patches_are_bounded 3 Mock.tenancy_ab Mock.report_ab eq_refl
           {| compartment_id := "A";
              compartment_name := "alpha";
              infrastructures := [Mock.entry_i1] |}
           Mock.entry_i1 Mock.details_c1); simpl; auto.
Defined.

(** ** Listings that never end *)

Lemma while_pages_Raise {A B} (req : option string -> request)
    (get : option string -> response (Page A)) (absorb : B -> list A -> B)
    (fuel : nat) :
  forall page acc e,
    fst (while_pages fuel (fun c => call (req c) (get c)) absorb acc page)
    = Raise e ->
    exists c, get c = Throws e.
Proof.
  induction fuel as [| fuel IH]; intros page acc e H; [discriminate |].
  simpl in H. rewrite bind_fst, call_fst in H.
  destruct (get page) as [pg | e'] eqn:Hget.
  - destruct (truthy (next_page pg)); [now apply IH in H | discriminate].
  - injection H as ->. now exists page.
Qed.

Lemma while_pages_endless {A B} (req : option string -> request)
    (get : option string -> response (Page A)) (absorb : B -> list A -> B)
    (fuel : nat) (acc : B) :
  (forall c, exists pg, get c = Data pg) ->
  (forall pages, ~ page_chain get None pages) ->
  fst (while_pages fuel (fun c => call (req c) (get c)) absorb acc None)
  = OutOfFuel.
Proof.
  intros Hdata Hnone.
  destruct (fst (while_pages fuel _ absorb acc None)) as [out | e |] eqn:H;
    trivial.
  - apply while_pages_Ok_chain in H as (pages & Hc & _). now apply Hnone in Hc.
  - apply while_pages_Raise in H as (c & Hc).
    destruct (Hdata c) as (pg & Hpg). congruence.
Qed.

Lemma list_all_compartments_nonempty (fuel : nat) (self : ExadataDataFetcher)
    (comps : list CompartmentInfo.t) :
  fst (list_all_compartments fuel self) = Ok comps -> comps <> [].
Proof.
  unfold list_all_compartments.
  rewrite try_reraise_fst by apply reraise_service_fst.
  run_fst. rewrite call_fst.
  destruct (IdentityClient.get_tenancy _ _) as [tenancy | e]; [| discriminate].
  run_fst. unfold list_compartments_recursive.
  destruct (fst (while_pages _ _ _ _ _)) as [out | e |] eqn:H; try discriminate.
  apply (while_pages_Ok_chain
           (fun c => ListCompartments (tenancy_id self) true "ACCESSIBLE" c))
    in H as (pages & _ & _ & ->).
  run_fst. intros Heq. injection Heq as <-.
  rewrite fold_left_append_active. discriminate.
Qed.

(** X7. The listing loops put no bound on the number of pages.  On a
    provider that answers every page of a scope but never hands out a last
    cursor, [list_exadata_infrastructures] and [list_vm_clusters] neither
    return nor raise, whatever the loop budget; and when every
    infrastructure listing is like that, [fetch_all_data] never returns a
    report. *)
Theorem endless_listing_never_returns (self : ExadataDataFetcher) :
  (forall comp,
      (forall c, exists pg,
          DatabaseClient.list_exadata_infrastructures (db_client self)
            comp "DISPLAYNAME" "ASC" c = Data pg) ->
      (forall pages,
          ~ page_chain (DatabaseClient.list_exadata_infrastructures
                          (db_client self) comp "DISPLAYNAME" "ASC") None pages) ->
      forall fuel, fst (list_exadata_infrastructures fuel self comp) = OutOfFuel) /\
  (forall comp infra,
      (forall c, exists pg,
          DatabaseClient.list_vm_clusters (db_client self)
            comp infra "DISPLAYNAME" "ASC" c = Data pg) ->
      (forall pages,
          ~ page_chain (DatabaseClient.list_vm_clusters
                          (db_client self) comp infra "DISPLAYNAME" "ASC")
              None pages) ->
      forall fuel, fst (list_vm_clusters fuel self comp infra) = OutOfFuel) /\
  ((forall comp c, exists pg,
       DatabaseClient.list_exadata_infrastructures (db_client self)
         comp "DISPLAYNAME" "ASC" c = Data pg) ->
   (forall comp pages,
       ~ page_chain (DatabaseClient.list_exadata_infrastructures
                       (db_client self) comp "DISPLAYNAME" "ASC") None pages) ->
   forall fuel r, fst (fetch_all_data fuel self) <> Ok r).
Proof.
  assert (Hi : forall comp,
             (forall c, exists pg,
                 DatabaseClient.list_exadata_infrastructures (db_client self)
                   comp "DISPLAYNAME" "ASC" c = Data pg) ->
             (forall pages,
                 ~ page_chain (DatabaseClient.list_exadata_infrastructures
                                 (db_client self) comp "DISPLAYNAME" "ASC")
                     None pages) ->
             forall fuel,
               fst (list_exadata_infrastructures fuel self comp) = OutOfFuel).
  { intros comp Hd Hn fuel. unfold list_exadata_infrastructures.
    rewrite try_except_fst.
    now rewrite (while_pages_endless
                   (fun c => ListExadataInfrastructures comp "DISPLAYNAME" "ASC" c)
                   _ extend fuel [] Hd Hn). }
  split; [exact Hi |]. split.
  - intros comp infra Hd Hn fuel. unfold list_vm_clusters.
    rewrite try_except_fst.
    now rewrite (while_pages_endless
                   (fun c => ListVmClusters comp infra "DISPLAYNAME" "ASC" c)
                   _ extend fuel [] Hd Hn).
  - intros Hd Hn fuel r Hr.
    apply fst_Ok_run in Hr as (t & Hr).
    apply fetch_all_data_Ok in Hr as (comps & cds & t0 & Hc & Hsc & _).
    apply list_all_compartments_nonempty in Hc.
    inversion Hsc as [| c cs out Hl _ | c cs items es out Hl _ _ _]; subst.
    + now apply Hc.
    + rewrite (Hi _ (Hd _) (Hn _)) in Hl. discriminate.
    + rewrite (Hi _ (Hd _) (Hn _)) in Hl. discriminate.
Qed.

Lemma endless_listing_has_no_chain (comp : string)
    (pages : list (Page ExadataInfrastructure.t)) (page : option string) :
  ~ page_chain (DatabaseClient.list_exadata_infrastructures
                  (db_client endless_listing) comp "DISPLAYNAME" "ASC")
      page pages.
Proof.
  induction 1 as [page pg Hg Hl | page pg rest Hg Hm Hr IH]; [| exact IH].
  injection Hg as <-. discriminate Hl.
Qed.

Lemma endless_listing_never_returns_witness :
  (forall comp c, exists pg,
      DatabaseClient.list_exadata_infrastructures (db_client endless_listing)
        comp "DISPLAYNAME" "ASC" c = Data pg) /\
  (forall comp pages,
      ~ page_chain (DatabaseClient.list_exadata_infrastructures
                      (db_client endless_listing) comp "DISPLAYNAME" "ASC")
          None pages) /\
  fst (list_exadata_infrastructures 50 endless_listing "A") = OutOfFuel /\
  forall fuel r, fst (fetch_all_data fuel endless_listing) <> Ok r.
Proof.
  assert (Hd : forall comp c, exists pg,
             DatabaseClient.list_exadata_infrastructures
               (db_client endless_listing) comp "DISPLAYNAME" "ASC" c = Data pg)
    by (intros comp c; eexists; reflexivity).
  assert (Hn : forall comp pages,
             ~ page_chain (DatabaseClient.list_exadata_infrastructures
                             (db_client endless_listing) comp "DISPLAYNAME" "ASC")
                 None pages)
    by (intros comp pages; apply endless_listing_has_no_chain).
  destruct (endless_listing_never_returns endless_listing) as (Ti & _ & Tf).
  split; [exact Hd |]. split; [exact Hn |]. split.
  - exact (Ti "A" (Hd "A") (Hn "A") 50).
  - exact (Tf Hd Hn).
Defined.

(** * The command line program *)

(** ** Runs of the program *)

Section RunFacts.
Context {A B : Type}.

Lemma run_bind_fst (m : Run A) (k : A -> Run B) :
  fst (run_bind m k) =
  match fst m with
  | Ok a => fst (k a)
  | Raise e => Raise e
  | OutOfFuel => OutOfFuel
  end.
Proof.
  destruct m as [[a | e |] t]; simpl; trivial.
  destruct (k a); reflexivity.
Qed.

Lemma run_bind_snd (m : Run A) (k : A -> Run B) :
  snd (run_bind m k) =
  snd m ++ match fst m with
           | Ok a => snd (k a)
           | _ => []
           end.
Proof.
  destruct m as [[a | e |] t]; simpl; try (now rewrite app_nil_r).
  destruct (k a); reflexivity.
Qed.

Lemma lift_fst (m : M A) : fst (lift m) = fst m.
Proof. reflexivity. Qed.

Lemma lift_snd (m : M A) : snd (lift m) = map Ran (snd m).
Proof. reflexivity. Qed.
End RunFacts.

Lemma saved_app (a b : list main_event) : saved (a ++ b) = saved a ++ saved b.
Proof. apply flat_map_app. Qed.

Lemma saved_Ran (t : list event) : saved (map Ran t) = [].
Proof. induction t as [| e t IH]; simpl; trivial. Qed.

Lemma called_app (a b : list main_event) : called (a ++ b) = called a ++ called b.
Proof. apply flat_map_app. Qed.

Lemma printed_app (a b : list main_event) :
  printed (a ++ b) = printed a ++ printed b.
Proof. apply flat_map_app. Qed.

Lemma for_each_prints {A} (body : A -> unit -> M unit) (xs : list A) :
  (forall x, fst (body x tt) = Ok tt) -> fst (for_each xs body tt) = Ok tt.
Proof.
  intros Hb. induction xs as [| x xs IH]; simpl; trivial.
  now rewrite bind_fst, Hb.
Qed.

Lemma show_cluster_fst (sdk : Attributes) (d : ClusterDetails) :
  fst (show_cluster sdk d tt) = Ok tt.
Proof. reflexivity. Qed.

Lemma show_infrastructure_fst (sdk : Attributes) (e : InfraEntry) :
  fst (show_infrastructure sdk e tt) = Ok tt.
Proof.
  unfold show_infrastructure. run_fst.
  destruct (vm_clusters e) as [| d ds]; run_fst; trivial.
  now rewrite (for_each_prints _ _ (show_cluster_fst sdk)).
Qed.

Lemma show_compartment_fst (sdk : Attributes) (cd : CompartmentData) :
  fst (show_compartment sdk cd tt) = Ok tt.
Proof.
  unfold show_compartment. run_fst.
  apply for_each_prints, show_infrastructure_fst.
Qed.

(** The exit status and the trace of [main], from the run of its body. *)
Lemma main_fst (fuel : nat) (sdk : Attributes) (env : Environment) (args : Args) :
  fst (main fuel sdk env args) =
  match fst (main_try fuel sdk env args) with
  | Ok _ => Some 0
  | Raise _ => Some 1
  | OutOfFuel => None
  end.
Proof.
  unfold main.
  destruct (run_bind (lift program_banner) _) as [o t] eqn:H.
  assert (Ho : fst (run_bind (lift program_banner)
                      (fun _ => main_try fuel sdk env args)) = o)
    by now rewrite H.
  rewrite run_bind_fst in Ho. cbn [lift fst program_banner] in Ho.
  change (fst program_banner) with (Ok tt) in Ho. cbv iota in Ho.
  rewrite Ho. now destruct o.
Qed.

Lemma main_snd (fuel : nat) (sdk : Attributes) (env : Environment) (args : Args) :
  snd (main fuel sdk env args) =
  map Ran (snd program_banner) ++ snd (main_try fuel sdk env args)
  ++ match fst (main_try fuel sdk env args) with
     | Raise e =>
         [ Ran (Printed (LF ++ "Error occurred: " ++ exception_text sdk e));
           Traceback e ]
     | _ => []
     end.
Proof.
  unfold main.
  destruct (run_bind (lift program_banner) _) as [o t] eqn:H.
  assert (Ho : fst (run_bind (lift program_banner)
                      (fun _ => main_try fuel sdk env args)) = o)
    by now rewrite H.
  assert (Ht : snd (run_bind (lift program_banner)
                      (fun _ => main_try fuel sdk env args)) = t)
    by now rewrite H.
  rewrite run_bind_fst in Ho. rewrite run_bind_snd in Ht.
  change (fst (lift program_banner)) with (@Ok unit tt) in Ho, Ht.
  cbv iota in Ho, Ht. rewrite lift_snd in Ht. rewrite Ho, <- Ht.
  destruct o; simpl; rewrite <- ?app_assoc, ?app_nil_r; reflexivity.
Qed.

Lemma run_bind_ret {A B} (a : A) (k : A -> Run B) :
  run_bind (Ok a, []) k = k a.
Proof. simpl. now destruct (k a). Qed.

Lemma subscript_compartments (tenancy : string) (cds : list CompartmentData) :
  subscript (report_of tenancy cds) "compartments" = ret (VCompartments cds).
Proof. reflexivity. Qed.

Lemma subscript_tenancy_id (tenancy : string) (cds : list CompartmentData) :
  subscript (report_of tenancy cds) "tenancy_id" = ret (VStr tenancy).
Proof. reflexivity. Qed.

Lemma results_banner_fst : fst results_banner = Ok tt.
Proof. reflexivity. Qed.

(** The body of [main] once the traversal has returned its report. *)
Lemma main_try_after_traversal (fuel : nat) (sdk : Attributes)
    (env : Environment) (args : Args) (self : ExadataDataFetcher)
    (cds : list CompartmentData) (t : list event) :
  new_fetcher env (profile args) = Data self ->
  fetch_all_data fuel self = (Ok (report_of (tenancy_id self) cds), t) ->
  main_try fuel sdk env args =
  match cds with
  | [] =>
      (Ok tt,
       map Ran (t ++ snd results_banner
                ++ [Printed "No Exadata infrastructures found."]))
  | _ :: _ =>
      let shown :=
        map Ran (t ++ snd results_banner
                 ++ snd (for_each cds (show_compartment sdk) tt)
                 ++ [Printed ("Saving raw data to " ++ output args ++ "...")]) in
      match open_output env (output args) with
      | None =>
          (Ok tt,
           shown
           ++ [ Dumped (output args)
                  (json_data_of sdk (VStr (tenancy_id self)) cds);
                Ran (Printed "Data saved successfully!") ])
      | Some e => (Raise e, shown)
      end
  end.
Proof.
  intros Hnew Hrun. unfold main_try, construct. rewrite Hnew, run_bind_ret.
  apply injective_projections.
  - rewrite run_bind_fst, lift_fst, Hrun. cbn [fst].
    rewrite run_bind_fst, lift_fst, results_banner_fst.
    rewrite run_bind_fst, lift_fst, subscript_compartments, ret_fst.
    destruct cds as [| cd cds']; [reflexivity |].
    cbn [truth negb]. cbv iota.
    rewrite run_bind_fst, lift_fst. cbn [iterate]. rewrite ret_fst.
    rewrite run_bind_fst, lift_fst,
      (for_each_prints _ _ (show_compartment_fst sdk)).
    rewrite run_bind_fst, lift_fst, print_fst.
    rewrite run_bind_fst, lift_fst, subscript_tenancy_id, ret_fst.
    rewrite run_bind_fst. unfold dump.
    destruct (open_output env (output args)); reflexivity.
  - rewrite run_bind_snd, lift_fst, lift_snd, Hrun. cbn [fst snd].
    rewrite run_bind_snd, lift_fst, lift_snd, results_banner_fst.
    rewrite run_bind_snd, lift_fst, lift_snd, subscript_compartments, ret_fst.
    cbn [ret snd map app].
    destruct cds as [| cd cds'].
    + cbn [truth negb]. cbv iota. rewrite lift_snd.
      rewrite !map_app. reflexivity.
    + cbn [truth negb]. cbv iota.
      rewrite run_bind_snd, lift_fst, lift_snd. cbn [iterate].
      rewrite ret_fst. cbn [ret snd map app].
      rewrite run_bind_snd, lift_fst, lift_snd,
        (for_each_prints _ _ (show_compartment_fst sdk)).
      rewrite run_bind_snd, lift_fst, lift_snd, print_fst.
      rewrite run_bind_snd, lift_fst, lift_snd, subscript_tenancy_id, ret_fst.
      cbn [ret snd map app].
      rewrite run_bind_snd. unfold dump.
      destruct (open_output env (output args)); cbn [fst snd];
        rewrite ?lift_snd, !map_app, <- ?app_assoc, ?app_nil_r; reflexivity.
Qed.

Lemma main_try_failed_construct (fuel : nat) (sdk : Attributes)
    (env : Environment) (args : Args) (e : exn) :
  new_fetcher env (profile args) = Throws e ->
  main_try fuel sdk env args = (Raise e, []).
Proof. intros H. unfold main_try, construct. now rewrite H. Qed.

Lemma main_try_failed_traversal (fuel : nat) (sdk : Attributes)
    (env : Environment) (args : Args) (self : ExadataDataFetcher) (e : exn) :
  new_fetcher env (profile args) = Data self ->
  fst (fetch_all_data fuel self) = Raise e ->
  main_try fuel sdk env args = (Raise e, map Ran (snd (fetch_all_data fuel self))).
Proof.
  intros Hnew Hrun. unfold main_try, construct. rewrite Hnew, run_bind_ret.
  apply injective_projections.
  - now rewrite run_bind_fst, lift_fst, Hrun.
  - rewrite run_bind_snd, lift_fst, lift_snd, Hrun. cbn [fst snd].
    now rewrite app_nil_r.
Qed.

(** ** Exit status and saved file *)

(** Exit status and saved files of [main] once the traversal has returned
    its report. *)
Lemma main_after_traversal (fuel : nat) (sdk : Attributes)
    (env : Environment) (args : Args) (self : ExadataDataFetcher) (r : Report) :
  new_fetcher env (profile args) = Data self ->
  fst (fetch_all_data fuel self) = Ok r ->
  fst (main fuel sdk env args) =
  match compartments r, open_output env (output args) with
  | _ :: _, Some _ => Some 1
  | _, _ => Some 0
  end /\
  saved (snd (main fuel sdk env args)) =
  match compartments r, open_output env (output args) with
  | _ :: _, None =>
      [ (output args,
         json_data_of sdk (VStr (tenancy_id self)) (compartments r)) ]
  | _, _ => []
  end.
Proof.
  intros Hnew Hr.
  apply fst_Ok_run in Hr as (t & Hr).
  destruct (fetch_all_data_Ok _ _ _ _ Hr) as (comps & cds & t0 & _ & _ & -> & _).
  rewrite compartments_report_of.
  rewrite main_fst, main_snd, (main_try_after_traversal _ _ _ _ _ _ _ Hnew Hr).
  destruct cds as [| cd cds'];
    [| destruct (open_output env (output args)) as [e |]];
    cbn [fst snd]; (split; [reflexivity |]);
    rewrite !saved_app, !saved_Ran; reflexivity.
Qed.




(** X9. When the traversal returns a report without any compartment
    entry, [main] prints [No Exadata infrastructures found.] last, ends with
    exit status 0 and returns before the save: no file is written, not even
    an empty document. *)
Theorem main_saves_nothing_for_an_empty_report (fuel : nat) (sdk : Attributes)
    (env : Environment) (args : Args) (self : ExadataDataFetcher) (r : Report) :
  new_fetcher env (profile args) = Data self ->
  fst (fetch_all_data fuel self) = Ok r ->
  compartments r = [] ->
  fst (main fuel sdk env args) = Some 0 /\
  saved (snd (main fuel sdk env args)) = [] /\
  exists t,
    snd (main fuel sdk env args) =
    t ++ [Ran (Printed "No Exadata infrastructures found.")].
Proof.
  intros Hnew Hr Hempty.
  apply fst_Ok_run in Hr as (t & Hr).
  destruct (fetch_all_data_Ok _ _ _ _ Hr) as (comps & cds & t0 & _ & _ & -> & _).
  rewrite compartments_report_of in Hempty. subst cds.
  rewrite main_fst, main_snd, (main_try_after_traversal _ _ _ _ _ _ _ Hnew Hr).
  cbn [fst snd]. split; [reflexivity |]. split.
  - rewrite !saved_app, !saved_Ran. reflexivity.
  - eexists. rewrite app_nil_r, !map_app, !app_assoc. reflexivity.
Qed.

Lemma main_saves_nothing_for_an_empty_report_witness :
  new_fetcher (environment_of Mock.tenancy_repeating) (profile default_args)
  = Data Mock.tenancy_repeating /\
  fst (fetch_all_data 3 Mock.tenancy_repeating) = Ok (report_of "ocid1.tenancy" []) /\
  compartments (report_of "ocid1.tenancy" []) = [] /\
  fst (main 3 plain_attributes (environment_of Mock.tenancy_repeating)
         default_args) = Some 0 /\
  saved (snd (main 3 plain_attributes (environment_of Mock.tenancy_repeating)
                default_args)) = [].
Proof.
  split; [reflexivity |]. split; [reflexivity |]. split; [reflexivity |].
  destruct (main_saves_nothing_for_an_empty_report 3 plain_attributes
              (environment_of Mock.tenancy_repeating) default_args
              Mock.tenancy_repeating (report_of "ocid1.tenancy" [])
              eq_refl eq_refl eq_refl) as (Hs & Hn & _).
  split; [exact Hs | exact Hn].
Defined.



(** ** The saved document against the report *)

Lemma fold_left_append_map {A B} (f : A -> B) (l : list A) :
  forall acc, fold_left (fun acc x => acc ++ [f x]) l acc = acc ++ map f l.
Proof.
  induction l as [| x l IH]; intros acc; simpl.
  - now rewrite app_nil_r.
  - now rewrite IH, <- app_assoc.
Qed.

Lemma document_outline_json_data_of (sdk : Attributes) (tenancy : value)
    (cds : list CompartmentData) :
  document_outline (json_data_of sdk tenancy cds) = report_outline cds.
Proof.
  unfold document_outline, report_outline, json_data_of.
  cbn [JsonData.compartments]. rewrite fold_left_append_map, app_nil_l, map_map.
  apply map_ext. intros cd. unfold compartment_dict.
  cbn [JsonCompartment.compartment_id JsonCompartment.compartment_name
       JsonCompartment.infrastructures].
  rewrite fold_left_append_map, app_nil_l, map_map. f_equal.
  apply map_ext. intros e. unfold infra_dict.
  cbn [JsonEntry.infrastructure JsonEntry.vm_clusters JsonInfrastructure.id].
  rewrite fold_left_append_map, app_nil_l, map_map. reflexivity.
Qed.



(** ** Optional details and the saved document *)

Lemma cluster_dict_degrade (sdk : Attributes) (broken : request -> option exn)
    (d : ClusterDetails) :
  cluster_dict sdk (degrade_cluster broken d) = cluster_dict sdk d.
Proof. reflexivity. Qed.

Lemma infra_dict_degrade (sdk : Attributes) (broken : request -> option exn)
    (e : InfraEntry) :
  infra_dict sdk (degrade_entry broken e) = infra_dict sdk e.
Proof.
  unfold infra_dict, degrade_entry. cbn [details vm_clusters].
  rewrite !fold_left_append_map, map_map.
  cbn [degrade_infra infrastructure]. do 2 f_equal.
Qed.

Lemma compartment_dict_degrade (sdk : Attributes)
    (broken : request -> option exn) (cd : CompartmentData) :
  compartment_dict sdk (degrade_compartment broken cd) = compartment_dict sdk cd.
Proof.
  unfold compartment_dict, degrade_compartment.
  cbn [compartment_id compartment_name infrastructures].
  rewrite !fold_left_append_map, map_map. do 2 f_equal.
  apply map_ext. intros e. apply infra_dict_degrade.
Qed.

Lemma json_data_of_degrade (sdk : Attributes) (broken : request -> option exn)
    (tenancy : value) (cds : list CompartmentData) :
  json_data_of sdk tenancy (map (degrade_compartment broken) cds)
  = json_data_of sdk tenancy cds.
Proof.
  unfold json_data_of. rewrite !fold_left_append_map, map_map. do 2 f_equal.
  apply map_ext. intros cd. apply compartment_dict_degrade.
Qed.



(** ** The summaries *)

Ltac other_line H :=
  repeat (destruct H as [H | H];
          [ try (vm_compute in H; discriminate H) | ]);
  try contradiction.

